(** * Student Skill Assistant API: a shallow embedding of [backend/server.py]

    The development follows the layout of the source file: the security
    helpers, the static tables, the utility functions and the routes.  The
    document store (MongoDB through motor), the token library (python-jose),
    the password context (passlib) and the web framework (FastAPI on
    Starlette) are libraries the program calls; each is given by a small
    executable model stated next to its first use. *)

From Stdlib Require Import ZArith Floats Uint63 Ascii.
From stdpp Require Import gmap strings list sorting.

Local Open Scope string_scope.
Local Open Scope Z_scope.

Set Warnings "-register-all,-inexact-float".

(** ** Values *)

(** JSON values, as the response bodies and token payloads hold them.  An
    object keeps its keys in insertion order, as a Python dict does. *)
Inductive json : Type :=
  | JNull
  | JBool (b : bool)
  | JInt (z : Z)
  | JFloat (f : float)
  | JStr (s : string)
  | JList (l : list json)
  | JObj (fields : list (string * json)).

(** [d.get(k)] on an object given by its field list. *)
Fixpoint assoc_get (k : string) (fields : list (string * json)) : option json :=
  match fields with
  | [] => None
  | (k', v) :: rest => if String.eqb k k' then Some v else assoc_get k rest
  end.

(** Does the key [k] occur anywhere in the value, at any depth? *)
Fixpoint mentions_key (k : string) (v : json) : bool :=
  match v with
  | JList l => existsb (mentions_key k) l
  | JObj fields =>
      existsb (fun kv => String.eqb k (fst kv) || mentions_key k (snd kv)) fields
  | _ => false
  end.

(** ** Outcome of a request handler *)

(** [fastapi.HTTPException(status_code, detail, headers)]. *)
Record HTTPException : Type := mkHTTPException {
  status_code : Z;
  detail : string;
  headers : list (string * string)
}.

(** What running a handler ends in: the returned value, a raised
    [HTTPException] (which the framework turns into the response of that
    status), or any other exception, which nothing catches and which the
    framework answers with status 500. *)
Inductive outcome (A : Type) : Type :=
  | Return (a : A)
  | Raise (e : HTTPException)
  | Unhandled (exc : string).
Arguments Return {A} a.
Arguments Raise {A} e.
Arguments Unhandled {A} exc.

#[global] Instance outcome_bind : MBind outcome := fun A B k m =>
  match m with
  | Return a => k a
  | Raise e => Raise e
  | Unhandled x => Unhandled x
  end.

(** The status the client sees. *)
Definition response_status {A} (ok : Z) (o : outcome A) : Z :=
  match o with
  | Return _ => ok
  | Raise e => status_code e
  | Unhandled _ => 500
  end.

(** ** Static data: questions and courses *)

Record Question : Type := mkQuestion {
  q_id : string;
  q_question : string;
  q_options : list string;
  q_correctIndex : Z
}.

Definition WEBDEV_QUESTIONS_FULL : list Question := [
  mkQuestion "w1" "What does HTML stand for?"
    ["Hyper Trainer Marking Language"; "Hyper Text Markup Language";
     "Hyper Text Marketing Language"; "Hyperlinks Text Marking Language"] 1;
  mkQuestion "w2" "Which HTML tag is used to include JavaScript code?"
    ["<javascript>"; "<script>"; "<js>"; "<code>"] 1;
  mkQuestion "w3" "Which CSS property controls text size?"
    ["font-style"; "text-size"; "font-size"; "text-style"] 2;
  mkQuestion "w4" "Which HTTP method is typically used to submit form data?"
    ["GET"; "POST"; "PUT"; "DELETE"] 1;
  mkQuestion "w5" "Which HTML element is used for the largest heading?"
    ["<head>"; "<h6>"; "<h1>"; "<title>"] 2;
  mkQuestion "w6"
    "Which CSS layout module is best for creating one-dimensional layouts (rows or columns)?"
    ["Grid"; "Flexbox"; "Float"; "Positioning"] 1;
  mkQuestion "w7"
    "In JavaScript, which keyword declares a block-scoped variable that can change?"
    ["var"; "let"; "const"; "static"] 1;
  mkQuestion "w8" "What does CSS stand for?"
    ["Computer Style Sheets"; "Cascading Style Sheets";
     "Creative Style System"; "Colorful Style Syntax"] 1;
  mkQuestion "w9" "Which of these is a valid HTTP status code for 'Not Found'?"
    ["200"; "301"; "404"; "500"] 2;
  mkQuestion "w10" "Which tag creates a hyperlink in HTML?"
    ["<a>"; "<link>"; "<href>"; "<url>"] 0
].

Definition ML_QUESTIONS_FULL : list Question := [
  mkQuestion "m1" "What is Machine Learning?"
    ["Programming computers with explicit rules only";
     "A field where computers learn patterns from data";
     "Designing computer hardware";
     "Building websites with HTML and CSS"] 1;
  mkQuestion "m2" "Which of the following is a supervised learning task?"
    ["Clustering customers by behavior";
     "Classifying emails as spam or not spam";
     "Finding topics in documents without labels";
     "Dimensionality reduction"] 1;
  mkQuestion "m3"
    "In linear regression, what do we typically minimize during training?"
    ["Number of parameters";
     "Sum of squared errors between predictions and targets";
     "Number of data points";
     "Model accuracy"] 1;
  mkQuestion "m4" "Which of these is an example of a classification algorithm?"
    ["K-Means"; "Principal Component Analysis"; "Logistic Regression";
     "K-Nearest Neighbors Regressor"] 2;
  mkQuestion "m5" "What does 'overfitting' mean in ML?"
    ["Model is too simple and underperforms on both train and test";
     "Model performs well on train data but poorly on unseen test data";
     "Model has too few parameters";
     "Model cannot be trained at all"] 1;
  mkQuestion "m6" "Which of these is commonly used for dimensionality reduction?"
    ["PCA"; "SVM"; "Random Forest"; "Naive Bayes"] 0;
  mkQuestion "m7" "What is a 'feature' in a dataset?"
    ["A row in the dataset"; "A column representing an input variable";
     "The final prediction"; "The loss function"] 1;
  mkQuestion "m8"
    "Which library is widely used for building neural networks in Python?"
    ["NumPy"; "Pandas"; "Matplotlib"; "PyTorch"] 3;
  mkQuestion "m9" "What is 'training data'?"
    ["Data used to evaluate model performance";
     "Data used to tune hyperparameters";
     "Data used to learn model parameters";
     "Random noise added to inputs"] 2;
  mkQuestion "m10"
    "In classification, which metric measures the proportion of correct predictions?"
    ["Loss"; "Accuracy"; "Learning rate"; "Epoch"] 1
].

Record Course : Type := mkCourse {
  c_id : string;
  c_title : string;
  c_platform : string;
  c_url : string;
  c_track : string;
  c_difficulty : string
}.

Definition COURSES : list Course := [
  mkCourse "c-w-b-1" "HTML & CSS Crash Course" "YouTube"
    "https://www.youtube.com/results?search_query=html+css+crash+course"
    "webdev" "Beginner";
  mkCourse "c-w-b-2" "Web Development for Beginners" "freeCodeCamp"
    "https://www.freecodecamp.org/learn/" "webdev" "Beginner";
  mkCourse "c-w-i-1" "Modern JavaScript Tutorial" "MDN / Docs"
    "https://developer.mozilla.org/en-US/docs/Web/JavaScript/Guide"
    "webdev" "Intermediate";
  mkCourse "c-w-i-2" "React for Beginners" "Scrimba / YouTube"
    "https://www.youtube.com/results?search_query=react+js+for+beginners"
    "webdev" "Intermediate";
  mkCourse "c-w-a-1" "Full-Stack Web Development Projects" "Udemy / Other"
    "https://www.udemy.com/topic/web-development/" "webdev" "Advanced";
  mkCourse "c-w-a-2" "Web Performance Optimization" "Web.dev"
    "https://web.dev/fast/" "webdev" "Advanced";
  mkCourse "c-m-b-1" "Machine Learning for Beginners" "YouTube"
    "https://www.youtube.com/results?search_query=machine+learning+for+beginners"
    "ml" "Beginner";
  mkCourse "c-m-b-2" "Intro to ML with Python" "Kaggle / Courses"
    "https://www.kaggle.com/learn/intro-to-machine-learning" "ml" "Beginner";
  mkCourse "c-m-i-1" "Supervised Machine Learning" "Coursera"
    "https://www.coursera.org/specializations/machine-learning-introduction"
    "ml" "Intermediate";
  mkCourse "c-m-i-2" "Hands-On ML with Scikit-Learn" "Book / Online"
    "https://www.oreilly.com/library/view/hands-on-machine-learning/9781492032632/"
    "ml" "Intermediate";
  mkCourse "c-m-a-1" "Deep Learning Specialization" "Coursera"
    "https://www.coursera.org/specializations/deep-learning" "ml" "Advanced";
  mkCourse "c-m-a-2" "Advanced ML on Google Cloud" "Coursera"
    "https://www.coursera.org/specializations/advanced-machine-learning-tensorflow-gcp"
    "ml" "Advanced"
].

(** ** Utility functions *)

(** Python's [int / int] for the small non-negative integers a score and a
    question count are: both operands convert to binary64 without rounding
    (they are below 2^53) and the quotient is the correctly rounded one. *)
Definition float_of_int (z : Z) : float := PrimFloat.of_uint63 (Uint63.of_Z z).

Definition true_div (a b : Z) : float :=
  (float_of_int a / float_of_int b)%float.

(** [(score / total) * 100 if total > 0 else 0.0] *)
Definition compute_percentage (score total : Z) : float :=
  if decide (total > 0) then (true_div score total * 100)%float else 0%float.

Definition map_percentage_to_level (percentage : float) : string :=
  if (percentage <=? 40)%float then "Beginner"
  else if (percentage <=? 75)%float then "Intermediate"
  else "Advanced".

(** ** Scoring a submission *)

Record AnswerSubmission : Type := mkAnswer {
  questionId : string;
  optionIndex : Z
}.

(** [{q["id"]: q for q in questions_full}] *)
Definition build_question_map (questions_full : list Question)
  : gmap string Question :=
  foldl (fun m q => <[q_id q := q]> m) ∅ questions_full.

(** One turn of the loop over [payload.answers]. *)
Definition score_step (question_map : gmap string Question)
    (score : Z) (ans : AnswerSubmission) : Z :=
  match question_map !! questionId ans with
  | None => score
  | Some q =>
      if decide (optionIndex ans = q_correctIndex q) then score + 1 else score
  end.

Definition compute_score (questions_full : list Question)
    (answers : list AnswerSubmission) : Z :=
  foldl (score_step (build_question_map questions_full)) 0 answers.

Definition questions_for (track : string) : list Question :=
  if String.eqb track "webdev" then WEBDEV_QUESTIONS_FULL else ML_QUESTIONS_FULL.

Definition valid_track (track : string) : bool :=
  String.eqb track "webdev" || String.eqb track "ml".

(** ** Clock readings *)

(** A reading of [datetime.now(timezone.utc)]. *)
Record datetime : Type := mkDatetime {
  dt_year : Z;
  dt_month : Z;
  dt_day : Z;
  dt_hour : Z;
  dt_minute : Z;
  dt_second : Z;
  dt_microsecond : Z
}.

Definition digit_char (d : Z) : ascii :=
  match d with
  | 0 => "0" | 1 => "1" | 2 => "2" | 3 => "3" | 4 => "4"
  | 5 => "5" | 6 => "6" | 7 => "7" | 8 => "8" | _ => "9"
  end%char.

(** The decimal digits of [n], padded with zeros to [width] places. *)
Fixpoint zero_padded (width : nat) (n : Z) : string :=
  match width with
  | O => ""
  | S w => zero_padded w (n / 10) +:+ String (digit_char (n mod 10)) ""
  end.

(** [d.isoformat()] for a reading in UTC: the fraction of the second is
    left out when the microseconds are zero. *)
Definition isoformat (d : datetime) : string :=
  zero_padded 4 (dt_year d) +:+ "-" +:+ zero_padded 2 (dt_month d) +:+ "-" +:+
  zero_padded 2 (dt_day d) +:+ "T" +:+ zero_padded 2 (dt_hour d) +:+ ":" +:+
  zero_padded 2 (dt_minute d) +:+ ":" +:+ zero_padded 2 (dt_second d) +:+
  (if dt_microsecond d =? 0 then ""
   else "." +:+ zero_padded 6 (dt_microsecond d)) +:+
  "+00:00".

(** ** The document store *)

(** A BSON object id, kept as its 24 lower-case hexadecimal digits. *)
Inductive oid : Type := Oid (hex : string).

#[global] Instance oid_eq_dec : EqDecision oid.
Proof. solve_decision. Defined.

Definition is_hex_digit (a : ascii) : bool :=
  let n := N_of_ascii a in
  ((48 <=? n) && (n <=? 57) || (65 <=? n) && (n <=? 70)
   || (97 <=? n) && (n <=? 102))%N.

Definition lower_ascii (a : ascii) : ascii :=
  let n := N_of_ascii a in
  if ((65 <=? n) && (n <=? 90))%N then ascii_of_N (n + 32) else a.

Fixpoint lower (s : string) : string :=
  match s with
  | EmptyString => EmptyString
  | String a rest => String (lower_ascii a) (lower rest)
  end.

Fixpoint all_hex (s : string) : bool :=
  match s with
  | EmptyString => true
  | String a rest => is_hex_digit a && all_hex rest
  end.

(** [bson.ObjectId(s)] for a string: [None] stands for [InvalidId].  A string
    is accepted when it is 24 hexadecimal digits; two spellings that differ
    only in letter case denote the same id. *)
Definition ObjectId (s : string) : option oid :=
  if (String.length s =? 24)%nat && all_hex s then Some (Oid (lower s))
  else None.

(** [str(oid)] *)
Definition str_oid (o : oid) : string := let 'Oid h := o in h.

(** A document of the [students] collection. *)
Record Student : Type := mkStudent {
  s_id : oid;                 (* "_id" *)
  s_name : string;
  s_email : string;
  s_password_hash : string;
  s_branch : string;
  s_semester : string;
  s_created_at : string
}.

(** A document of the [test_results] collection. *)
Record TestResult : Type := mkTestResult {
  r_id : oid;                 (* "_id" *)
  r_student_id : oid;
  r_track : string;
  r_score : Z;
  r_total : Z;
  r_percentage : float;
  r_level : string;
  r_submitted_at : string
}.

(** The two collections, each in insertion order. *)
Record Db : Type := mkDb {
  students : list Student;
  test_results : list TestResult
}.

(** [db.students.find_one({"email": email})] *)
Definition get_student_by_email (db : Db) (email : string) : option Student :=
  List.find (fun s => String.eqb (s_email s) email) (students db).

(** [db.students.find_one({"_id": oid})] after [ObjectId(student_id)], with
    [None] when the conversion raises. *)
Definition get_student_by_id (db : Db) (student_id : string) : option Student :=
  match ObjectId student_id with
  | None => None
  | Some o => List.find (fun s => bool_decide (s_id s = o)) (students db)
  end.

(** [insert_one]: the new document goes at the end; the driver chose its
    ["_id"], which the document already carries. *)
Definition insert_student (db : Db) (doc : Student) : Db :=
  mkDb (students db ++ [doc]) (test_results db).

Definition insert_test_result (db : Db) (doc : TestResult) : Db :=
  mkDb (students db) (test_results db ++ [doc]).

(** Strings are ordered the way the store orders them: by code units. *)
Definition str_le (a b : string) : Prop := String.leb a b = true.

#[global] Instance str_le_dec a b : Decision (str_le a b).
Proof. unfold str_le. apply _. Defined.

(** Most recent first: the relation [sort("submitted_at", -1)] sorts by. *)
Definition newer_first (a b : TestResult) : Prop :=
  str_le (r_submitted_at b) (r_submitted_at a).

#[global] Instance newer_first_dec a b : Decision (newer_first a b).
Proof. unfold newer_first. apply _. Defined.

(** [db.test_results.find({"student_id": student_id}).sort("submitted_at", -1)] *)
Definition find_results_sorted (db : Db) (student_id : oid) : list TestResult :=
  merge_sort newer_first
    (List.filter (fun r => bool_decide (r_student_id r = student_id))
       (test_results db)).

(** ** Security helpers *)

(** The environment-driven settings. *)
Record Settings : Type := mkSettings {
  JWT_SECRET : string;
  JWT_ALGORITHM : string;
  JWT_EXPIRES_MINUTES : Z
}.

(** A bearer token as the token library sees it: either text it cannot
    read as a header, a payload that is a JSON object and a signature, or
    a header naming an algorithm, the claims of the payload, and a
    signature made with some key.  A signature verifies under a key
    exactly when it was made with that key. *)
Inductive token : Type :=
  | Garbage (raw : string)
  | Signed (alg : string) (key : string) (claims : list (string * json)).

(** [jose.JWTError] and the subclasses of it that decoding raises. *)
Inductive JWTError : Type :=
  | JWTError_malformed
  | JWTError_algorithm
  | JWTError_signature
  | ExpiredSignatureError
  | JWTClaimsError.

(** What ends a call of the token library early: one of its own
    [JWTError]s, or an exception of another class that a step of it lets
    through. *)
Inductive raised : Type :=
  | Raised_JWTError (e : JWTError)
  | Raised_other (exc : string).

(** Python's [int(v)]: a value, a [ValueError], or an exception of another
    class. *)
Inductive int_result : Type :=
  | Int_value (z : Z)
  | Int_ValueError
  | Int_other (exc : string).

(** [int(f)] for a float: the fraction is cut off; an infinity raises
    [OverflowError] and a NaN [ValueError]. *)
Definition int_of_float (f : float) : int_result :=
  match Prim2SF f with
  | SpecFloat.S754_zero _ => Int_value 0
  | SpecFloat.S754_infinity _ => Int_other "OverflowError"
  | SpecFloat.S754_nan => Int_ValueError
  | SpecFloat.S754_finite s m e =>
      let magnitude :=
        if 0 <=? e then Z.pos m * 2 ^ e else Z.pos m / 2 ^ (- e) in
      Int_value (if s then - magnitude else magnitude)
  end.

Section Jose.
(** [int(s)] for a string; [None] stands for the [ValueError]. *)
Variable int_of_str : string -> option Z.

(** [int(v)] for a value read from JSON. *)
Definition py_int (v : json) : int_result :=
  match v with
  | JInt z => Int_value z
  | JBool b => Int_value (if b then 1 else 0)
  | JFloat f => int_of_float f
  | JStr s =>
      match int_of_str s with
      | Some z => Int_value z
      | None => Int_ValueError
      end
  | JNull | JList _ | JObj _ => Int_other "TypeError"
  end.

(** The checks of [jose.jwt._validate_claims], each [None] when it
    returns.  The conversions are guarded by [except ValueError] only. *)
Definition validate_iat (claims : list (string * json)) : option raised :=
  match assoc_get "iat" claims with
  | None => None
  | Some v =>
      match py_int v with
      | Int_value _ => None
      | Int_ValueError => Some (Raised_JWTError JWTClaimsError)
      | Int_other exc => Some (Raised_other exc)
      end
  end.

Definition validate_nbf (now : Z) (claims : list (string * json))
  : option raised :=
  match assoc_get "nbf" claims with
  | None => None
  | Some v =>
      match py_int v with
      | Int_value nbf =>
          if now <? nbf then Some (Raised_JWTError JWTClaimsError) else None
      | Int_ValueError => Some (Raised_JWTError JWTClaimsError)
      | Int_other exc => Some (Raised_other exc)
      end
  end.

Definition validate_exp (now : Z) (claims : list (string * json))
  : option raised :=
  match assoc_get "exp" claims with
  | None => None
  | Some v =>
      match py_int v with
      | Int_value exp =>
          if exp <? now then Some (Raised_JWTError ExpiredSignatureError)
          else None
      | Int_ValueError => Some (Raised_JWTError JWTClaimsError)
      | Int_other exc => Some (Raised_other exc)
      end
  end.

(** No audience is passed to [decode], and the absent audience is no
    member of an audience claim of any shape. *)
Definition validate_aud (claims : list (string * json)) : option raised :=
  match assoc_get "aud" claims with
  | None => None
  | Some _ => Some (Raised_JWTError JWTClaimsError)
  end.

(** [_validate_sub] and [_validate_jti]: a string when present. *)
Definition validate_str (k : string) (claims : list (string * json))
  : option raised :=
  match assoc_get k claims with
  | None | Some (JStr _) => None
  | Some _ => Some (Raised_JWTError JWTClaimsError)
  end.

(** No access token is passed to [decode] to compare the hash with. *)
Definition validate_at_hash (claims : list (string * json)) : option raised :=
  match assoc_get "at_hash" claims with
  | None => None
  | Some _ => Some (Raised_JWTError JWTClaimsError)
  end.

(** The first of the checks that raises, in the order the library runs
    them; no issuer is passed to [decode], so [iss] is not checked. *)
Fixpoint first_raised (checks : list (option raised)) : option raised :=
  match checks with
  | [] => None
  | Some e :: _ => Some e
  | None :: rest => first_raised rest
  end.

Definition validate_claims (now : Z) (claims : list (string * json))
  : option raised :=
  first_raised
    [validate_iat claims; validate_nbf now claims; validate_exp now claims;
     validate_aud claims; validate_str "sub" claims;
     validate_str "jti" claims; validate_at_hash claims].

(** [jose.jwt.decode(token, key, algorithms)] at the time [now] (seconds
    since the epoch), with the library's default options. *)
Definition jwt_decode (t : token) (key : string) (algorithms : list string)
    (now : Z) : raised + list (string * json) :=
  match t with
  | Garbage _ => inl (Raised_JWTError JWTError_malformed)
  | Signed alg k claims =>
      if negb (existsb (String.eqb alg) algorithms)
      then inl (Raised_JWTError JWTError_algorithm)
      else if negb (String.eqb k key)
      then inl (Raised_JWTError JWTError_signature)
      else
        match validate_claims now claims with
        | Some e => inl e
        | None => inr claims
        end
  end.
End Jose.

(** [to_encode.update({k: v})] on a dict given by its field list. *)
Fixpoint dict_update (k : string) (v : json) (fields : list (string * json))
  : list (string * json) :=
  match fields with
  | [] => [(k, v)]
  | (k', v') :: rest =>
      if String.eqb k k' then (k, v) :: rest
      else (k', v') :: dict_update k v rest
  end.

(** [payload.get(k)]: Python's [None] for a missing key and for a null. *)
Definition payload_get (k : string) (payload : list (string * json))
  : option json :=
  match assoc_get k payload with
  | None | Some JNull => None
  | Some v => Some v
  end.

Record TokenData : Type := mkTokenData {
  td_sub : string;
  td_email : string
}.

Definition credentials_exception : HTTPException :=
  mkHTTPException 401 "Could not validate credentials"
    [("WWW-Authenticate", "Bearer")].

Section Security.
(** The settings read from the environment at start-up. *)
Variable settings : Settings.
(** [int(s)] for a string; [None] stands for the [ValueError]. *)
Variable int_of_str : string -> option Z.
(** Whether [pydantic.EmailStr] accepts a string. *)
Variable EmailStr_valid : string -> bool.
(** [pwd_context.hash] under a given salt, and [pwd_context.verify]. *)
Variable pwd_hash : string -> string -> string.
Variable pwd_verify : string -> string -> bool.

Definition verify_password (plain_password hashed_password : string) : bool :=
  pwd_verify plain_password hashed_password.

Definition get_password_hash (salt password : string) : string :=
  pwd_hash salt password.

(** [create_access_token(data)] with the default lifetime; the expiry is
    written as whole seconds. *)
Definition create_access_token (now : Z) (data : list (string * json)) : token :=
  let expire := now + 60 * JWT_EXPIRES_MINUTES settings in
  Signed (JWT_ALGORITHM settings) (JWT_SECRET settings)
    (dict_update "exp" (JInt expire) data).

(** [TokenData(sub=subject, email=email)]: [None] stands for the
    [ValidationError] the model raises on a field of the wrong shape. *)
Definition make_TokenData (subject email : json) : option TokenData :=
  match subject, email with
  | JStr s, JStr e => if EmailStr_valid e then Some (mkTokenData s e) else None
  | _, _ => None
  end.

Definition get_current_student (db : Db) (now : Z) (t : token)
  : outcome Student :=
  match jwt_decode int_of_str t (JWT_SECRET settings) [JWT_ALGORITHM settings]
          now with
  | inl (Raised_JWTError _) => Raise credentials_exception
  | inl (Raised_other exc) => Unhandled exc
  | inr payload =>
      match payload_get "sub" payload, payload_get "email" payload with
      | Some subject, Some email =>
          match make_TokenData subject email with
          | None => Unhandled "ValidationError"
          | Some token_data =>
              match get_student_by_id db (td_sub token_data) with
              | None => Raise credentials_exception
              | Some student => Return student
              end
          end
      | _, _ => Raise credentials_exception
      end
  end.
End Security.

(** ** Response models *)

Record StudentRegister : Type := mkStudentRegister {
  reg_name : string;
  reg_email : string;
  reg_password : string;
  reg_branch : string;
  reg_semester : string
}.

Record StudentLogin : Type := mkStudentLogin {
  login_email : string;
  login_password : string
}.

Record StudentPublic : Type := mkStudentPublic {
  sp_id : string;
  sp_name : string;
  sp_email : string;
  sp_branch : string;
  sp_semester : string
}.

Record TokenResponse : Type := mkTokenResponse {
  access_token : token;
  token_type : string;
  tr_student : StudentPublic
}.

Record QuestionPublic : Type := mkQuestionPublic {
  qp_id : string;
  qp_question : string;
  qp_options : list string
}.

(** [QuestionPublic.model_dump()] *)
Definition QuestionPublic_dump (q : QuestionPublic) : json :=
  JObj [("id", JStr (qp_id q));
        ("question", JStr (qp_question q));
        ("options", JList (JStr <$> qp_options q))].

Record TestResultResponse : Type := mkTestResultResponse {
  res_track : string;
  res_score : Z;
  res_total : Z;
  res_percentage : float;
  res_level : string;
  res_message : string
}.

Record TrackLevel : Type := mkTrackLevel {
  level : option string;
  percentage : option float
}.

Record LevelsResponse : Type := mkLevelsResponse {
  lv_webdev : option TrackLevel;
  lv_ml : option TrackLevel
}.

Record RecommendationsResponse : Type := mkRecommendationsResponse {
  rec_webdev : list Course;
  rec_ml : list Course
}.

(** ** Latest level per track *)

(** One turn of the loop over the cursor: a track already in [levels] is
    skipped, otherwise the document's level and percentage are recorded. *)
Definition levels_step (levels : gmap string TrackLevel) (doc : TestResult)
  : gmap string TrackLevel :=
  match levels !! r_track doc with
  | Some _ => levels
  | None =>
      <[r_track doc :=
          mkTrackLevel (Some (r_level doc)) (Some (r_percentage doc))]> levels
  end.

Definition collect_levels (cursor : list TestResult) : gmap string TrackLevel :=
  foldl levels_step ∅ cursor.

Definition get_latest_levels_for_student (db : Db) (student_id : oid)
  : LevelsResponse :=
  let levels := collect_levels (find_results_sorted db student_id) in
  mkLevelsResponse (levels !! "webdev") (levels !! "ml").

(** ** Routes *)

Definition unknown_track : HTTPException :=
  mkHTTPException 404 "Unknown track" [].

Definition email_already_registered : HTTPException :=
  mkHTTPException 400 "Email already registered" [].

Definition incorrect_email_or_password : HTTPException :=
  mkHTTPException 400 "Incorrect email or password" [].

(** [ObjectId(current_student["id"])], where ["id"] is [str(student["_id"])]. *)
Definition current_student_oid (current_student : Student) : option oid :=
  ObjectId (str_oid (s_id current_student)).

Definition level_message (lvl : string) : string :=
  if String.eqb lvl "Beginner" then
    "You are at Beginner level. Focus on the basics and build strong foundations."
  else if String.eqb lvl "Intermediate" then
    "Nice work! You are at Intermediate level. Keep practicing and build projects."
  else
    "Great job! You are at Advanced level. Explore deeper topics and real-world applications.".

(** [filter_courses], the local function of [get_recommendations]. *)
Definition filter_courses (track : string) (lvl : option TrackLevel)
  : list Course :=
  let target_difficulty :=
    match lvl with
    | Some tl =>
        match level tl with
        | Some l => if String.eqb l "" then "Beginner" else l
        | None => "Beginner"
        end
    | None => "Beginner"
    end in
  List.filter
    (fun course => String.eqb (c_track course) track
                   && String.eqb (c_difficulty course) target_difficulty)
    COURSES.

Section Routes.
Variable settings : Settings.
Variable pwd_hash : string -> string -> string.
Variable pwd_verify : string -> string -> bool.
(** Python's [round(x, 2)]. *)
Variable round2 : float -> float.

(** [POST /auth/register].  [now] is the clock reading, [salt] the salt
    the hasher draws, [new_id] the id the store assigns. *)
Definition register_student (db : Db) (now : datetime) (salt : string)
    (new_id : oid) (payload : StudentRegister) : outcome StudentPublic * Db :=
  match get_student_by_email db (reg_email payload) with
  | Some _ => (Raise email_already_registered, db)
  | None =>
      let hashed_password := get_password_hash pwd_hash salt (reg_password payload) in
      let doc :=
        mkStudent new_id (reg_name payload) (reg_email payload)
          hashed_password (reg_branch payload) (reg_semester payload)
          (isoformat now) in
      (Return (mkStudentPublic (str_oid new_id) (reg_name payload)
                 (reg_email payload) (reg_branch payload)
                 (reg_semester payload)),
       insert_student db doc)
  end.

(** [POST /auth/login] *)
Definition login_student (db : Db) (now : Z) (payload : StudentLogin)
  : outcome TokenResponse :=
  match get_student_by_email db (login_email payload) with
  | None => Raise incorrect_email_or_password
  | Some student =>
      if negb (verify_password pwd_verify (login_password payload)
                 (s_password_hash student))
      then Raise incorrect_email_or_password
      else
        let student_id := str_oid (s_id student) in
        let access_token :=
          create_access_token settings now
            [("sub", JStr student_id); ("email", JStr (s_email student))] in
        Return (mkTokenResponse access_token "bearer"
                  (mkStudentPublic student_id (s_name student)
                     (s_email student) (s_branch student)
                     (s_semester student)))
  end.

(** [GET /tests/{track}], after the authentication dependency. *)
Definition get_test_questions (track : string) : outcome json :=
  if negb (valid_track track) then Raise unknown_track
  else
    let questions_full := questions_for track in
    let questions_public :=
      (fun q => QuestionPublic_dump
                  (mkQuestionPublic (q_id q) (q_question q) (q_options q)))
        <$> questions_full in
    Return (JObj [("track", JStr track); ("questions", JList questions_public)]).

(** [POST /tests/{track}], after the authentication dependency. *)
Definition submit_test (db : Db) (now : datetime) (new_id : oid)
    (track : string) (answers : list AnswerSubmission)
    (current_student : Student) : outcome TestResultResponse * Db :=
  if negb (valid_track track) then (Raise unknown_track, db)
  else
    let questions_full := questions_for track in
    let score := compute_score questions_full answers in
    let total := Z.of_nat (List.length questions_full) in
    let percentage := compute_percentage score total in
    let lvl := map_percentage_to_level percentage in
    match current_student_oid current_student with
    | None => (Unhandled "InvalidId", db)
    | Some student_id =>
        let doc :=
          mkTestResult new_id student_id track score total percentage lvl
            (isoformat now) in
        (Return (mkTestResultResponse track score total (round2 percentage)
                   lvl (level_message lvl)),
         insert_test_result db doc)
    end.

(** [GET /tests/levels], after the authentication dependency. *)
Definition get_levels (db : Db) (current_student : Student)
  : outcome LevelsResponse :=
  match current_student_oid current_student with
  | None => Unhandled "InvalidId"
  | Some student_id => Return (get_latest_levels_for_student db student_id)
  end.

(** [GET /recommendations], after the authentication dependency. *)
Definition get_recommendations (db : Db) (current_student : Student)
  : outcome RecommendationsResponse :=
  match current_student_oid current_student with
  | None => Unhandled "InvalidId"
  | Some student_id =>
      let levels := get_latest_levels_for_student db student_id in
      Return (mkRecommendationsResponse
                (filter_courses "webdev" (lv_webdev levels))
                (filter_courses "ml" (lv_ml levels)))
  end.
End Routes.

(** ** The router *)

Inductive http_method : Type := GET | POST.

#[global] Instance http_method_eq_dec : EqDecision http_method.
Proof. solve_decision. Defined.

(** A path template is a list of segments: a literal, or a [{name}]
    parameter, which stands for any non-empty segment. *)
Inductive segment : Type :=
  | Lit (s : string)
  | Param (name : string).

(** The path operations of [api_router], named after their functions. *)
Inductive endpoint : Type :=
  | E_root
  | E_create_status_check
  | E_get_status_checks
  | E_register_student
  | E_login_student
  | E_get_test_questions
  | E_submit_test
  | E_get_levels
  | E_get_recommendations
  | E_get_docs
  | E_chat_endpoint.

Record route : Type := mkRoute {
  route_method : http_method;
  route_path : list segment;
  route_endpoint : endpoint
}.

(** The routes in the order the decorators register them, each under the
    router's prefix [/api]. *)
Definition api_routes : list route := [
  mkRoute GET  [Lit "api"; Lit ""] E_root;
  mkRoute POST [Lit "api"; Lit "status"] E_create_status_check;
  mkRoute GET  [Lit "api"; Lit "status"] E_get_status_checks;
  mkRoute POST [Lit "api"; Lit "auth"; Lit "register"] E_register_student;
  mkRoute POST [Lit "api"; Lit "auth"; Lit "login"] E_login_student;
  mkRoute GET  [Lit "api"; Lit "tests"; Param "track"] E_get_test_questions;
  mkRoute POST [Lit "api"; Lit "tests"; Param "track"] E_submit_test;
  mkRoute GET  [Lit "api"; Lit "tests"; Lit "levels"] E_get_levels;
  mkRoute GET  [Lit "api"; Lit "recommendations"] E_get_recommendations;
  mkRoute GET  [Lit "api"; Lit "docs"] E_get_docs;
  mkRoute POST [Lit "api"; Lit "chat"] E_chat_endpoint
].

(** Matching a request path, split at its slashes, against a template; the
    result binds the parameters. *)
Fixpoint match_path (template : list segment) (path : list string)
  : option (list (string * string)) :=
  match template, path with
  | [], [] => Some []
  | Lit s :: template', x :: path' =>
      if String.eqb s x then match_path template' path' else None
  | Param name :: template', x :: path' =>
      if String.eqb x "" then None
      else cons (name, x) <$> match_path template' path'
  | _, _ => None
  end.

Inductive dispatched : Type :=
  | Dispatch (e : endpoint) (path_params : list (string * string))
  | MethodNotAllowed
  | NotFound.

(** The router walks its routes in order and hands the request to the first
    one whose path and method both match; a route whose path alone matches
    is remembered and, when no route matches fully, answers 405. *)
Fixpoint dispatch_from (routes : list route) (partial : bool)
    (m : http_method) (path : list string) : dispatched :=
  match routes with
  | [] => if partial then MethodNotAllowed else NotFound
  | r :: rest =>
      match match_path (route_path r) path with
      | Some params =>
          if decide (route_method r = m) then Dispatch (route_endpoint r) params
          else dispatch_from rest true m path
      | None => dispatch_from rest partial m path
      end
  end.

Definition dispatch (m : http_method) (path : list string) : dispatched :=
  dispatch_from api_routes false m path.

Fixpoint path_param (name : string) (params : list (string * string)) : string :=
  match params with
  | [] => ""
  | (k, v) :: rest => if String.eqb name k then v else path_param name rest
  end.

Definition not_authenticated : HTTPException :=
  mkHTTPException 401 "Not authenticated" [("WWW-Authenticate", "Bearer")].

(** The body of a successful GET response. *)
Inductive body : Type :=
  | Body_json (j : json)
  | Body_levels (l : LevelsResponse)
  | Body_recommendations (r : RecommendationsResponse).

Section App.
Variable settings : Settings.
Variable int_of_str : string -> option Z.
Variable EmailStr_valid : string -> bool.

(** [Depends(get_current_student)]: [oauth2_scheme] reads the bearer token
    of the request and refuses a request without one. *)
Definition current_student_dependency (db : Db) (now : Z)
    (bearer : option token) : outcome Student :=
  match bearer with
  | None => Raise not_authenticated
  | Some t => get_current_student settings int_of_str EmailStr_valid db now t
  end.

(** A GET request served by the application.  The result is [None] for
    the two GET operations whose bodies this development leaves out (the
    status checks and the documentation snippets). *)
Definition serve_get (db : Db) (now : Z) (path : list string)
    (bearer : option token) : option (outcome body) :=
  match dispatch GET path with
  | Dispatch E_root _ =>
      Some (Return (Body_json
                      (JObj [("message", JStr "Student Skill Assistant API")])))
  | Dispatch E_get_test_questions params =>
      Some (_ ← current_student_dependency db now bearer;
            j ← get_test_questions (path_param "track" params);
            Return (Body_json j))
  | Dispatch E_get_levels _ =>
      Some (current_student ← current_student_dependency db now bearer;
            l ← get_levels db current_student;
            Return (Body_levels l))
  | Dispatch E_get_recommendations _ =>
      Some (current_student ← current_student_dependency db now bearer;
            r ← get_recommendations db current_student;
            Return (Body_recommendations r))
  | Dispatch _ _ => None
  | MethodNotAllowed => Some (Raise (mkHTTPException 405 "Method Not Allowed" []))
  | NotFound => Some (Raise (mkHTTPException 404 "Not Found" []))
  end.
End App.

(** ** Chat *)

(** Python's [pattern in text]: the pattern starts at some position of the
    text. *)
Fixpoint contains (pattern text : string) : bool :=
  String.prefix pattern text ||
  match text with
  | EmptyString => false
  | String _ rest => contains pattern rest
  end.

Definition reply_html : string :=
  "HTML (HyperText Markup Language) defines the structure of web pages using elements like headings, paragraphs, links, and more. Start by learning the basic tags such as <h1>, <p>, <a>, and <div>.".

Definition reply_css : string :=
  "CSS (Cascading Style Sheets) is used to style HTML. Focus on selectors, the box model, flexbox, and grid to build responsive layouts.".

Definition reply_javascript : string :=
  "JavaScript makes your web pages interactive. Begin with variables, functions, arrays, objects, and DOM manipulation.".

Definition reply_ml : string :=
  "Machine Learning is about learning patterns from data. Start with supervised learning (like regression and classification) before moving to deep learning.".

Definition reply_webdev : string :=
  "For web development, master HTML, CSS, and JavaScript first, then explore a framework like React. Build small projects like a todo app or portfolio site.".

Definition reply_fallback : string :=
  "I am a simple assistant. In the future, I will be powered by a real ML model, but for now I can give short tips about HTML, CSS, JavaScript, and Machine Learning.".

(** [POST /chat], after the authentication dependency: the reply of the
    response.  [lower] is [str.lower] on a message of ASCII characters. *)
Definition chat_endpoint (message : string) : string :=
  let text := lower message in
  if contains "html" text then reply_html
  else if contains "css" text then reply_css
  else if contains "javascript" text || contains "js" text then
    reply_javascript
  else if contains "machine learning" text || contains "ml" text then reply_ml
  else if contains "web" text && contains "development" text then reply_webdev
  else reply_fallback.

(** ** Status checks *)

Record StatusCheck : Type := mkStatusCheck {
  sc_id : string;
  sc_client_name : string;
  sc_timestamp : datetime
}.

(** A document of the [status_checks] collection, without the ["_id"] the
    store adds, which the listing projects away. *)
Record StatusCheckDoc : Type := mkStatusCheckDoc {
  scd_id : string;
  scd_client_name : string;
  scd_timestamp : string
}.

(** [POST /status].  [new_uuid] is the [uuid4] the model draws for its
    [id], [now] the clock reading of its [timestamp]. *)
Definition create_status_check (status_checks : list StatusCheckDoc)
    (new_uuid : string) (now : datetime) (client_name : string)
  : StatusCheck * list StatusCheckDoc :=
  let status_obj := mkStatusCheck new_uuid client_name now in
  let doc :=
    mkStatusCheckDoc (sc_id status_obj) (sc_client_name status_obj)
      (isoformat (sc_timestamp status_obj)) in
  (status_obj, (status_checks ++ [doc])%list).

Section StatusChecks.
(** [datetime.fromisoformat]; [None] stands for its [ValueError]. *)
Variable fromisoformat : string -> option datetime.

(** One turn of the loop of [get_status_checks]. *)
Definition read_status_check (check : StatusCheckDoc) : outcome StatusCheck :=
  match fromisoformat (scd_timestamp check) with
  | Some d => Return (mkStatusCheck (scd_id check) (scd_client_name check) d)
  | None => Unhandled "ValueError"
  end.

Fixpoint read_status_checks (checks : list StatusCheckDoc)
  : outcome (list StatusCheck) :=
  match checks with
  | [] => Return []
  | check :: rest =>
      c ← read_status_check check;
      cs ← read_status_checks rest;
      Return (c :: cs)
  end.

(** [GET /status]: [find({}, {"_id": 0}).to_list(1000)], then the loop. *)
Definition get_status_checks (status_checks : list StatusCheckDoc)
  : outcome (list StatusCheck) :=
  read_status_checks (take 1000 status_checks).
End StatusChecks.

(** ** The test script's bookkeeping *)

(** One entry of [test_results] in [backend_test.py]. *)
Record TestLog : Type := mkTestLog {
  log_test_name : string;
  log_success : bool;
  log_details : string;
  log_timestamp : string
}.

(** The counters and the log of [StudentSkillAssistantTester]. *)
Record Tester : Type := mkTester {
  t_token : option token;
  t_student_data : option StudentRegister;
  t_tests_run : Z;
  t_tests_passed : Z;
  t_test_results : list TestLog
}.

(** The state [__init__] leaves. *)
Definition Tester_init : Tester := mkTester None None 0 0 [].

(** [log_test(name, success, details)]; [stamp] is the clock reading the
    entry records. *)
Definition log_test (self : Tester) (name : string) (success : bool)
    (details stamp : string) : Tester :=
  let tests_run := t_tests_run self + 1 in
  let tests_passed :=
    if success then t_tests_passed self + 1 else t_tests_passed self in
  mkTester (t_token self) (t_student_data self) tests_run tests_passed
    (t_test_results self ++ [mkTestLog name success details stamp]).

(** The ["summary"] of [get_test_report]. *)
Record ReportSummary : Type := mkReportSummary {
  total_tests : Z;
  passed_tests : Z;
  failed_tests : Z;
  success_rate : float
}.

Definition get_test_report_summary (self : Tester) : ReportSummary :=
  mkReportSummary (t_tests_run self) (t_tests_passed self)
    (t_tests_run self - t_tests_passed self)
    (if decide (t_tests_run self > 0)
     then (true_div (t_tests_passed self) (t_tests_run self) * 100)%float
     else 0%float).

(** The value [run_all_tests] returns once its tests are logged. *)
Definition exit_code (self : Tester) : Z :=
  if decide (t_tests_passed self = t_tests_run self) then 0 else 1.

(** ** Documentation snippets *)

Record DocItem : Type := mkDocItem {
  di_id : string;
  di_title : string;
  di_track : string;
  di_content : string;
  di_code : option string
}.

Record DocCategory : Type := mkDocCategory {
  dc_id : string;
  dc_title : string;
  dc_items : list DocItem
}.

(** The line feed of the code snippets. *)
Definition LF : string := String (ascii_of_N 10) "".

Definition DOC_CATEGORIES : list DocCategory := [
  mkDocCategory "webdev" "Web Development" [
    mkDocItem "html-basics" "HTML Basics" "webdev"
      "HTML (HyperText Markup Language) is the standard language for creating web pages. It uses elements represented by tags like <h1>, <p>, and <a> to describe the structure of a document."
      (Some ("<!DOCTYPE html>" +:+ LF +:+ "<html>" +:+ LF +:+ "  <head>" +:+ LF
             +:+ "    <title>My First Page</title>" +:+ LF +:+ "  </head>" +:+ LF
             +:+ "  <body>" +:+ LF +:+ "    <h1>Hello, world!</h1>" +:+ LF
             +:+ "    <p>This is my first web page.</p>" +:+ LF
             +:+ "  </body>" +:+ LF +:+ "</html>"));
    mkDocItem "css-basics" "CSS Basics" "webdev"
      "CSS (Cascading Style Sheets) is used to style HTML. You can change colors, layout, fonts, spacing, and more."
      (Some ("h1 {" +:+ LF +:+ "  color: #1f2937;" +:+ LF
             +:+ "  font-size: 2rem;" +:+ LF +:+ "}" +:+ LF +:+ LF
             +:+ "p {" +:+ LF +:+ "  line-height: 1.6;" +:+ LF +:+ "}"));
    mkDocItem "js-basics" "JavaScript Basics" "webdev"
      "JavaScript adds interactivity to web pages. You can respond to user actions, modify the DOM, and call backend APIs."
      (Some ("const button = document.querySelector('button');" +:+ LF
             +:+ "button.addEventListener('click', () => {" +:+ LF
             +:+ "  alert('Button clicked!');" +:+ LF +:+ "});"))
  ];
  mkDocCategory "ml" "Machine Learning" [
    mkDocItem "what-is-ml" "What is Machine Learning?" "ml"
      "Machine Learning is a field of AI where algorithms learn patterns from data instead of being explicitly programmed with rules."
      None;
    mkDocItem "types-of-ml" "Types of Machine Learning" "ml"
      "Common types of ML include supervised learning, unsupervised learning, and reinforcement learning."
      None;
    mkDocItem "ml-workflow" "Basic ML Workflow" "ml"
      "A typical ML workflow: define the problem, collect data, preprocess data, choose a model, train, evaluate, and deploy."
      None
  ]
].

(** [GET /docs], after the authentication dependency: the categories of
    the response. *)
Definition get_docs : list DocCategory := DOC_CATEGORIES.

(** ** The application *)

(** The body of a request, as the route's model reads it; [InvalidBody]
    is a body no model of the application accepts. *)
Inductive request_body : Type :=
  | NoBody
  | StatusBody (client_name : string)
  | RegisterBody (payload : StudentRegister)
  | LoginBody (payload : StudentLogin)
  | SubmitBody (answers : list AnswerSubmission)
  | ChatBody (message : string)
  | InvalidBody.

Record request : Type := mkRequest {
  req_method : http_method;
  req_path : list string;
  req_bearer : option token;
  req_body : request_body
}.

(** What the surroundings supply while one request is served: the clock
    as a reading and as seconds since the epoch, the salt the hasher
    draws, the object id the store assigns and the identifier [uuid4]
    returns. *)
Record Moment : Type := mkMoment {
  at_clock : datetime;
  at_seconds : Z;
  at_salt : string;
  at_oid : oid;
  at_uuid : string
}.

(** The store: the database of the students and their results, and the
    collection of the status checks. *)
Record Server : Type := mkServer {
  srv_db : Db;
  srv_status_checks : list StatusCheckDoc
}.

Inductive response_body : Type :=
  | Resp_json (j : json)
  | Resp_status_check (c : StatusCheck)
  | Resp_status_checks (l : list StatusCheck)
  | Resp_student (p : StudentPublic)
  | Resp_token (r : TokenResponse)
  | Resp_result (r : TestResultResponse)
  | Resp_levels (l : LevelsResponse)
  | Resp_recommendations (r : RecommendationsResponse)
  | Resp_docs (categories : list DocCategory)
  | Resp_chat (reply : string).

(** The answer to a body that does not fit the route's model. *)
Definition unprocessable : HTTPException :=
  mkHTTPException 422 "Unprocessable Entity" [].

(** The status of a success: 201 for the registration, as its decorator
    says, 200 elsewhere. *)
Definition success_status (e : endpoint) : Z :=
  match e with
  | E_register_student => 201
  | _ => 200
  end.

Section Application.
Variable settings : Settings.
Variable int_of_str : string -> option Z.
Variable EmailStr_valid : string -> bool.
Variable pwd_hash : string -> string -> string.
Variable pwd_verify : string -> string -> bool.
Variable round2 : float -> float.
Variable fromisoformat : string -> option datetime.

(** An operation run on a request: the dependency on the current student
    comes first, then the body is read as the route's model, then the
    function of the route runs. *)
Definition call_endpoint (e : endpoint) (path_params : list (string * string))
    (srv : Server) (at_ : Moment) (req : request)
  : outcome response_body * Server :=
  let current :=
    current_student_dependency settings int_of_str EmailStr_valid (srv_db srv)
      (at_seconds at_) (req_bearer req) in
  match e with
  | E_root =>
      (Return (Resp_json
                 (JObj [("message", JStr "Student Skill Assistant API")])),
       srv)
  | E_create_status_check =>
      match req_body req with
      | StatusBody client_name =>
          let '(status_obj, checks) :=
            create_status_check (srv_status_checks srv) (at_uuid at_)
              (at_clock at_) client_name in
          (Return (Resp_status_check status_obj), mkServer (srv_db srv) checks)
      | _ => (Raise unprocessable, srv)
      end
  | E_get_status_checks =>
      (l ← get_status_checks fromisoformat (srv_status_checks srv);
       Return (Resp_status_checks l),
       srv)
  | E_register_student =>
      match req_body req with
      | RegisterBody payload =>
          if EmailStr_valid (reg_email payload) then
            let '(o, db') :=
              register_student pwd_hash (srv_db srv) (at_clock at_)
                (at_salt at_) (at_oid at_) payload in
            (p ← o; Return (Resp_student p),
             mkServer db' (srv_status_checks srv))
          else (Raise unprocessable, srv)
      | _ => (Raise unprocessable, srv)
      end
  | E_login_student =>
      match req_body req with
      | LoginBody payload =>
          if EmailStr_valid (login_email payload) then
            (r ← login_student settings pwd_verify (srv_db srv)
                   (at_seconds at_) payload;
             Return (Resp_token r),
             srv)
          else (Raise unprocessable, srv)
      | _ => (Raise unprocessable, srv)
      end
  | E_get_test_questions =>
      (_ ← current;
       j ← get_test_questions (path_param "track" path_params);
       Return (Resp_json j),
       srv)
  | E_submit_test =>
      match current with
      | Return current_student =>
          match req_body req with
          | SubmitBody answers =>
              let '(o, db') :=
                submit_test round2 (srv_db srv) (at_clock at_) (at_oid at_)
                  (path_param "track" path_params) answers current_student in
              (r ← o; Return (Resp_result r),
               mkServer db' (srv_status_checks srv))
          | _ => (Raise unprocessable, srv)
          end
      | Raise exc => (Raise exc, srv)
      | Unhandled exc => (Unhandled exc, srv)
      end
  | E_get_levels =>
      (current_student ← current;
       l ← get_levels (srv_db srv) current_student;
       Return (Resp_levels l),
       srv)
  | E_get_recommendations =>
      (current_student ← current;
       r ← get_recommendations (srv_db srv) current_student;
       Return (Resp_recommendations r),
       srv)
  | E_get_docs =>
      (_ ← current; Return (Resp_docs get_docs), srv)
  | E_chat_endpoint =>
      match current with
      | Return _ =>
          match req_body req with
          | ChatBody message => (Return (Resp_chat (chat_endpoint message)), srv)
          | _ => (Raise unprocessable, srv)
          end
      | Raise exc => (Raise exc, srv)
      | Unhandled exc => (Unhandled exc, srv)
      end
  end.

(** The application on one request: the status, the outcome and the
    store it leaves. *)
Definition app (srv : Server) (at_ : Moment) (req : request)
  : Z * outcome response_body * Server :=
  match dispatch (req_method req) (req_path req) with
  | Dispatch e path_params =>
      let '(o, srv') := call_endpoint e path_params srv at_ req in
      (response_status (success_status e) o, o, srv')
  | MethodNotAllowed =>
      (405, Raise (mkHTTPException 405 "Method Not Allowed" []), srv)
  | NotFound => (404, Raise (mkHTTPException 404 "Not Found" []), srv)
  end.
End Application.

(** ** The test script *)

Definition set_token (self : Tester) (tok : option token) : Tester :=
  mkTester tok (t_student_data self) (t_tests_run self) (t_tests_passed self)
    (t_test_results self).

Definition set_student_data (self : Tester) (data : option StudentRegister)
  : Tester :=
  mkTester (t_token self) data (t_tests_run self) (t_tests_passed self)
    (t_test_results self).

(** [response['access_token']] when ['access_token' in response]: only the
    body of a login has that key. *)
Definition response_access_token (o : outcome response_body) : option token :=
  match o with
  | Return (Resp_token r) => Some (access_token r)
  | _ => None
  end.

(** [response['questions']] when ['questions' in response]. *)
Definition response_questions (o : outcome response_body) : option json :=
  match o with
  | Return (Resp_json (JObj fields)) => assoc_get "questions" fields
  | _ => None
  end.

(** The elements the comprehension [for q in questions] visits; [None]
    when the value cannot be iterated, or yields elements that cannot be
    indexed by ["id"], so that the script stops with an exception. *)
Definition iterate_questions (v : json) : option (list json) :=
  match v with
  | JList qs => Some qs
  | JStr "" | JObj [] => Some []
  | _ => None
  end.

(** [q["id"]] for each question; [None] when one of them has no such key. *)
Fixpoint question_ids (qs : list json) : option (list json) :=
  match qs with
  | [] => Some []
  | q :: rest =>
      match q with
      | JObj fields =>
          match assoc_get "id" fields, question_ids rest with
          | Some i, Some ids => Some (i :: ids)
          | _, _ => None
          end
      | _ => None
      end
  end.

(** [{"answers": [{"questionId": id, "optionIndex": option} ...]}] as the
    submission model reads it: every id has to be a string. *)
Fixpoint answers_body_from (ids : list json) (option_index : Z)
  : option (list AnswerSubmission) :=
  match ids with
  | [] => Some []
  | JStr i :: rest =>
      cons (mkAnswer i option_index) <$> answers_body_from rest option_index
  | _ :: _ => None
  end.

Definition answers_body (ids : list json) (option_index : Z) : request_body :=
  match answers_body_from ids option_index with
  | Some answers => SubmitBody answers
  | None => InvalidBody
  end.

Section TestScript.
Variable settings : Settings.
Variable int_of_str : string -> option Z.
Variable EmailStr_valid : string -> bool.
Variable pwd_hash : string -> string -> string.
Variable pwd_verify : string -> string -> bool.
Variable round2 : float -> float.
Variable fromisoformat : string -> option datetime.
(** What the surroundings supply to the server at the n-th request of
    the script. *)
Variable world : nat -> Moment.
(** The text [run_test] puts in the details of an entry, and the clock
    reading [log_test] records at the n-th request. *)
Variable details_text : Z -> Z -> outcome response_body -> string.
Variable log_stamp : nat -> string.
(** [datetime.now().strftime("%H%M%S")] at the registration. *)
Variable hhmmss : string.

(** [run_test(name, method, endpoint, expected_status, data)] as the
    n-th request, against a server that answers.  The endpoint is given
    by its segments. *)
Definition run_test (self : Tester) (srv : Server) (n : nat) (name : string)
    (method : http_method) (endpoint : list string) (expected_status : Z)
    (data : request_body)
  : Tester * Server * bool * outcome response_body :=
  let req := mkRequest method ("api" :: endpoint) (t_token self) data in
  let '(status, response, srv') :=
    app settings int_of_str EmailStr_valid pwd_hash pwd_verify round2 fromisoformat
      srv (world n) req in
  let success := bool_decide (status = expected_status) in
  (log_test self name success (details_text status expected_status response)
     (log_stamp n),
   srv', success, response).

Definition test_health_check (self : Tester) (srv : Server)
  : Tester * Server * bool :=
  let '(self, srv, success, _) :=
    run_test self srv 0 "API Health Check" GET [""] 200 NoBody in
  (self, srv, success).

Definition test_student : StudentRegister :=
  mkStudentRegister ("Test Student " +:+ hhmmss)
    ("test" +:+ hhmmss +:+ "@college.edu") "TestPass123!" "CSE" "5".

Definition test_register_student (self : Tester) (srv : Server)
  : Tester * Server * bool :=
  let '(self, srv, success, _) :=
    run_test self srv 1 "Student Registration" POST ["auth"; "register"] 201
      (RegisterBody test_student) in
  if success then (set_student_data self (Some test_student), srv, true)
  else (self, srv, false).

Definition test_login_student (self : Tester) (srv : Server)
  : Tester * Server * bool :=
  match t_student_data self with
  | None =>
      (log_test self "Student Login" false
         "No student data available for login" (log_stamp 2),
       srv, false)
  | Some student_data =>
      let login_data :=
        mkStudentLogin (reg_email student_data) (reg_password student_data) in
      let '(self, srv, success, response) :=
        run_test self srv 2 "Student Login" POST ["auth"; "login"] 200
          (LoginBody login_data) in
      match success, response_access_token response with
      | true, Some tok => (set_token self (Some tok), srv, true)
      | _, _ => (self, srv, false)
      end
  end.

Definition test_get_levels (self : Tester) (srv : Server)
  : Tester * Server * bool :=
  let '(self, srv, success, _) :=
    run_test self srv 3 "Get Student Levels" GET ["tests"; "levels"] 200
      NoBody in
  (self, srv, success).

Definition test_get_webdev_questions (self : Tester) (srv : Server)
  : Tester * Server * bool :=
  let '(self, srv, success, _) :=
    run_test self srv 4 "Get WebDev Questions" GET ["tests"; "webdev"] 200
      NoBody in
  (self, srv, success).

Definition test_get_ml_questions (self : Tester) (srv : Server)
  : Tester * Server * bool :=
  let '(self, srv, success, _) :=
    run_test self srv 5 "Get ML Questions" GET ["tests"; "ml"] 200 NoBody in
  (self, srv, success).

(** The two submission tests: the questions are fetched, every question
    is answered with the same option, and the answers are submitted.
    [None] stands for an exception that stops the script. *)
Definition test_submit (self : Tester) (srv : Server) (n : nat)
    (fetch_name submit_name track : string) (option_index : Z)
  : option (Tester * Server * bool) :=
  let '(self, srv, success, response) :=
    run_test self srv n fetch_name GET ["tests"; track] 200 NoBody in
  match success, response_questions response with
  | true, Some questions =>
      qs ← iterate_questions questions;
      ids ← question_ids qs;
      let '(self, srv, success, _) :=
        run_test self srv (S n) submit_name POST ["tests"; track] 200
          (answers_body ids option_index) in
      Some (self, srv, success)
  | _, _ => Some (self, srv, false)
  end.

Definition test_submit_webdev_test (self : Tester) (srv : Server)
  : option (Tester * Server * bool) :=
  test_submit self srv 6 "Get WebDev Questions for Test" "Submit WebDev Test"
    "webdev" 0.

Definition test_submit_ml_test (self : Tester) (srv : Server)
  : option (Tester * Server * bool) :=
  test_submit self srv 8 "Get ML Questions for Test" "Submit ML Test" "ml" 1.

Definition test_get_recommendations (self : Tester) (srv : Server)
  : Tester * Server * bool :=
  let '(self, srv, success, _) :=
    run_test self srv 10 "Get Recommendations" GET ["recommendations"] 200
      NoBody in
  (self, srv, success).

Definition test_get_docs (self : Tester) (srv : Server)
  : Tester * Server * bool :=
  let '(self, srv, success, _) :=
    run_test self srv 11 "Get Documentation" GET ["docs"] 200 NoBody in
  (self, srv, success).

Definition test_chat_endpoint (self : Tester) (srv : Server)
  : Tester * Server * bool :=
  let '(self, srv, success, _) :=
    run_test self srv 12 "Chat with HTML query" POST ["chat"] 200
      (ChatBody "html") in
  (self, srv, success).

Definition test_unauthorized_access (self : Tester) (srv : Server)
  : Tester * Server * bool :=
  let original_token := t_token self in
  let self := set_token self None in
  let '(self, srv, success, _) :=
    run_test self srv 13 "Unauthorized Access Test" GET ["tests"; "levels"]
      401 NoBody in
  (set_token self original_token, srv, success).

(** [run_all_tests]: the state of the script and of the server when the
    tests are done, and the exit code; [None] when an exception stopped
    the script. *)
Definition run_all_tests (self : Tester) (srv : Server)
  : option (Tester * Server * Z) :=
  let '(self, srv, _) := test_health_check self srv in
  let '(self, srv, registered) := test_register_student self srv in
  if registered then
    let '(self, srv, logged_in) := test_login_student self srv in
    if logged_in then
      let '(self, srv, _) := test_get_levels self srv in
      let '(self, srv, _) := test_get_webdev_questions self srv in
      let '(self, srv, _) := test_get_ml_questions self srv in
      '(self, srv, _) ← test_submit_webdev_test self srv;
      '(self, srv, _) ← test_submit_ml_test self srv;
      let '(self, srv, _) := test_get_recommendations self srv in
      let '(self, srv, _) := test_get_docs self srv in
      let '(self, srv, _) := test_chat_endpoint self srv in
      let '(self, srv, _) := test_unauthorized_access self srv in
      Some (self, srv, exit_code self)
    else Some (self, srv, exit_code self)
  else Some (self, srv, exit_code self).
End TestScript.

(** * Vocabulary of the properties *)

(** ** Scores *)

(** The reading of a correct match: the answer names a question of the set
    by its id and picks that question's correct option. *)
Definition correct_match (questions : list Question) (ans : AnswerSubmission)
  : bool :=
  match List.find (fun q => String.eqb (q_id q) (questionId ans)) questions with
  | Some q => bool_decide (optionIndex ans = q_correctIndex q)
  | None => false
  end.

Definition correct_matches (questions : list Question)
    (answers : list AnswerSubmission) : nat :=
  List.length (List.filter (correct_match questions) answers).

(** ** Latest submissions *)

Definition track_level_of (r : TestResult) : TrackLevel :=
  mkTrackLevel (Some (r_level r)) (Some (r_percentage r)).

(** The documents a student has stored for a track. *)
Definition submissions (db : Db) (student_id : oid) (track : string)
  : list TestResult :=
  List.filter
    (fun r => bool_decide (r_student_id r = student_id)
              && String.eqb (r_track r) track)
    (test_results db).

(** [r] is a latest submission of the student for the track: one of the
    stored ones, with no stored one submitted later. *)
Definition is_latest (db : Db) (student_id : oid) (track : string)
    (r : TestResult) : Prop :=
  r ∈ submissions db student_id track /\
  forall r', r' ∈ submissions db student_id track ->
             str_le (r_submitted_at r') (r_submitted_at r).

(** What the response holds for a track: nothing when the student has no
    submission for it, otherwise the level and percentage of a latest one. *)
Definition reports_latest (db : Db) (student_id : oid) (track : string)
    (field : option TrackLevel) : Prop :=
  match field with
  | None => submissions db student_id track = []
  | Some tl =>
      exists r, is_latest db student_id track r /\ tl = track_level_of r
  end.

(** ** Recommendations *)

(** Every stored result carries the level its percentage maps to; the
    submission route stores no other kind. *)
Definition results_wellformed (db : Db) : Prop :=
  Forall (fun r => r_level r = map_percentage_to_level (r_percentage r))
    (test_results db).

(** The student's current level for a track: the level of a latest
    submission, or Beginner when there is none. *)
Definition current_level_is (db : Db) (student_id : oid) (track lvl : string)
  : Prop :=
  (submissions db student_id track = [] /\ lvl = "Beginner") \/
  (exists r, is_latest db student_id track r /\ lvl = r_level r).

(** [result] is the catalog restricted to a track and a difficulty, in
    catalog order. *)
Definition recommends (track lvl : string) (result : list Course) : Prop :=
  (forall c, c ∈ result <->
             c ∈ COURSES /\ c_track c = track /\ c_difficulty c = lvl) /\
  sublist result COURSES.

(** ** Clock readings in order *)

(** The ranges of the fields of a [datetime]. *)
Definition datetime_valid (d : datetime) : Prop :=
  1 <= dt_year d <= 9999 /\ 1 <= dt_month d <= 12 /\ 1 <= dt_day d <= 31 /\
  0 <= dt_hour d < 24 /\ 0 <= dt_minute d < 60 /\ 0 <= dt_second d < 60 /\
  0 <= dt_microsecond d < 1000000.

Fixpoint lex_lt (a b : list Z) : Prop :=
  match a, b with
  | x :: a', y :: b' => x < y \/ (x = y /\ lex_lt a' b')
  | _, _ => False
  end.

Definition dt_fields (d : datetime) : list Z :=
  [dt_year d; dt_month d; dt_day d; dt_hour d; dt_minute d; dt_second d;
   dt_microsecond d].

(** [a] is an earlier reading of the clock than [b]. *)
Definition earlier (a b : datetime) : Prop :=
  lex_lt (dt_fields a) (dt_fields b).

(** ** Stored students *)

(** Every stored student has an id that prints and reads back, as the ids
    the store assigns do, and an email the address type accepts, as the
    registration payload guarantees. *)
Definition students_wellformed (EmailStr_valid : string -> bool) (db : Db)
  : Prop :=
  Forall (fun s => ObjectId (str_oid (s_id s)) = Some (s_id s) /\
                   EmailStr_valid (s_email s) = true)
    (students db).

(** ** Listed questions *)

(** One listed question: an object with exactly the keys [id], [question]
    and [options], the last a list of four strings. *)
Definition question_public_shape (v : json) : Prop :=
  exists id prompt o1 o2 o3 o4,
    v = JObj [("id", JStr id); ("question", JStr prompt);
              ("options", JList [JStr o1; JStr o2; JStr o3; JStr o4])].

Definition listed_id (v : json) : option json :=
  match v with
  | JObj fields => assoc_get "id" fields
  | _ => None
  end.

(** ** Tokens *)

(** [int] returns or raises [ValueError] on the claim, when the claim is
    present. *)
Definition int_readable (int_of_str : string -> option Z) (v : option json)
  : bool :=
  match v with
  | None => true
  | Some v =>
      match py_int int_of_str v with
      | Int_other _ => false
      | _ => true
      end
  end.

(** The time claims of a payload are readable. *)
Definition times_readable (int_of_str : string -> option Z)
    (claims : list (string * json)) : bool :=
  int_readable int_of_str (assoc_get "iat" claims)
  && int_readable int_of_str (assoc_get "nbf" claims)
  && int_readable int_of_str (assoc_get "exp" claims).

(** ** Worked data *)

(** A reader of the strings of decimal digits. *)
Fixpoint digits_value (acc : Z) (s : string) : option Z :=
  match s with
  | EmptyString => Some acc
  | String c rest =>
      let d := Z.of_N (N_of_ascii c) - 48 in
      if (0 <=? d) && (d <=? 9) then digits_value (10 * acc + d) rest
      else None
  end.

Definition example_int (s : string) : option Z :=
  match s with
  | EmptyString => None
  | _ => digits_value 0 s
  end.

Definition example_settings : Settings :=
  mkSettings "change_this_secret" "HS256" 120.

Definition example_oid : oid := Oid "507f1f77bcf86cd799439011".

Definition example_student : Student :=
  mkStudent example_oid "A" "a@x.com" "$2b$12$examplehash" "CSE" "5"
    "2024-01-01T09:00:00+00:00".

(** One student with two web development results: an Advanced one, and a
    Beginner one submitted a day later. *)
Definition example_db : Db :=
  mkDb [example_student]
    [mkTestResult (Oid "65a000000000000000000001") example_oid "webdev"
       9 10 90%float "Advanced" "2024-01-02T10:15:30.250000+00:00";
     mkTestResult (Oid "65a000000000000000000002") example_oid "webdev"
       3 10 30%float "Beginner" "2024-01-03T08:05:00+00:00"].

(** A well signed, unexpired token whose subject is not an object id. *)
Definition example_stray_token : token :=
  Signed "HS256" "change_this_secret"
    [("sub", JStr "not-an-object-id"); ("email", JStr "a@x.com");
     ("exp", JInt 1704200000)].

Definition example_payload : StudentRegister :=
  mkStudentRegister "A" "a@x.com" "p" "CSE" "5".

Definition example_hash (salt password : string) : string :=
  "$2b$12$" +:+ salt +:+ password.

(** The store after the example registration on an empty store. *)
Definition example_registered_db : Db :=
  snd (register_student example_hash (mkDb [] [])
         (mkDatetime 2024 1 1 9 0 0 0) "salt" example_oid example_payload).

(** ** Chat topics *)

Fixpoint is_ascii (s : string) : bool :=
  match s with
  | EmptyString => true
  | String a rest => (N_of_ascii a <? 128)%N && is_ascii rest
  end.

(** The place of a reply in the order the topics are tried: 0 for the
    first topic, 5 for the fallback. *)
Definition topic_rank (reply : string) : nat :=
  if String.eqb reply reply_html then 0
  else if String.eqb reply reply_css then 1
  else if String.eqb reply reply_javascript then 2
  else if String.eqb reply reply_ml then 3
  else if String.eqb reply reply_webdev then 4
  else 5.

(** The rank of the reply, read off the tests the route makes. *)
Definition rank_of_tests (html css js ml webdev : bool) : nat :=
  if html then 0 else if css then 1 else if js then 2
  else if ml then 3 else if webdev then 4 else 5.

(** ** The test script's log *)

(** The counters agree with the log: as many tests run as entries, as
    many passed as entries marked successful. *)
Definition tester_consistent (self : Tester) : Prop :=
  t_tests_run self = Z.of_nat (List.length (t_test_results self)) /\
  t_tests_passed self =
    Z.of_nat (List.length (List.filter log_success (t_test_results self))).

(** ** Worked status checks *)

Definition example_reading : datetime := mkDatetime 2024 1 2 10 15 30 250000.

(** A reader that knows the written form of the example reading. *)
Definition example_fromisoformat (s : string) : option datetime :=
  if String.eqb s (isoformat example_reading) then Some example_reading
  else None.

Definition example_status_doc : StatusCheckDoc :=
  mkStatusCheckDoc "0b6f1c1e-3a7e-4c55-9d0a-5f2f8f7f6a10" "probe"
    (isoformat example_reading).

(** ** Worked logins *)

(** A verifier for the example hasher with the salt "salt". *)
Definition example_verify (password hashed : string) : bool :=
  String.eqb hashed (example_hash "salt" password).

Definition example_public : StudentPublic :=
  mkStudentPublic "507f1f77bcf86cd799439011" "A" "a@x.com" "CSE" "5".

Definition example_login_token : token :=
  Signed "HS256" "change_this_secret"
    [("sub", JStr "507f1f77bcf86cd799439011"); ("email", JStr "a@x.com");
     ("exp", JInt 1704197200)].

(** ** Fields of the levels response *)

(** The field of the levels response that belongs to a track. *)
Definition levels_field (track : string) (l : LevelsResponse)
  : option TrackLevel :=
  if String.eqb track "webdev" then lv_webdev l
  else if String.eqb track "ml" then lv_ml l
  else None.

(** ** Claims of a token *)

(** The payload has none of the other claims the token library checks. *)
Definition no_other_registered_claim (data : list (string * json)) : Prop :=
  assoc_get "iat" data = None /\ assoc_get "nbf" data = None /\
  assoc_get "aud" data = None /\ assoc_get "jti" data = None /\
  assoc_get "at_hash" data = None.

(** The subject of a payload, when there is one, is a string. *)
Definition subject_is_string (data : list (string * json)) : Prop :=
  match assoc_get "sub" data with
  | None | Some (JStr _) => True
  | Some _ => False
  end.

(** ** A worked submission *)

Definition example_submission_time : datetime := mkDatetime 2024 1 4 7 30 0 5.

Definition example_submission_response : TestResultResponse :=
  mkTestResultResponse "webdev" 1 10 10%float "Beginner"
    (level_message "Beginner").

Definition example_db_after_submission : Db :=
  insert_test_result example_db
    (mkTestResult (Oid "65a000000000000000000003") example_oid "webdev" 1 10
       10%float "Beginner" (isoformat example_submission_time)).

(** ** A run of the test script *)

(** The student document a registration stores. *)
Definition registered_student (pwd_hash : string -> string -> string)
    (at_ : Moment) (payload : StudentRegister) : Student :=
  mkStudent (at_oid at_) (reg_name payload) (reg_email payload)
    (get_password_hash pwd_hash (at_salt at_) (reg_password payload))
    (reg_branch payload) (reg_semester payload) (isoformat (at_clock at_)).

(** The names of the tests of a full run, in order, each with its
    success. *)
Definition full_run_log : list (string * bool) := [
  ("API Health Check", true);
  ("Student Registration", true);
  ("Student Login", true);
  ("Get Student Levels", false);
  ("Get WebDev Questions", true);
  ("Get ML Questions", true);
  ("Get WebDev Questions for Test", true);
  ("Submit WebDev Test", true);
  ("Get ML Questions for Test", true);
  ("Submit ML Test", true);
  ("Get Recommendations", true);
  ("Get Documentation", true);
  ("Chat with HTML query", true);
  ("Unauthorized Access Test", true)
].

Definition log_outline (self : Tester) : list (string * bool) :=
  (fun e => (log_test_name e, log_success e)) <$> t_test_results self.

(** What the surroundings supply at the n-th request of the worked run:
    one second passes between two requests, and the store hands out the
    object ids in sequence. *)
Definition example_world (n : nat) : Moment :=
  mkMoment (mkDatetime 2024 1 4 7 30 (Z.of_nat n) 0)
    (1704353400 + Z.of_nat n) "salt"
    (Oid ("65a0000000000000000000" +:+ zero_padded 2 (Z.of_nat n)))
    "0b6f1c1e-3a7e-4c55-9d0a-5f2f8f7f6a10".

(** * Properties *)

(** ** Order on floats *)

Section FloatOrder.
Local Open Scope float_scope.

Lemma SFcompare_antisym (x y : SpecFloat.spec_float) (c : comparison) :
  SpecFloat.SFcompare x y = Some c ->
  SpecFloat.SFcompare y x = Some (CompOpp c).
Proof.
  destruct x as [sx| sx | |sx mx ex], y as [sy| sy | |sy my ey];
    simpl; try discriminate;
    try (destruct sx); try (destruct sy);
    intros [= <-]; try reflexivity.
  all: rewrite (Z.compare_antisym ey ex);
    destruct (ey ?= ex)%Z; simpl; try reflexivity;
    change (PosDef.Pos.compare_cont Eq my mx) with (Pos.compare my mx);
    change (PosDef.Pos.compare_cont Eq mx my) with (Pos.compare mx my);
    rewrite (Pos.compare_antisym mx my); reflexivity.
Qed.

Lemma ltb_leb_false (x y : float) : (x <? y) = true -> (y <=? x) = false.
Proof.
  rewrite FloatAxioms.ltb_spec, FloatAxioms.leb_spec. unfold SpecFloat.SFltb, SpecFloat.SFleb.
  destruct (SpecFloat.SFcompare (Prim2SF x) (Prim2SF y)) as [c|] eqn:E;
    [|discriminate].
  - intros Hc. rewrite (SFcompare_antisym _ _ _ E).
    destruct c; try discriminate. reflexivity.
Qed.
End FloatOrder.

(** ** Level bucketing *)

Section Levels.
Local Open Scope float_scope.

Lemma level_beginner (p : float) :
  (p <=? 40) = true -> map_percentage_to_level p = "Beginner".
Proof. unfold map_percentage_to_level. intros ->. reflexivity. Qed.

Lemma level_intermediate (p : float) :
  (40 <? p) = true -> (p <=? 75) = true ->
  map_percentage_to_level p = "Intermediate".
Proof.
  unfold map_percentage_to_level. intros Hlo ->.
  rewrite (ltb_leb_false _ _ Hlo). reflexivity.
Qed.

Lemma ltb_40_of_75 (p : float) : (75 <? p) = true -> (40 <? p) = true.
Proof.
  rewrite !FloatAxioms.ltb_spec. unfold SpecFloat.SFltb.
  change (Prim2SF 75) with (SpecFloat.S754_finite false 5277655813324800 (-46)).
  change (Prim2SF 40) with (SpecFloat.S754_finite false 5629499534213120 (-47)).
  destruct (Prim2SF p) as [s|s| |s m e]; cbn -[Z.compare]; try discriminate.
  - destruct s; [discriminate | reflexivity].
  - destruct s; [discriminate|].
    destruct (Z.compare_spec (-46) e) as [<-|Hlt|Hgt].
    + intros _. reflexivity.
    + intros _. destruct (Z.compare_spec (-47) e); try lia; reflexivity.
    + discriminate.
Qed.

Lemma level_advanced (p : float) :
  (75 <? p) = true -> map_percentage_to_level p = "Advanced".
Proof.
  unfold map_percentage_to_level. intros Hhi.
  rewrite (ltb_leb_false _ _ (ltb_40_of_75 _ Hhi)).
  rewrite (ltb_leb_false _ _ Hhi). reflexivity.
Qed.

(** With ten questions the quotient and the product round to the exact
    multiple of ten. *)
Lemma percentage_of_ten (score : Z) :
  (0 <= score <= 10)%Z ->
  compute_percentage score 10 = float_of_int (10 * score).
Proof.
  intros H.
  assert (score = 0 \/ score = 1 \/ score = 2 \/ score = 3 \/ score = 4 \/
          score = 5 \/ score = 6 \/ score = 7 \/ score = 8 \/ score = 9 \/
          score = 10)%Z as Hs by lia.
  repeat (destruct Hs as [-> | Hs]; [vm_compute; reflexivity|]).
  subst. vm_compute. reflexivity.
Qed.

Lemma level_of_score (score : Z) :
  (0 <= score <= 10)%Z ->
  map_percentage_to_level (compute_percentage score 10) =
    if (score <=? 4)%Z then "Beginner"
    else if (score <=? 7)%Z then "Intermediate" else "Advanced".
Proof.
  intros H.
  assert (score = 0 \/ score = 1 \/ score = 2 \/ score = 3 \/ score = 4 \/
          score = 5 \/ score = 6 \/ score = 7 \/ score = 8 \/ score = 9 \/
          score = 10)%Z as Hs by lia.
  repeat (destruct Hs as [-> | Hs]; [vm_compute; reflexivity|]).
  subst. vm_compute. reflexivity.
Qed.

(** C3: the level is a function of the percentage with the thresholds 40
    and 75: at most 40 is Beginner, above 40 and at most 75 is
    Intermediate, above 75 is Advanced; the four boundary readings 40.0,
    40.01, 75.0 and 75.01 fall as the table says; and with the fixed total
    of ten the percentage of a score is exactly ten times the score, so
    scores 0..4 are Beginner, 5..7 Intermediate and 8..10 Advanced. *)
Theorem level_bucketing :
  (forall p, (p <=? 40) = true -> map_percentage_to_level p = "Beginner") /\
  (forall p, (40 <? p) = true -> (p <=? 75) = true ->
             map_percentage_to_level p = "Intermediate") /\
  (forall p, (75 <? p) = true -> map_percentage_to_level p = "Advanced") /\
  map_percentage_to_level 40.0 = "Beginner" /\
  map_percentage_to_level 40.01 = "Intermediate" /\
  map_percentage_to_level 75.0 = "Intermediate" /\
  map_percentage_to_level 75.01 = "Advanced" /\
  (forall score, (0 <= score <= 10)%Z ->
     compute_percentage score 10 = float_of_int (10 * score) /\
     map_percentage_to_level (compute_percentage score 10) =
       if (score <=? 4)%Z then "Beginner"
       else if (score <=? 7)%Z then "Intermediate" else "Advanced").
Proof.
  repeat split;
    auto using level_beginner, level_intermediate, level_advanced,
               percentage_of_ten, level_of_score.
Qed.
End Levels.

(** ** Scoring *)

Section Scoring.
Implicit Types (qs : list Question) (answers : list AnswerSubmission).

Lemma find_by_id_None qs k :
  k ∉ q_id <$> qs ->
  List.find (fun q => String.eqb (q_id q) k) qs = None.
Proof.
  induction qs as [|q qs IH]; simpl; [done|].
  rewrite not_elem_of_cons. intros [Hne Hnin].
  destruct (String.eqb_spec (q_id q) k) as [Heq|_]; [congruence|]. auto.
Qed.

Lemma foldl_question_map_lookup qs (m : gmap string Question) k :
  NoDup (q_id <$> qs) ->
  foldl (fun m q => <[q_id q := q]> m) m qs !! k =
    match List.find (fun q => String.eqb (q_id q) k) qs with
    | Some q => Some q
    | None => m !! k
    end.
Proof.
  revert m. induction qs as [|q qs IH]; intros m Hnd; simpl; [done|].
  rewrite fmap_cons, NoDup_cons in Hnd. destruct Hnd as [Hnin Hnd].
  rewrite (IH _ Hnd).
  destruct (String.eqb_spec (q_id q) k) as [<-|Hne].
  - rewrite (find_by_id_None _ _ Hnin). apply lookup_insert_eq.
  - destruct (List.find _ qs); [done|]. by apply lookup_insert_ne.
Qed.

Lemma build_question_map_lookup qs k :
  NoDup (q_id <$> qs) ->
  build_question_map qs !! k =
    List.find (fun q => String.eqb (q_id q) k) qs.
Proof.
  intros Hnd. unfold build_question_map.
  rewrite (foldl_question_map_lookup _ _ _ Hnd).
  destruct (List.find _ qs); [done|]. apply lookup_empty.
Qed.

Lemma score_step_correct_match qs score ans :
  NoDup (q_id <$> qs) ->
  score_step (build_question_map qs) score ans =
    if correct_match qs ans then score + 1 else score.
Proof.
  intros Hnd. unfold score_step, correct_match.
  rewrite (build_question_map_lookup _ _ Hnd).
  destruct (List.find _ qs) as [q|]; [|done].
  destruct (decide (optionIndex ans = q_correctIndex q)) as [He|Hne].
  - by rewrite (bool_decide_eq_true_2 _ He).
  - by rewrite (bool_decide_eq_false_2 _ Hne).
Qed.

Lemma foldl_score_step qs answers acc :
  NoDup (q_id <$> qs) ->
  foldl (score_step (build_question_map qs)) acc answers =
    acc + Z.of_nat (correct_matches qs answers).
Proof.
  intros Hnd. revert acc.
  induction answers as [|ans answers IH]; intros acc; simpl.
  - unfold correct_matches. simpl. lia.
  - rewrite IH, (score_step_correct_match _ _ _ Hnd).
    unfold correct_matches. simpl.
    destruct (correct_match qs ans); simpl; lia.
Qed.

(** The loop counts the correct matches. *)
Lemma compute_score_correct_matches qs answers :
  NoDup (q_id <$> qs) ->
  compute_score qs answers = Z.of_nat (correct_matches qs answers).
Proof.
  intros Hnd. unfold compute_score. by rewrite foldl_score_step.
Qed.

Lemma correct_matches_Permutation qs answers answers' :
  answers ≡ₚ answers' ->
  correct_matches qs answers = correct_matches qs answers'.
Proof.
  unfold correct_matches.
  induction 1 as [|a l l' _ IH|a b l|l1 l2 l3 _ IH1 _ IH2]; simpl.
  - done.
  - destruct (correct_match qs a); simpl; congruence.
  - by destruct (correct_match qs a), (correct_match qs b).
  - congruence.
Qed.

Lemma correct_matches_le_length qs answers :
  (correct_matches qs answers <= List.length answers)%nat.
Proof. unfold correct_matches. apply List.filter_length_le. Qed.

Lemma questions_for_NoDup track : NoDup (q_id <$> questions_for track).
Proof.
  unfold questions_for.
  destruct (String.eqb track "webdev");
    apply (bool_decide_unpack _); vm_compute; reflexivity.
Qed.

Lemma questions_for_length track :
  Z.of_nat (List.length (questions_for track)) = 10.
Proof. unfold questions_for. by destruct (String.eqb track "webdev"). Qed.
End Scoring.

(** ** Submissions *)

Section Submissions.
Variable round2 : float -> float.
Implicit Types (db : Db) (answers : list AnswerSubmission).

(** A submission that is accepted adds one document after the ones
    already stored and changes nothing else. *)
Lemma submit_test_Return db now new_id track answers st resp db' :
  submit_test round2 db now new_id track answers st = (Return resp, db') ->
  exists student_id,
    current_student_oid st = Some student_id /\
    valid_track track = true /\
    db' = insert_test_result db
            (mkTestResult new_id student_id track
               (compute_score (questions_for track) answers) 10
               (compute_percentage
                  (compute_score (questions_for track) answers) 10)
               (map_percentage_to_level
                  (compute_percentage
                     (compute_score (questions_for track) answers) 10))
               (isoformat now)).
Proof.
  unfold submit_test. rewrite questions_for_length.
  destruct (valid_track track); simpl; [|intros [=]].
  destruct (current_student_oid st) as [sid|]; [|intros [=]].
  intros [= _ <-]. eauto.
Qed.

Lemma submit_test_accepts db now new_id track answers st student_id :
  valid_track track = true ->
  current_student_oid st = Some student_id ->
  exists resp,
    submit_test round2 db now new_id track answers st =
      (Return resp,
       insert_test_result db
         (mkTestResult new_id student_id track
            (compute_score (questions_for track) answers) 10
            (compute_percentage
               (compute_score (questions_for track) answers) 10)
            (map_percentage_to_level
               (compute_percentage
                  (compute_score (questions_for track) answers) 10))
            (isoformat now))).
Proof.
  intros Ht Hs. unfold submit_test.
  rewrite questions_for_length, Ht, Hs. simpl. eauto.
Qed.
End Submissions.

(** C2: eleven answers that all name question [w1] with its correct option
    score 11 against a total of 10; the stored percentage is the quotient
    times one hundred, here above 100, and the level is Advanced. *)
Theorem repeated_answers_score_above_total :
  let answers := replicate 11 (mkAnswer "w1" 1) in
  compute_score (questions_for "webdev") answers = 11 /\
  Z.of_nat (List.length (questions_for "webdev")) = 10 /\
  compute_percentage 11 10 = 110.00000000000001%float /\
  forall round2 db now new_id st student_id,
    current_student_oid st = Some student_id ->
    submit_test round2 db now new_id "webdev" answers st =
      (Return (mkTestResultResponse "webdev" 11 10
                 (round2 110.00000000000001%float) "Advanced"
                 (level_message "Advanced")),
       insert_test_result db
         (mkTestResult new_id student_id "webdev" 11 10
            110.00000000000001%float "Advanced" (isoformat now))).
Proof.
  assert (compute_score (questions_for "webdev")
            (replicate 11 (mkAnswer "w1" 1)) = 11) as Hscore.
  { rewrite compute_score_correct_matches by apply questions_for_NoDup.
    vm_compute. reflexivity. }
  assert (map_percentage_to_level (compute_percentage 11 10) = "Advanced")
    as Hlevel by (vm_compute; reflexivity).
  assert (compute_percentage 11 10 = 110.00000000000001%float) as Hpct
    by (vm_compute; reflexivity).
  cbv zeta. split; [exact Hscore|]. split; [reflexivity|]. split; [exact Hpct|].
  intros round2 db now new_id st student_id Hs.
  unfold submit_test. rewrite questions_for_length, Hscore, Hs, Hlevel, Hpct.
  reflexivity.
Qed.

(** ** Order on strings *)

Section StringOrder.
Lemma string_compare_refl (s : string) : String.compare s s = Eq.
Proof.
  induction s as [|c s IH]; simpl; [done|].
  unfold Ascii.compare. by rewrite N.compare_refl.
Qed.

Lemma string_compare_trans (a b c : string) :
  String.compare a b <> Gt -> String.compare b c <> Gt ->
  String.compare a c <> Gt.
Proof.
  revert b c. induction a as [|x a IH]; intros [|y b] [|z c]; simpl;
    try done.
  unfold Ascii.compare.
  destruct (N.compare_spec (N_of_ascii x) (N_of_ascii y)) as [Hxy|Hxy|Hxy];
    destruct (N.compare_spec (N_of_ascii y) (N_of_ascii z)) as [Hyz|Hyz|Hyz];
    destruct (N.compare_spec (N_of_ascii x) (N_of_ascii z)) as [Hxz|Hxz|Hxz];
    try done; try lia.
  apply IH.
Qed.

#[global] Instance str_le_refl : Reflexive str_le.
Proof.
  intros s. unfold str_le, String.leb. by rewrite string_compare_refl.
Qed.

#[global] Instance str_le_trans : Transitive str_le.
Proof.
  intros a b c. unfold str_le, String.leb.
  pose proof (string_compare_trans a b c) as H.
  destruct (String.compare a b), (String.compare b c),
    (String.compare a c); try done; intros _ _; exfalso; by apply H.
Qed.

#[global] Instance str_le_total : Total str_le.
Proof. intros a b. apply String.leb_total. Qed.

#[global] Instance newer_first_refl : Reflexive newer_first.
Proof. intros r. unfold newer_first. reflexivity. Qed.

#[global] Instance newer_first_trans : Transitive newer_first.
Proof. intros a b c Hab Hbc. unfold newer_first in *. by etrans. Qed.

#[global] Instance newer_first_total : Total newer_first.
Proof. intros a b. unfold newer_first. apply total, _. Qed.
End StringOrder.

(** ** Latest level per track *)

Section LatestLevels.
Implicit Types (cursor : list TestResult) (levels : gmap string TrackLevel).

(** First write wins: a track keeps the first document the loop meets. *)
Lemma foldl_levels_step_lookup cursor levels t :
  foldl levels_step levels cursor !! t =
    match levels !! t with
    | Some tl => Some tl
    | None =>
        track_level_of <$>
          List.find (fun r => String.eqb (r_track r) t) cursor
    end.
Proof.
  revert levels. induction cursor as [|doc cursor IH]; intros levels; simpl.
  - by destruct (levels !! t).
  - rewrite IH. unfold levels_step.
    destruct (String.eqb_spec (r_track doc) t) as [Heq|Hne].
    + subst t. destruct (levels !! r_track doc) as [tl|] eqn:E.
      * by rewrite E.
      * by rewrite lookup_insert_eq.
    + destruct (levels !! r_track doc) as [tl|] eqn:E; [done|].
      by rewrite lookup_insert_ne.
Qed.

Lemma collect_levels_lookup cursor t :
  collect_levels cursor !! t =
    track_level_of <$> List.find (fun r => String.eqb (r_track r) t) cursor.
Proof.
  unfold collect_levels. rewrite foldl_levels_step_lookup.
  by rewrite lookup_empty.
Qed.

(** In a list sorted by a reflexive relation the first element with a
    property is related to every element with it. *)
Lemma find_first_of_sorted {A} (R : relation A) `{!Reflexive R}
    (p : A -> bool) (l : list A) (x : A) :
  StronglySorted R l -> List.find p l = Some x ->
  forall y, y ∈ l -> p y = true -> R x y.
Proof.
  induction 1 as [|a l Hs IH Hall]; simpl; [done|].
  destruct (p a) eqn:Hpa.
  - intros [= <-] y Hy _. apply elem_of_cons in Hy as [->|Hy]; [done|].
    rewrite Forall_forall in Hall. by apply Hall.
  - intros Hf y Hy Hpy. apply elem_of_cons in Hy as [->|Hy]; [congruence|].
    by apply IH.
Qed.

Lemma find_results_sorted_elem_of db student_id r :
  r ∈ find_results_sorted db student_id <->
  r ∈ test_results db /\ r_student_id r = student_id.
Proof.
  unfold find_results_sorted. rewrite merge_sort_Permutation.
  rewrite list_elem_of_In, List.filter_In, <- list_elem_of_In.
  by rewrite bool_decide_eq_true.
Qed.

Lemma elem_of_submissions db student_id t r :
  r ∈ submissions db student_id t <->
  r ∈ find_results_sorted db student_id /\ String.eqb (r_track r) t = true.
Proof.
  unfold submissions. rewrite find_results_sorted_elem_of.
  rewrite list_elem_of_In, List.filter_In, <- list_elem_of_In.
  rewrite andb_true_iff, bool_decide_eq_true. tauto.
Qed.

Lemma first_of_cursor_reports_latest db student_id t :
  reports_latest db student_id t
    (track_level_of <$>
       List.find (fun r => String.eqb (r_track r) t)
         (find_results_sorted db student_id)).
Proof.
  destruct (List.find _ _) as [r|] eqn:Hf; simpl.
  - exists r. split; [|done]. split.
    + apply List.find_some in Hf as [Hin Ht].
      apply elem_of_submissions. by rewrite list_elem_of_In.
    + intros r' Hr'. apply elem_of_submissions in Hr' as [Hin' Ht'].
      apply (find_first_of_sorted newer_first _ _ _
               (StronglySorted_merge_sort _ _) Hf r' Hin' Ht').
  - destruct (submissions db student_id t) as [|r l] eqn:Hs; [done|].
    assert (r ∈ submissions db student_id t) as Hr
      by (rewrite Hs; apply list_elem_of_here).
    apply elem_of_submissions in Hr as [Hin Ht].
    apply list_elem_of_In in Hin.
    by rewrite (List.find_none _ _ Hf r Hin) in Ht.
Qed.
End LatestLevels.

(** C4: for each of the two tracks the response holds the level and the
    percentage of the first document met when the student's documents are
    read most recent first; that document is a latest submission of the
    student for the track (no stored submission for it has a later
    timestamp), and the field is absent exactly when the student has no
    submission for the track. *)
Theorem current_levels_are_latest (db : Db) (student_id : oid) :
  let response := get_latest_levels_for_student db student_id in
  let first_for t :=
    track_level_of <$>
      List.find (fun r => String.eqb (r_track r) t)
        (find_results_sorted db student_id) in
  lv_webdev response = first_for "webdev" /\
  lv_ml response = first_for "ml" /\
  reports_latest db student_id "webdev" (lv_webdev response) /\
  reports_latest db student_id "ml" (lv_ml response) /\
  (lv_webdev response = None <-> submissions db student_id "webdev" = []) /\
  (lv_ml response = None <-> submissions db student_id "ml" = []).
Proof.
  cbv zeta. unfold get_latest_levels_for_student. simpl.
  rewrite !collect_levels_lookup.
  pose proof (first_of_cursor_reports_latest db student_id "webdev") as Hw.
  pose proof (first_of_cursor_reports_latest db student_id "ml") as Hm.
  repeat split; try done.
  - intros E. by rewrite E in Hw.
  - intros E. clear Hm. revert Hw. destruct (_ <$> _) as [tl|]; [|done].
    intros (r & [Hr _] & _). rewrite E in Hr. by apply elem_of_nil in Hr.
  - intros E. by rewrite E in Hm.
  - intros E. clear Hw. revert Hm. destruct (_ <$> _) as [tl|]; [|done].
    intros (r & [Hr _] & _). rewrite E in Hr. by apply elem_of_nil in Hr.
Qed.

(** ** Recommendations *)

Section Recommendations.
Lemma map_percentage_to_level_nonempty (p : float) :
  map_percentage_to_level p <> "".
Proof.
  unfold map_percentage_to_level.
  destruct (p <=? 40)%float; [done|]. by destruct (p <=? 75)%float.
Qed.

Lemma filter_sublist {A} (f : A -> bool) (l : list A) :
  sublist (List.filter f l) l.
Proof.
  induction l as [|a l IH]; simpl; [constructor|].
  destruct (f a); by constructor.
Qed.

Lemma filter_courses_recommends track lvl (field : option TrackLevel) :
  lvl <> "" ->
  field = None /\ lvl = "Beginner" \/
    (exists pct, field = Some (mkTrackLevel (Some lvl) pct)) ->
  recommends track lvl (filter_courses track field).
Proof.
  intros Hne Hfield.
  assert (filter_courses track field =
          List.filter
            (fun course => String.eqb (c_track course) track
                           && String.eqb (c_difficulty course) lvl)
            COURSES) as ->.
  { unfold filter_courses. destruct Hfield as [[-> ->] | [pct ->]];
      [reflexivity|].
    cbn [level]. by destruct lvl. }
  split; [|apply filter_sublist].
  intros c. rewrite list_elem_of_In, List.filter_In, <- list_elem_of_In.
  by rewrite andb_true_iff, !String.eqb_eq.
Qed.

Lemma latest_field_level db student_id t :
  results_wellformed db ->
  let field :=
    track_level_of <$>
      List.find (fun r => String.eqb (r_track r) t)
        (find_results_sorted db student_id) in
  exists lvl,
    current_level_is db student_id t lvl /\
    recommends t lvl (filter_courses t field).
Proof.
  intros Hwf. cbv zeta.
  pose proof (first_of_cursor_reports_latest db student_id t) as Hl.
  destruct (List.find _ _) as [r|]; simpl in *.
  - destruct Hl as (r' & Hlatest & [= Hlev Hpct]).
    exists (r_level r). split.
    + right. exists r'. by rewrite Hlev.
    + apply filter_courses_recommends; [|right; by eexists].
      destruct Hlatest as [Hin _].
      unfold submissions in Hin.
      apply list_elem_of_In, List.filter_In in Hin as [Hin _].
      unfold results_wellformed in Hwf. rewrite Forall_forall in Hwf.
      rewrite Hlev, (Hwf r') by by apply list_elem_of_In.
      apply map_percentage_to_level_nonempty.
  - exists "Beginner". split; [by left|].
    apply filter_courses_recommends; [done|by left].
Qed.
End Recommendations.

(** C5: for a student whose stored results are the ones the submission
    route writes, the recommendations for each of the two tracks are the
    catalog courses of that track whose difficulty is the student's current
    level for the track (the level of a latest submission, Beginner when
    there is none), and they come in catalog order. *)
Theorem recommendations_match_current_level
    (db : Db) (current_student : Student) (student_id : oid) :
  current_student_oid current_student = Some student_id ->
  results_wellformed db ->
  exists response lvl_webdev lvl_ml,
    get_recommendations db current_student = Return response /\
    current_level_is db student_id "webdev" lvl_webdev /\
    recommends "webdev" lvl_webdev (rec_webdev response) /\
    current_level_is db student_id "ml" lvl_ml /\
    recommends "ml" lvl_ml (rec_ml response).
Proof.
  intros Hs Hwf. unfold get_recommendations. rewrite Hs.
  destruct (latest_field_level db student_id "webdev" Hwf) as (lw & Hcw & Hrw).
  destruct (latest_field_level db student_id "ml" Hwf) as (lm & Hcm & Hrm).
  eexists _, lw, lm. split; [reflexivity|]. simpl.
  unfold get_latest_levels_for_student. simpl.
  rewrite !collect_levels_lookup. done.
Qed.

(** ** Authentication *)

Section Authentication.
Variable settings : Settings.
Variable int_of_str : string -> option Z.
Variable EmailStr_valid : string -> bool.
Implicit Types (db : Db) (claims : list (string * json)).

(** Decoding hands back the claims of the token unchanged, and only when
    every check of the claims returned. *)
Lemma jwt_decode_inr alg key claims secret algorithms now payload :
  jwt_decode int_of_str (Signed alg key claims) secret algorithms now
    = inr payload ->
  payload = claims /\ key = secret /\
  validate_claims int_of_str now claims = None.
Proof.
  unfold jwt_decode.
  destruct (negb (existsb _ _)); [done|].
  destruct (String.eqb_spec key secret) as [->|Hne]; simpl; [|done].
  destruct (validate_claims int_of_str now claims); [done|].
  by intros [= <-].
Qed.

(** An exception of another class comes out of the checks of the claims
    only. *)
Lemma jwt_decode_other t secret algorithms now exc :
  jwt_decode int_of_str t secret algorithms now = inl (Raised_other exc) ->
  exists alg key claims,
    t = Signed alg key claims /\
    validate_claims int_of_str now claims = Some (Raised_other exc).
Proof.
  destruct t as [raw|alg key claims]; [done|]. unfold jwt_decode.
  destruct (negb (existsb _ _)); [done|].
  destruct (negb (String.eqb key secret)); [done|].
  destruct (validate_claims int_of_str now claims) as [e|] eqn:E; [|done].
  intros [= ->]. by exists alg, key, claims.
Qed.

(** The checks that come after the time claims raise a [JWTError] or
    return. *)
Lemma later_checks_no_escape claims exc :
  first_raised
    [validate_aud claims; validate_str "sub" claims;
     validate_str "jti" claims; validate_at_hash claims]
    <> Some (Raised_other exc).
Proof.
  unfold validate_aud, validate_str, validate_at_hash. simpl.
  destruct (assoc_get "aud" claims); [done|].
  destruct (assoc_get "sub" claims) as [[]|]; try done;
    (destruct (assoc_get "jti" claims) as [[]|]; try done);
    by destruct (assoc_get "at_hash" claims).
Qed.

(** With readable time claims the checks raise a [JWTError] or return. *)
Lemma validate_claims_readable now claims exc :
  times_readable int_of_str claims = true ->
  validate_claims int_of_str now claims <> Some (Raised_other exc).
Proof.
  unfold times_readable, int_readable. intros H.
  apply andb_prop in H as [H Hexp]. apply andb_prop in H as [Hiat Hnbf].
  unfold validate_claims, validate_iat, validate_nbf, validate_exp.
  cbn [first_raised].
  destruct (assoc_get "iat" claims) as [v1|];
    [destruct (py_int int_of_str v1); try done|];
    (destruct (assoc_get "nbf" claims) as [v2|];
       [destruct (py_int int_of_str v2) as [nbf| |]; try done;
        destruct (now <? nbf); try done|]);
    (destruct (assoc_get "exp" claims) as [v3|];
       [destruct (py_int int_of_str v3) as [exp| |]; try done;
        destruct (exp <? now); try done|]);
    apply later_checks_no_escape.
Qed.

(** Once the checks returned, the expiry that was read is not in the
    past. *)
Lemma validate_claims_None_exp now claims v exp :
  validate_claims int_of_str now claims = None ->
  assoc_get "exp" claims = Some v ->
  py_int int_of_str v = Int_value exp ->
  now <= exp.
Proof.
  unfold validate_claims. cbn [first_raised].
  destruct (validate_iat int_of_str claims); [done|].
  destruct (validate_nbf int_of_str now claims); [done|].
  destruct (validate_exp int_of_str now claims) eqn:E; [done|].
  intros _ Hv Hint. unfold validate_exp in E. rewrite Hv, Hint in E.
  by destruct (Z.ltb_spec exp now).
Qed.

(** The claims a login writes pass every check until the expiry. *)
Lemma decode_issued_claims now exp sub email :
  now <= exp ->
  jwt_decode int_of_str
    (Signed (JWT_ALGORITHM settings) (JWT_SECRET settings)
       [("sub", JStr sub); ("email", JStr email); ("exp", JInt exp)])
    (JWT_SECRET settings) [JWT_ALGORITHM settings] now
    = inr [("sub", JStr sub); ("email", JStr email); ("exp", JInt exp)].
Proof.
  intros Hle. unfold jwt_decode. simpl. rewrite !String.eqb_refl. simpl.
  unfold validate_claims, validate_iat, validate_nbf, validate_exp,
    validate_aud, validate_str, validate_at_hash. simpl.
  by destruct (Z.ltb_spec exp now); [lia|].
Qed.

Lemma decode_error_rejected db now t e :
  jwt_decode int_of_str t (JWT_SECRET settings) [JWT_ALGORITHM settings] now
    = inl (Raised_JWTError e) ->
  get_current_student settings int_of_str EmailStr_valid db now t =
    Raise credentials_exception.
Proof. unfold get_current_student. by intros ->. Qed.

Lemma unreadable_token_rejected db now raw :
  get_current_student settings int_of_str EmailStr_valid db now (Garbage raw) =
    Raise credentials_exception.
Proof. reflexivity. Qed.


(** The three ways a decoding of a token with readable time claims
    ends. *)
Lemma decode_readable_cases now alg key claims :
  times_readable int_of_str claims = true ->
  (exists e,
     jwt_decode int_of_str (Signed alg key claims) (JWT_SECRET settings)
       [JWT_ALGORITHM settings] now = inl (Raised_JWTError e)) \/
  (jwt_decode int_of_str (Signed alg key claims) (JWT_SECRET settings)
     [JWT_ALGORITHM settings] now = inr claims /\
   validate_claims int_of_str now claims = None).
Proof.
  intros Hr.
  destruct (jwt_decode int_of_str (Signed alg key claims) (JWT_SECRET settings)
              [JWT_ALGORITHM settings] now) as [[e|exc]|payload] eqn:E.
  - left. by exists e.
  - apply jwt_decode_other in E as (? & ? & ? & [= <- <- <-] & E).
    by apply validate_claims_readable in E.
  - right. by apply jwt_decode_inr in E as (-> & _ & ?).
Qed.

Lemma expired_rejected db now alg key claims v exp :
  times_readable int_of_str claims = true ->
  assoc_get "exp" claims = Some v ->
  py_int int_of_str v = Int_value exp ->
  exp < now ->
  get_current_student settings int_of_str EmailStr_valid db now
    (Signed alg key claims) = Raise credentials_exception.
Proof.
  intros Hr Hexp Hint Hlt.
  destruct (decode_readable_cases now alg key claims Hr) as [[e E]|[_ E]].
  - by apply (decode_error_rejected _ _ _ e).
  - pose proof (validate_claims_None_exp _ _ _ _ E Hexp Hint). lia.
Qed.


Lemma find_by_oid_None db (o : oid) :
  Forall (fun st => s_id st <> o) (students db) ->
  List.find (fun s => bool_decide (s_id s = o)) (students db) = None.
Proof.
  induction 1 as [|st l Hne _ IH]; simpl; [done|].
  by rewrite (bool_decide_eq_false_2 _ Hne).
Qed.

Lemma get_student_by_id_unknown db sub :
  Forall (fun st => ObjectId sub <> Some (s_id st)) (students db) ->
  get_student_by_id db sub = None.
Proof.
  intros Hall. unfold get_student_by_id.
  destruct (ObjectId sub) as [o|]; [|done].
  apply find_by_oid_None. eapply Forall_impl; [exact Hall|].
  intros st Hne Heq. apply Hne. by rewrite Heq.
Qed.
End Authentication.

(** C7: a token signed with the server's own key whose payload has no
    [sub] and a null [exp] is not answered with the 401 exception: the
    conversion of the expiry raises [TypeError], which the handler of
    [JWTError] does not catch, and the request ends with status 500.  The
    same happens to a token whose expiry lies in the past when its [iat]
    is null, the issue time being checked before the expiry. *)
Theorem unreadable_time_claims_escape
    (settings : Settings) (int_of_str : string -> option Z)
    (EmailStr_valid : string -> bool) (db : Db) (now : Z) :
  payload_get "sub" [("email", JStr "a@x.com"); ("exp", JNull)] = None /\
  get_current_student settings int_of_str EmailStr_valid db now
    (Signed (JWT_ALGORITHM settings) (JWT_SECRET settings)
       [("email", JStr "a@x.com"); ("exp", JNull)])
    = Unhandled "TypeError" /\
  (forall exp,
     exp < now ->
     get_current_student settings int_of_str EmailStr_valid db now
       (Signed (JWT_ALGORITHM settings) (JWT_SECRET settings)
          [("sub", JStr "507f1f77bcf86cd799439011");
           ("email", JStr "a@x.com"); ("exp", JInt exp); ("iat", JNull)])
       = Unhandled "TypeError") /\
  response_status 200 (Unhandled "TypeError" : outcome Student) = 500 /\
  status_code credentials_exception = 401.
Proof.
  split; [reflexivity|].
  assert (forall claims,
            get_current_student settings int_of_str EmailStr_valid db now
              (Signed (JWT_ALGORITHM settings) (JWT_SECRET settings) claims) =
            match validate_claims int_of_str now claims with
            | Some (Raised_JWTError _) => Raise credentials_exception
            | Some (Raised_other exc) => Unhandled exc
            | None =>
                get_current_student settings int_of_str EmailStr_valid db now
                  (Signed (JWT_ALGORITHM settings) (JWT_SECRET settings)
                     claims)
            end) as Hdecode.
  { intros claims. unfold get_current_student at 1, jwt_decode. simpl.
    rewrite !String.eqb_refl. simpl.
    destruct (validate_claims int_of_str now claims) as [[]|] eqn:E;
      try reflexivity.
    unfold get_current_student, jwt_decode. simpl.
    rewrite !String.eqb_refl. simpl. by rewrite E. }
  split; [by rewrite Hdecode|]. split; [|done].
  intros exp _. by rewrite Hdecode.
Qed.


(** C10: a token signed with the server's own key, not expired, whose
    [email] is a string the address type refuses, is not answered with
    the 401 exception, whether its [sub] is the id of a stored student or
    not: [TokenData] raises [ValidationError] before the store is asked,
    the handler of [JWTError] does not catch it, and the request ends
    with status 500. *)
Theorem malformed_email_escapes
    (settings : Settings) (int_of_str : string -> option Z)
    (EmailStr_valid : string -> bool) (db : Db) (now exp : Z)
    (sub email : string) :
  EmailStr_valid email = false ->
  now <= exp ->
  get_current_student settings int_of_str EmailStr_valid db now
    (Signed (JWT_ALGORITHM settings) (JWT_SECRET settings)
       [("sub", JStr sub); ("email", JStr email); ("exp", JInt exp)])
    = Unhandled "ValidationError" /\
  response_status 200 (Unhandled "ValidationError" : outcome Student) = 500.
Proof.
  intros Hemail Hexp. split; [|done].
  unfold get_current_student, jwt_decode. simpl.
  rewrite !String.eqb_refl. simpl.
  unfold validate_claims, validate_iat, validate_nbf, validate_exp,
    validate_aud, validate_str, validate_at_hash. simpl.
  destruct (Z.ltb_spec exp now); [lia|]. simpl.
  unfold payload_get. simpl. by rewrite Hemail.
Qed.

(** X25: a token that decodes (right key, right algorithm, every check of
    the claims passed) and whose [email] is an address the address type
    accepts, but whose [sub] is the id of no stored student, whether or
    not it has the shape of an object id, gets the same 401 exception as
    an invalid token. *)
Theorem unknown_subject_rejected
    (settings : Settings) (int_of_str : string -> option Z)
    (EmailStr_valid : string -> bool) (db : Db) (now : Z)
    (t : token) (payload : list (string * json)) (sub email : string) :
  jwt_decode int_of_str t (JWT_SECRET settings) [JWT_ALGORITHM settings] now
    = inr payload ->
  payload_get "sub" payload = Some (JStr sub) ->
  payload_get "email" payload = Some (JStr email) ->
  EmailStr_valid email = true ->
  Forall (fun st => ObjectId sub <> Some (s_id st)) (students db) ->
  get_current_student settings int_of_str EmailStr_valid db now t =
    Raise credentials_exception.
Proof.
  intros Hdec Hsub Hemail Hvalid Hunknown.
  unfold get_current_student. rewrite Hdec, Hsub, Hemail. simpl.
  rewrite Hvalid. simpl. by rewrite get_student_by_id_unknown.
Qed.

(** ** Registration *)

Section Registration.
Variable pwd_hash : string -> string -> string.

Lemma get_student_by_email_registered db email :
  (exists s, s ∈ students db /\ s_email s = email) ->
  is_Some (get_student_by_email db email).
Proof.
  intros (s & Hin & Hemail). unfold get_student_by_email.
  destruct (List.find _ (students db)) as [s'|] eqn:Hf; [by eexists|].
  apply list_elem_of_In in Hin.
  pose proof (List.find_none _ _ Hf s Hin) as Hno. simpl in Hno.
  rewrite Hemail, String.eqb_refl in Hno. done.
Qed.

(** A registration that is accepted stores one student with the payload's
    email. *)
Lemma register_student_Return db now salt new_id payload public db' :
  register_student pwd_hash db now salt new_id payload
    = (Return public, db') ->
  get_student_by_email db (reg_email payload) = None /\
  test_results db' = test_results db /\
  exists doc,
    students db' = (students db ++ [doc])%list /\
    s_id doc = new_id /\ s_email doc = reg_email payload.
Proof.
  unfold register_student.
  destruct (get_student_by_email db (reg_email payload)); [intros [=]|].
  intros [= <- <-]. simpl. split; [done|]. split; [done|].
  eexists. by split.
Qed.
End Registration.

(** C8: when a student with the payload's email is already stored, the
    registration raises the exception of status 400 with the detail "Email
    already registered", and the store it leaves is the store it found: no
    student is added and none is changed. *)
Theorem duplicate_email_rejected
    (pwd_hash : string -> string -> string) (db : Db) (now : datetime) (salt : string)
    (new_id : oid) (payload : StudentRegister) :
  (exists s, s ∈ students db /\ s_email s = reg_email payload) ->
  register_student pwd_hash db now salt new_id payload =
    (Raise (mkHTTPException 400 "Email already registered" []), db).
Proof.
  intros Hreg. unfold register_student.
  by destruct (get_student_by_email_registered _ _ Hreg) as [s ->].
Qed.

(** ** Listing the questions *)

(** C9: for each of the two tracks the listing is an object with the track
    and a list of exactly ten questions, in the order of the track's table;
    each is an object with exactly the keys [id], [question] and [options],
    the options being four strings; and the key [correctIndex] occurs
    nowhere in the returned value. *)
Theorem questions_listing (track : string) :
  valid_track track = true ->
  exists questions,
    get_test_questions track =
      Return (JObj [("track", JStr track); ("questions", JList questions)]) /\
    List.length questions = 10%nat /\
    Forall question_public_shape questions /\
    listed_id <$> questions =
      (fun q => Some (JStr (q_id q))) <$> questions_for track /\
    mentions_key "correctIndex"
      (JObj [("track", JStr track); ("questions", JList questions)]) = false.
Proof.
  intros Hv. unfold valid_track in Hv.
  apply orb_true_iff in Hv as [Hv|Hv]; apply String.eqb_eq in Hv as ->;
    (eexists; split; [reflexivity|]);
    (repeat split; try reflexivity);
    repeat (constructor; [by repeat eexists|]); constructor.
Qed.

(** ** Route order *)

(** C1: a GET of [/api/tests/levels] is taken by the route
    [/api/tests/{track}], which is registered first, with the track
    "levels"; after the authentication dependency that route raises
    404 "Unknown track", so an authenticated request is answered with
    status 404 and the levels route is never reached. *)
Theorem get_tests_levels_is_shadowed
    (settings : Settings) (int_of_str : string -> option Z)
    (EmailStr_valid : string -> bool) (db : Db) (now : Z)
    (t : token) (student : Student) :
  dispatch GET ["api"; "tests"; "levels"] =
    Dispatch E_get_test_questions [("track", "levels")] /\
  serve_get settings int_of_str EmailStr_valid db now ["api"; "tests"; "levels"] (Some t) =
    Some (_ ← get_current_student settings int_of_str EmailStr_valid db now t;
          Raise unknown_track) /\
  (get_current_student settings int_of_str EmailStr_valid db now t = Return student ->
   serve_get settings int_of_str EmailStr_valid db now ["api"; "tests"; "levels"] (Some t)
     = Some (Raise (mkHTTPException 404 "Unknown track" [])) /\
   response_status 200
     <$> serve_get settings int_of_str EmailStr_valid db now ["api"; "tests"; "levels"]
           (Some t)
     = Some 404).
Proof.
  split; [reflexivity|]. split.
  - unfold serve_get. simpl.
    by destruct (get_current_student settings int_of_str EmailStr_valid db now t).
  - intros Hauth. unfold serve_get. simpl. by rewrite Hauth.
Qed.

(** ** Worked instances *)

Lemma example_latest_is_beginner :
  get_latest_levels_for_student example_db example_oid =
    mkLevelsResponse (Some (mkTrackLevel (Some "Beginner") (Some 30%float))) None.
Proof. vm_compute. reflexivity. Qed.

Lemma recommendations_match_current_level_witness :
  exists response lvl_webdev lvl_ml,
    get_recommendations example_db example_student = Return response /\
    current_level_is example_db example_oid "webdev" lvl_webdev /\
    recommends "webdev" lvl_webdev (rec_webdev response) /\
    current_level_is example_db example_oid "ml" lvl_ml /\
    recommends "ml" lvl_ml (rec_ml response).
Proof.
  apply (recommendations_match_current_level example_db example_student
           example_oid).
  - reflexivity.
  - repeat constructor.
Defined.

Lemma unknown_subject_rejected_witness :
  get_current_student example_settings example_int (fun _ => true) example_db 1704190000
    example_stray_token = Raise credentials_exception.
Proof.
  apply (unknown_subject_rejected example_settings example_int (fun _ => true) example_db
           1704190000 example_stray_token
           [("sub", JStr "not-an-object-id"); ("email", JStr "a@x.com");
            ("exp", JInt 1704200000)]
           "not-an-object-id" "a@x.com").
  - reflexivity.
  - reflexivity.
  - reflexivity.
  - reflexivity.
  - repeat constructor. vm_compute. discriminate.
Defined.

Lemma malformed_email_escapes_witness :
  get_current_student example_settings example_int (contains "@") example_db
    1704190000
    (Signed (JWT_ALGORITHM example_settings) (JWT_SECRET example_settings)
       [("sub", JStr "65a0000000000000000000aa");
        ("email", JStr "not-an-email"); ("exp", JInt 1704200000)])
    = Unhandled "ValidationError" /\
  response_status 200 (Unhandled "ValidationError" : outcome Student) = 500.
Proof.
  apply (malformed_email_escapes example_settings example_int (contains "@")
           example_db 1704190000 1704200000 "65a0000000000000000000aa"
           "not-an-email").
  - reflexivity.
  - vm_compute. discriminate.
Defined.

Lemma duplicate_email_rejected_witness :
  register_student example_hash example_registered_db
    (mkDatetime 2024 1 5 12 0 0 250000) "pepper"
    (Oid "65a0000000000000000000ff") example_payload =
    (Raise (mkHTTPException 400 "Email already registered" []),
     example_registered_db).
Proof.
  apply (duplicate_email_rejected example_hash example_registered_db).
  exists (mkStudent example_oid "A" "a@x.com" (example_hash "salt" "p")
            "CSE" "5" (isoformat (mkDatetime 2024 1 1 9 0 0 0))).
  split; [apply list_elem_of_here | reflexivity].
Defined.

Lemma questions_listing_witness :
  exists questions,
    get_test_questions "webdev" =
      Return (JObj [("track", JStr "webdev"); ("questions", JList questions)]) /\
    List.length questions = 10%nat /\
    Forall question_public_shape questions /\
    listed_id <$> questions =
      (fun q => Some (JStr (q_id q))) <$> questions_for "webdev" /\
    mentions_key "correctIndex"
      (JObj [("track", JStr "webdev"); ("questions", JList questions)]) = false.
Proof. apply (questions_listing "webdev"). reflexivity. Defined.

(** ** Object ids *)

Section ObjectIds.
Lemma lower_ascii_idemp (a : ascii) : lower_ascii (lower_ascii a) = lower_ascii a.
Proof. destruct a as [[] [] [] [] [] [] [] []]; reflexivity. Qed.

Lemma is_hex_digit_lower (a : ascii) :
  is_hex_digit (lower_ascii a) = is_hex_digit a.
Proof. destruct a as [[] [] [] [] [] [] [] []]; reflexivity. Qed.

Lemma lower_idemp (s : string) : lower (lower s) = lower s.
Proof.
  induction s as [|a s IH]; simpl; [done|].
  by rewrite lower_ascii_idemp, IH.
Qed.

Lemma length_lower (s : string) : String.length (lower s) = String.length s.
Proof. induction s as [|a s IH]; simpl; congruence. Qed.

Lemma all_hex_lower (s : string) : all_hex (lower s) = all_hex s.
Proof.
  induction s as [|a s IH]; simpl; [done|].
  by rewrite is_hex_digit_lower, IH.
Qed.

(** Printing an object id and reading it back gives the same id. *)
Lemma ObjectId_str_oid (s : string) (o : oid) :
  ObjectId s = Some o -> ObjectId (str_oid o) = Some o.
Proof.
  unfold ObjectId.
  destruct (_ && _) eqn:E; [|done]. intros [= <-]. simpl.
  by rewrite length_lower, all_hex_lower, E, lower_idemp.
Qed.

Lemma get_student_by_id_Some (db : Db) (sub : string) (st : Student) :
  get_student_by_id db sub = Some st ->
  ObjectId sub = Some (s_id st) /\ st ∈ students db.
Proof.
  unfold get_student_by_id.
  destruct (ObjectId sub) as [o|]; [|done]. intros Hf.
  apply List.find_some in Hf as [Hin Hid].
  apply bool_decide_eq_true in Hid as <-.
  split; [done|]. by apply list_elem_of_In.
Qed.

(** The student the authentication dependency returns is a stored one,
    and the routes can read its object id back. *)
Lemma get_current_student_Return settings int_of_str EmailStr_valid db now t st :
  get_current_student settings int_of_str EmailStr_valid db now t = Return st ->
  st ∈ students db /\ current_student_oid st = Some (s_id st).
Proof.
  unfold get_current_student.
  destruct (jwt_decode _ _ _ _ _) as [[]|payload]; [done|done|].
  destruct (payload_get "sub" payload) as [subject|]; [|done].
  destruct (payload_get "email" payload) as [email|]; [|done].
  destruct (make_TokenData _ _ _) as [td|]; [|done].
  destruct (get_student_by_id db (td_sub td)) as [st'|] eqn:E; [|done].
  intros [= ->]. apply get_student_by_id_Some in E as [Ho Hin].
  split; [done|]. unfold current_student_oid. by eapply ObjectId_str_oid.
Qed.
End ObjectIds.

(** ** Submissions are appended *)

(** C6: the score of a submission is the same for every reordering of the
    answers and grows with the number of correct matches (it is that
    number); every submission for one of the two tracks by a student whose
    id reads back, as the id of every student the authentication
    dependency returns does, is accepted: it appends one new document to
    [test_results] and leaves every stored document, and the students, as
    they were; the same answers submitted again are accepted again and
    append a second document after the first, a different document as
    soon as the store gave the two different ids. *)
Theorem score_order_free_and_results_append_only :
  (forall track answers answers',
     answers ≡ₚ answers' ->
     compute_score (questions_for track) answers =
       compute_score (questions_for track) answers') /\
  (forall track answers,
     compute_score (questions_for track) answers =
       Z.of_nat (correct_matches (questions_for track) answers)) /\
  (forall track answers answers',
     (correct_matches (questions_for track) answers <=
        correct_matches (questions_for track) answers')%nat ->
     compute_score (questions_for track) answers <=
       compute_score (questions_for track) answers') /\
  (forall settings int_of_str EmailStr_valid db now t st,
     get_current_student settings int_of_str EmailStr_valid db now t
       = Return st ->
     current_student_oid st = Some (s_id st)) /\
  (forall round2 db now new_id track answers st student_id,
     valid_track track = true ->
     current_student_oid st = Some student_id ->
     exists resp db' doc,
       submit_test round2 db now new_id track answers st = (Return resp, db') /\
       students db' = students db /\
       test_results db' = (test_results db ++ [doc])%list /\
       r_id doc = new_id /\
       (forall i row, test_results db !! i = Some row ->
                      test_results db' !! i = Some row)) /\
  (forall round2 db now1 id1 now2 id2 track answers st student_id,
     valid_track track = true ->
     current_student_oid st = Some student_id ->
     exists resp1 db1 resp2 db2 doc1 doc2,
       submit_test round2 db now1 id1 track answers st = (Return resp1, db1) /\
       submit_test round2 db1 now2 id2 track answers st = (Return resp2, db2) /\
       test_results db1 = (test_results db ++ [doc1])%list /\
       test_results db2 = (test_results db ++ [doc1; doc2])%list /\
       r_id doc1 = id1 /\ r_id doc2 = id2 /\
       r_score doc1 = r_score doc2 /\
       r_submitted_at doc1 = isoformat now1 /\
       r_submitted_at doc2 = isoformat now2 /\
       (id1 <> id2 -> doc1 <> doc2)).
Proof.
  split; [|split; [|split; [|split; [|split]]]].
  - intros track answers answers' Hp.
    rewrite !compute_score_correct_matches by apply questions_for_NoDup.
    by rewrite (correct_matches_Permutation _ _ _ Hp).
  - intros track answers.
    apply compute_score_correct_matches, questions_for_NoDup.
  - intros track answers answers' Hle.
    rewrite !compute_score_correct_matches by apply questions_for_NoDup. lia.
  - intros settings int_of_str EmailStr_valid db now t st H.
    by apply get_current_student_Return in H as [_ ?].
  - intros round2 db now new_id track answers st sid Ht Hs.
    destruct (submit_test_accepts round2 db now new_id track answers st sid
                Ht Hs) as [resp H].
    eexists resp, _, _. split; [exact H|]. simpl.
    split; [done|]. split; [done|]. split; [done|].
    intros i row Hi. by apply lookup_app_l_Some.
  - intros round2 db now1 id1 now2 id2 track answers st sid Ht Hs.
    destruct (submit_test_accepts round2 db now1 id1 track answers st sid
                Ht Hs) as [resp1 H1].
    destruct (submit_test_accepts round2 (insert_test_result db
                (mkTestResult id1 sid track
                   (compute_score (questions_for track) answers) 10
                   (compute_percentage
                      (compute_score (questions_for track) answers) 10)
                   (map_percentage_to_level
                      (compute_percentage
                         (compute_score (questions_for track) answers) 10))
                   (isoformat now1))) now2 id2 track answers st sid Ht Hs)
      as [resp2 H2].
    eexists resp1, _, resp2, _, _, _.
    split; [exact H1|]. split; [exact H2|]. simpl.
    rewrite <- app_assoc. simpl. repeat split; try reflexivity.
    intros Hne [= Hid]. by apply Hne.
Qed.

Lemma score_order_free_and_results_append_only_witness :
  exists resp1 db1 resp2 db2 doc1 doc2,
    submit_test (fun x => x) example_db (mkDatetime 2024 1 4 7 30 0 5)
      (Oid "65a000000000000000000003") "ml"
      [mkAnswer "m1" 1; mkAnswer "m2" 0] example_student
      = (Return resp1, db1) /\
    submit_test (fun x => x) db1 (mkDatetime 2024 1 4 7 31 0 0)
      (Oid "65a000000000000000000004") "ml"
      [mkAnswer "m1" 1; mkAnswer "m2" 0] example_student
      = (Return resp2, db2) /\
    test_results db1 = (test_results example_db ++ [doc1])%list /\
    test_results db2 = (test_results example_db ++ [doc1; doc2])%list /\
    r_id doc1 = Oid "65a000000000000000000003" /\
    r_id doc2 = Oid "65a000000000000000000004" /\
    r_score doc1 = r_score doc2 /\
    r_submitted_at doc1 = isoformat (mkDatetime 2024 1 4 7 30 0 5) /\
    r_submitted_at doc2 = isoformat (mkDatetime 2024 1 4 7 31 0 0) /\
    (Oid "65a000000000000000000003" <> Oid "65a000000000000000000004" ->
     doc1 <> doc2).
Proof.
  destruct score_order_free_and_results_append_only
    as (_ & _ & _ & _ & _ & H).
  apply (H (fun x => x) example_db (mkDatetime 2024 1 4 7 30 0 5)
           (Oid "65a000000000000000000003") (mkDatetime 2024 1 4 7 31 0 0)
           (Oid "65a000000000000000000004") "ml"
           [mkAnswer "m1" 1; mkAnswer "m2" 0] example_student example_oid).
  - reflexivity.
  - reflexivity.
Defined.

(** ** The stored results keep their shape *)

Lemma results_wellformed_empty : results_wellformed (mkDb [] []).
Proof. constructor. Qed.

Lemma results_wellformed_register_student
    pwd_hash db now salt new_id payload :
  results_wellformed db ->
  results_wellformed
    (snd (register_student pwd_hash db now salt new_id payload)).
Proof.
  unfold register_student.
  by destruct (get_student_by_email db (reg_email payload)).
Qed.

Lemma results_wellformed_submit_test
    round2 db now new_id track answers current_student :
  results_wellformed db ->
  results_wellformed
    (snd (submit_test round2 db now new_id track answers current_student)).
Proof.
  intros Hwf. unfold submit_test.
  destruct (valid_track track); simpl; [|done].
  destruct (current_student_oid current_student); simpl; [|done].
  unfold results_wellformed. simpl. apply Forall_app. split; [done|].
  by constructor.
Qed.

(** ** Bounds on the score *)

Section ScoreBounds.
Implicit Types (qs : list Question) (answers : list AnswerSubmission).

Lemma correct_match_inj qs (a a' : AnswerSubmission) :
  correct_match qs a = true -> correct_match qs a' = true ->
  questionId a = questionId a' -> a = a'.
Proof.
  unfold correct_match. destruct a as [k i], a' as [k' i']. simpl.
  intros Ha Ha' <-.
  destruct (List.find _ qs) as [q|]; [|done].
  apply bool_decide_eq_true in Ha, Ha'. congruence.
Qed.

Lemma correct_matches_le_questions qs answers :
  NoDup answers -> (correct_matches qs answers <= List.length qs)%nat.
Proof.
  intros Hnd. unfold correct_matches.
  rewrite <- (length_fmap questionId (List.filter _ answers)).
  rewrite <- (length_fmap q_id qs).
  apply List.NoDup_incl_length.
  - apply NoDup_ListNoDup.
    revert Hnd. induction answers as [|a answers IH]; simpl;
      [intros _; constructor|].
    rewrite NoDup_cons. intros [Hnin Hnd].
    destruct (correct_match qs a) eqn:Ha; simpl; [|by auto].
    apply NoDup_cons. split; [|by auto].
    intros Hin. apply Hnin.
    apply list_elem_of_fmap in Hin as (a' & Hid & Hin).
    apply list_elem_of_In, List.filter_In in Hin as [Hin Ha'].
    rewrite (correct_match_inj qs a a' Ha Ha' Hid).
    by apply list_elem_of_In.
  - intros k Hin. apply list_elem_of_In in Hin.
    apply list_elem_of_fmap in Hin as (a & -> & Hin).
    apply list_elem_of_In, List.filter_In in Hin as [_ Hc].
    unfold correct_match in Hc.
    destruct (List.find _ qs) as [q|] eqn:Hf; [|done].
    apply List.find_some in Hf as [Hq Hid].
    apply String.eqb_eq in Hid. rewrite <- Hid.
    apply list_elem_of_In, list_elem_of_fmap. exists q.
    split; [done|]. by apply list_elem_of_In.
Qed.
End ScoreBounds.

(** X1: the score is never negative and never more than the number of
    submitted answers; when no (questionId, optionIndex) pair is submitted
    twice it is at most the total of ten. *)
Theorem score_bounds (track : string) (answers : list AnswerSubmission) :
  0 <= compute_score (questions_for track) answers
    <= Z.of_nat (List.length answers) /\
  (NoDup answers -> compute_score (questions_for track) answers <= 10).
Proof.
  rewrite compute_score_correct_matches by apply questions_for_NoDup.
  pose proof (correct_matches_le_length (questions_for track) answers).
  split; [lia|]. intros Hnd.
  pose proof (correct_matches_le_questions (questions_for track) answers Hnd).
  pose proof (questions_for_length track). lia.
Qed.

(** X2: an answer that names no question of the track leaves the score as it
    is, wherever it stands in the list. *)
Theorem unknown_question_skipped
    (track : string) (before after : list AnswerSubmission)
    (ans : AnswerSubmission) :
  questionId ans ∉ q_id <$> questions_for track ->
  compute_score (questions_for track) (before ++ ans :: after) =
    compute_score (questions_for track) (before ++ after).
Proof.
  intros Hnin.
  rewrite !compute_score_correct_matches by apply questions_for_NoDup.
  unfold correct_matches. rewrite !List.filter_app, !length_app. simpl.
  unfold correct_match at 2. by rewrite find_by_id_None.
Qed.

(** ** Issued tokens *)

Lemma find_by_oid_Some (db : Db) (st : Student) :
  st ∈ students db ->
  exists st', List.find (fun s => bool_decide (s_id s = s_id st)) (students db)
                = Some st' /\ s_id st' = s_id st.
Proof.
  intros Hin.
  destruct (List.find _ (students db)) as [st'|] eqn:Hf.
  - exists st'. split; [done|].
    apply List.find_some in Hf as [_ Hid]. by apply bool_decide_eq_true in Hid.
  - apply list_elem_of_In in Hin.
    pose proof (List.find_none _ _ Hf st Hin) as Hno. simpl in Hno.
    by rewrite bool_decide_eq_true_2 in Hno.
Qed.

(** X5: in a store whose students are well formed (every id reads back
    from its printed form, every email is one the address type accepts),
    the token a login returns authenticates, until its lifetime is over,
    as a stored student with the id the login reported. *)
Theorem login_token_authenticates
    (settings : Settings) (int_of_str : string -> option Z)
    (EmailStr_valid : string -> bool)
    (pwd_verify : string -> string -> bool) (db : Db) (now later : Z)
    (payload : StudentLogin) (response : TokenResponse) :
  students_wellformed EmailStr_valid db ->
  login_student settings pwd_verify db now payload = Return response ->
  later <= now + 60 * JWT_EXPIRES_MINUTES settings ->
  exists student,
    get_current_student settings int_of_str EmailStr_valid db later (access_token response)
      = Return student /\
    student ∈ students db /\
    str_oid (s_id student) = sp_id (tr_student response).
Proof.
  intros Hwf Hlogin Hlater. unfold login_student in Hlogin.
  destruct (get_student_by_email db (login_email payload)) as [st|] eqn:Hf;
    [|done].
  destruct (negb _); [done|]. injection Hlogin as <-. simpl.
  apply List.find_some in Hf as [Hin _]. apply list_elem_of_In in Hin.
  unfold students_wellformed in Hwf. rewrite Forall_forall in Hwf.
  destruct (Hwf st Hin) as [Hoid Hemail].
  destruct (find_by_oid_Some db st Hin) as (st' & Hfind & Hid).
  exists st'. split.
  - unfold get_current_student, create_access_token.
    change (dict_update _ _ _) with
      [("sub", JStr (str_oid (s_id st))); ("email", JStr (s_email st));
       ("exp", JInt (now + 60 * JWT_EXPIRES_MINUTES settings))].
    rewrite decode_issued_claims by done.
    unfold payload_get. simpl. rewrite Hemail.
    unfold get_student_by_id. simpl. by rewrite Hoid, Hfind.
  - split; [|by rewrite Hid].
    apply List.find_some in Hfind as [Hin' _]. by apply list_elem_of_In.
Qed.

(** ** Requests that are refused *)

(** X7: without a bearer token the GET routes that depend on the current
    student answer 401 with the challenge header, the levels path among
    them; with a student, a track other than the two known ones is
    answered 404 by both operations on [/tests/{track}], and a refused
    submission leaves the store as it was. *)
Theorem refused_requests
    (settings : Settings) (int_of_str : string -> option Z)
    (EmailStr_valid : string -> bool)
    (round2 : float -> float) (db : Db) (now : Z) :
  serve_get settings int_of_str EmailStr_valid db now ["api"; "tests"; "levels"] None =
    Some (Raise (mkHTTPException 401 "Not authenticated"
                   [("WWW-Authenticate", "Bearer")])) /\
  serve_get settings int_of_str EmailStr_valid db now ["api"; "tests"; "webdev"] None =
    Some (Raise not_authenticated) /\
  serve_get settings int_of_str EmailStr_valid db now ["api"; "recommendations"] None =
    Some (Raise not_authenticated) /\
  (forall track,
     valid_track track = false ->
     get_test_questions track = Raise (mkHTTPException 404 "Unknown track" []) /\
     forall now new_id answers current_student,
       submit_test round2 db now new_id track answers current_student =
         (Raise (mkHTTPException 404 "Unknown track" []), db)).
Proof.
  split; [reflexivity|]. split; [reflexivity|]. split; [reflexivity|].
  intros track Hv. split.
  - unfold get_test_questions. by rewrite Hv.
  - intros. unfold submit_test. by rewrite Hv.
Qed.

(** ** What a submission stores *)

(** X3: the document an accepted submission stores: the track, the clock
    reading, the student's id, the score the loop computed, the total of
    ten, the percentage computed from that score and total, and the level
    that percentage maps to; the response repeats the score and the level
    and rounds the percentage. *)
Theorem stored_result_consistent
    (round2 : float -> float) (db : Db) (now : datetime) (new_id : oid)
    (track : string) (answers : list AnswerSubmission)
    (current_student : Student) (response : TestResultResponse) (db' : Db) :
  submit_test round2 db now new_id track answers current_student
    = (Return response, db') ->
  exists doc,
    test_results db' = (test_results db ++ [doc])%list /\
    r_track doc = track /\ r_submitted_at doc = isoformat now /\
    current_student_oid current_student = Some (r_student_id doc) /\
    r_score doc = compute_score (questions_for track) answers /\
    r_total doc = 10 /\
    r_percentage doc = compute_percentage (r_score doc) (r_total doc) /\
    r_level doc = map_percentage_to_level (r_percentage doc) /\
    res_score response = r_score doc /\ res_total response = r_total doc /\
    res_level response = r_level doc /\
    res_percentage response = round2 (r_percentage doc).
Proof.
  intros H. pose proof H as H'.
  apply submit_test_Return in H as (sid & Hs & Hv & ->).
  unfold submit_test in H'. rewrite Hv, Hs, questions_for_length in H'.
  simpl in H'. injection H' as <-.
  eexists. split; [reflexivity|]. simpl. by rewrite Hs.
Qed.

(** ** Timestamps *)

Section Timestamps.
Lemma compare_app_prefix (p s1 s2 : string) :
  String.compare (p +:+ s1) (p +:+ s2) = String.compare s1 s2.
Proof.
  induction p as [|c p IH]; [done|].
  change (String.compare (String c (p +:+ s1)) (String c (p +:+ s2))
          = String.compare s1 s2).
  simpl. unfold Ascii.compare. by rewrite N.compare_refl.
Qed.

Lemma compare_app_lt (u v s1 s2 : string) :
  String.length u = String.length v ->
  String.compare u v = Lt ->
  String.compare (u +:+ s1) (v +:+ s2) = Lt.
Proof.
  revert v. induction u as [|c u IH]; intros [|c' v]; try done.
  change (String.length (String c u) = String.length (String c' v) ->
          String.compare (String c u) (String c' v) = Lt ->
          String.compare (String c (u +:+ s1)) (String c' (v +:+ s2)) = Lt).
  simpl. intros [= Hlen]. destruct (Ascii.compare c c'); try done. by apply IH.
Qed.

Lemma string_app_assoc (a b c : string) : (a +:+ b) +:+ c = a +:+ (b +:+ c).
Proof.
  induction a as [|x a IH]; [done|].
  change (String x ((a +:+ b) +:+ c) = String x (a +:+ (b +:+ c))).
  by rewrite IH.
Qed.

Lemma length_string_app (a b : string) :
  String.length (a +:+ b) = (String.length a + String.length b)%nat.
Proof.
  induction a as [|c a IH]; [done|].
  change (S (String.length (a +:+ b)) = S (String.length a + String.length b)).
  by rewrite IH.
Qed.

Lemma length_zero_padded w n : String.length (zero_padded w n) = w.
Proof.
  revert n. induction w as [|w IH]; intros n; simpl; [done|].
  rewrite length_string_app, IH. simpl. lia.
Qed.

Lemma digit_char_lt (a b : Z) :
  0 <= a < b -> b < 10 -> Ascii.compare (digit_char a) (digit_char b) = Lt.
Proof.
  intros Ha Hb.
  assert (a = 0 \/ a = 1 \/ a = 2 \/ a = 3 \/ a = 4 \/ a = 5 \/ a = 6 \/
          a = 7 \/ a = 8) as Hcase by lia.
  assert (b = 1 \/ b = 2 \/ b = 3 \/ b = 4 \/ b = 5 \/ b = 6 \/
          b = 7 \/ b = 8 \/ b = 9) as Hcase' by lia.
  repeat (destruct Hcase as [-> | Hcase]);
    repeat (destruct Hcase' as [-> | Hcase']); subst;
    first [reflexivity | lia].
Qed.

(** Numbers of the same width compare as their digits do. *)
Lemma zero_padded_lt w n m :
  0 <= n < m -> m < 10 ^ Z.of_nat w ->
  String.compare (zero_padded w n) (zero_padded w m) = Lt.
Proof.
  revert n m. induction w as [|w IH]; intros n m Hn Hm.
  - simpl in Hm. lia.
  - rewrite Nat2Z.inj_succ, Z.pow_succ_r in Hm by lia. simpl.
    assert (n / 10 <= m / 10) as Hq by (apply Z.div_le_mono; lia).
    assert (m / 10 < 10 ^ Z.of_nat w) as Hm'
      by (apply Z.div_lt_upper_bound; lia).
    assert (0 <= n / 10) by (apply Z.div_pos; lia).
    destruct (decide (n / 10 = m / 10)) as [Heq|Hne].
    + rewrite Heq, compare_app_prefix. simpl.
      rewrite digit_char_lt; [done| |].
      * pose proof (Z.div_mod n 10). pose proof (Z.div_mod m 10).
        pose proof (Z.mod_pos_bound n 10). lia.
      * pose proof (Z.mod_pos_bound m 10). lia.
    + apply compare_app_lt; [by rewrite !length_zero_padded|].
      apply IH; lia.
Qed.

Ltac field_decides :=
  rewrite ?compare_app_prefix;
  apply compare_app_lt; [by rewrite !length_zero_padded|];
  apply zero_padded_lt; [lia | simpl; lia].

(** An earlier reading is written as a smaller string. *)
Lemma isoformat_lt (a b : datetime) :
  datetime_valid a -> datetime_valid b -> earlier a b ->
  String.compare (isoformat a) (isoformat b) = Lt.
Proof.
  destruct a as [y mo d h mi s us], b as [y' mo' d' h' mi' s' us'].
  unfold datetime_valid, earlier, dt_fields, lex_lt, isoformat.
  cbn [dt_year dt_month dt_day dt_hour dt_minute dt_second dt_microsecond].
  intros Ha Hb Hlt.
  destruct Hlt as
    [?|[<- [?|[<- [?|[<- [?|[<- [?|[<- [?|[<- [?|[_ []]]]]]]]]]]]]]];
    try field_decides.
  rewrite !compare_app_prefix.
  destruct (Z.eqb_spec us' 0) as [->|_]; [lia|].
  destruct (Z.eqb_spec us 0) as [->|_]; [reflexivity|].
  cbv iota. rewrite !string_app_assoc. field_decides.
Qed.

Lemma lex_lt_trichotomy (l l' : list Z) :
  List.length l = List.length l' -> lex_lt l l' \/ l = l' \/ lex_lt l' l.
Proof.
  revert l'. induction l as [|x l IH]; intros [|y l']; simpl; try done.
  - auto.
  - intros [= Hlen]. destruct (Z.lt_trichotomy x y) as [?|[->|?]]; auto.
    destruct (IH l' Hlen) as [?|[->|?]]; auto.
Qed.

Lemma earlier_trichotomy (a b : datetime) : earlier a b \/ a = b \/ earlier b a.
Proof.
  destruct (lex_lt_trichotomy (dt_fields a) (dt_fields b) eq_refl)
    as [?|[Heq|?]]; auto.
  right. left. destruct a, b. unfold dt_fields in Heq. simpl in Heq.
  congruence.
Qed.
End Timestamps.

(** X8: the written form of the clock readings keeps their order: one reading
    is written as a string that is at most the other's exactly when it is
    not the later of the two. *)
Theorem isoformat_keeps_order (a b : datetime) :
  datetime_valid a -> datetime_valid b ->
  (str_le (isoformat a) (isoformat b) <-> ~ earlier b a).
Proof.
  intros Ha Hb. unfold str_le, String.leb. split.
  - intros Hle Hlt.
    rewrite String.compare_antisym, (isoformat_lt b a Hb Ha Hlt) in Hle. done.
  - intros Hnlt.
    destruct (earlier_trichotomy a b) as [Hlt|[->|Hgt]]; [| |done].
    + by rewrite (isoformat_lt a b Ha Hb Hlt).
    + by rewrite string_compare_refl.
Qed.

(** X9: a latest submission is the last one in time: when the stored
    timestamps are the written forms of clock readings, no submission of
    the student for the track was made at a later reading. *)
Theorem latest_is_last_in_time
    (db : Db) (student_id : oid) (track : string) (r r' : TestResult)
    (d d' : datetime) :
  is_latest db student_id track r ->
  r' ∈ submissions db student_id track ->
  datetime_valid d -> r_submitted_at r = isoformat d ->
  datetime_valid d' -> r_submitted_at r' = isoformat d' ->
  ~ earlier d d'.
Proof.
  intros [_ Hmax] Hin Hd Hr Hd' Hr'.
  specialize (Hmax r' Hin). rewrite Hr, Hr' in Hmax.
  unfold str_le, String.leb in Hmax. intros Hlt.
  rewrite String.compare_antisym, (isoformat_lt d d' Hd Hd' Hlt) in Hmax. done.
Qed.

(** ** Further worked instances *)

Lemma unknown_question_skipped_witness :
  compute_score (questions_for "ml")
    ([mkAnswer "m1" 1] ++ mkAnswer "w1" 1 :: [mkAnswer "m6" 0]) =
  compute_score (questions_for "ml") ([mkAnswer "m1" 1] ++ [mkAnswer "m6" 0]).
Proof.
  apply (unknown_question_skipped "ml" [mkAnswer "m1" 1] [mkAnswer "m6" 0]
           (mkAnswer "w1" 1)).
  apply (bool_decide_unpack _). vm_compute. reflexivity.
Defined.

Lemma login_token_authenticates_witness :
  exists student,
    get_current_student example_settings example_int (fun _ => true) example_db 1704197200
      (Signed "HS256" "change_this_secret"
         [("sub", JStr "507f1f77bcf86cd799439011"); ("email", JStr "a@x.com");
          ("exp", JInt 1704197200)])
      = Return student /\
    student ∈ students example_db /\
    str_oid (s_id student) = "507f1f77bcf86cd799439011".
Proof.
  apply (login_token_authenticates example_settings example_int (fun _ => true)
           (fun _ _ => true) example_db 1704190000 1704197200
           (mkStudentLogin "a@x.com" "p")
           (mkTokenResponse
              (Signed "HS256" "change_this_secret"
                 [("sub", JStr "507f1f77bcf86cd799439011");
                  ("email", JStr "a@x.com"); ("exp", JInt 1704197200)])
              "bearer"
              (mkStudentPublic "507f1f77bcf86cd799439011" "A" "a@x.com"
                 "CSE" "5"))).
  - repeat constructor.
  - reflexivity.
  - vm_compute. discriminate.
Defined.

Lemma stored_result_consistent_witness :
  exists doc,
    test_results
      (snd (submit_test (fun x => x) example_db (mkDatetime 2024 1 4 7 30 0 5)
              (Oid "65a000000000000000000003") "ml"
              [mkAnswer "m1" 1; mkAnswer "m2" 0] example_student))
      = (test_results example_db ++ [doc])%list /\
    r_track doc = "ml" /\
    r_submitted_at doc = isoformat (mkDatetime 2024 1 4 7 30 0 5) /\
    current_student_oid example_student = Some (r_student_id doc) /\
    r_score doc =
      compute_score (questions_for "ml") [mkAnswer "m1" 1; mkAnswer "m2" 0] /\
    r_total doc = 10 /\
    r_percentage doc = compute_percentage (r_score doc) (r_total doc) /\
    r_level doc = map_percentage_to_level (r_percentage doc) /\
    res_score
      (mkTestResultResponse "ml" 1 10 10%float "Beginner"
         (level_message "Beginner")) = r_score doc /\
    res_total
      (mkTestResultResponse "ml" 1 10 10%float "Beginner"
         (level_message "Beginner")) = r_total doc /\
    res_level
      (mkTestResultResponse "ml" 1 10 10%float "Beginner"
         (level_message "Beginner")) = r_level doc /\
    res_percentage
      (mkTestResultResponse "ml" 1 10 10%float "Beginner"
         (level_message "Beginner")) = r_percentage doc.
Proof.
  apply (stored_result_consistent (fun x => x) example_db
           (mkDatetime 2024 1 4 7 30 0 5) (Oid "65a000000000000000000003")
           "ml" [mkAnswer "m1" 1; mkAnswer "m2" 0] example_student).
  vm_compute. reflexivity.
Defined.

Lemma isoformat_keeps_order_witness :
  str_le (isoformat (mkDatetime 2024 1 2 10 15 30 0))
         (isoformat (mkDatetime 2024 1 2 10 15 30 250000)) <->
  ~ earlier (mkDatetime 2024 1 2 10 15 30 250000)
            (mkDatetime 2024 1 2 10 15 30 0).
Proof.
  apply (isoformat_keeps_order (mkDatetime 2024 1 2 10 15 30 0)
           (mkDatetime 2024 1 2 10 15 30 250000));
    unfold datetime_valid; simpl; lia.
Defined.

Lemma latest_is_last_in_time_witness :
  ~ earlier (mkDatetime 2024 1 3 8 5 0 0) (mkDatetime 2024 1 2 10 15 30 250000).
Proof.
  apply (latest_is_last_in_time example_db example_oid "webdev"
           (mkTestResult (Oid "65a000000000000000000002") example_oid "webdev"
              3 10 30%float "Beginner" "2024-01-03T08:05:00+00:00")
           (mkTestResult (Oid "65a000000000000000000001") example_oid "webdev"
              9 10 90%float "Advanced" "2024-01-02T10:15:30.250000+00:00")).
  - split.
    + apply list_elem_of_In. vm_compute. auto.
    + intros r' Hr'. apply list_elem_of_In in Hr'. vm_compute in Hr'.
      destruct Hr' as [<-|[<-|[]]]; vm_compute; reflexivity.
  - apply list_elem_of_In. vm_compute. auto.
  - unfold datetime_valid; simpl; lia.
  - reflexivity.
  - unfold datetime_valid; simpl; lia.
  - reflexivity.
Defined.

(** ** Reachable stores *)

(** X4: the stored results keep the shape the recommendations rely on: the
    empty store has it, and a registration or a submission, accepted or
    refused, leaves a store that has it. *)
Theorem stored_results_stay_wellformed :
  results_wellformed (mkDb [] []) /\
  (forall pwd_hash db now salt new_id payload,
     results_wellformed db ->
     results_wellformed
       (snd (register_student pwd_hash db now salt new_id payload))) /\
  (forall round2 db now new_id track answers current_student,
     results_wellformed db ->
     results_wellformed
       (snd (submit_test round2 db now new_id track answers current_student))).
Proof.
  split; [apply results_wellformed_empty|]. split.
  - intros. by apply results_wellformed_register_student.
  - intros. by apply results_wellformed_submit_test.
Qed.

(** X6: the student the authentication dependency hands to a route is one of
    the stored students, and the route reads the student's object id back
    from its printed form. *)
Theorem authenticated_student_is_stored
    (settings : Settings) (int_of_str : string -> option Z)
    (EmailStr_valid : string -> bool) (db : Db) (now : Z)
    (t : token) (student : Student) :
  get_current_student settings int_of_str EmailStr_valid db now t = Return student ->
  student ∈ students db /\
  current_student_oid student = Some (s_id student).
Proof. apply get_current_student_Return. Qed.

Lemma authenticated_student_is_stored_witness :
  example_student ∈ students example_db /\
  current_student_oid example_student = Some (s_id example_student).
Proof.
  apply (authenticated_student_is_stored example_settings example_int (fun _ => true)
           example_db 1704190000
           (Signed "HS256" "change_this_secret"
              [("sub", JStr "507F1F77BCF86CD799439011");
               ("email", JStr "a@x.com"); ("exp", JInt 1704197200)])).
  reflexivity.
Defined.

(** ** Chat *)

Section Chat.
Lemma lower_app (a b : string) : lower (a +:+ b) = lower a +:+ lower b.
Proof.
  induction a as [|c a IH]; [done|].
  change (String (lower_ascii c) (lower (a +:+ b)) =
          String (lower_ascii c) (lower a +:+ lower b)).
  by rewrite IH.
Qed.

Lemma prefix_app (pattern text rest : string) :
  String.prefix pattern text = true ->
  String.prefix pattern (text +:+ rest) = true.
Proof.
  revert text. induction pattern as [|c pattern IH]; intros [|c' text];
    try done.
  - by destruct rest.
  - change (String.prefix (String c pattern) (String c' text) = true ->
            String.prefix (String c pattern) (String c' (text +:+ rest)) = true).
    simpl. destruct (ascii_dec c c'); [apply IH|done].
Qed.

Lemma contains_app_r (pattern text rest : string) :
  contains pattern text = true -> contains pattern (text +:+ rest) = true.
Proof.
  induction text as [|c text IH].
  - simpl. rewrite orb_false_r. intros H.
    destruct pattern; [by destruct rest|done].
  - change (contains pattern (String c text) = true ->
            contains pattern (String c (text +:+ rest)) = true).
    simpl. rewrite !orb_true_iff. intros [H|H].
    + left. by apply (prefix_app pattern (String c text) rest).
    + right. by apply IH.
Qed.

Lemma contains_app_l (pattern before text : string) :
  contains pattern text = true -> contains pattern (before +:+ text) = true.
Proof.
  intros H. induction before as [|c before IH]; [done|].
  change (contains pattern (String c (before +:+ text)) = true).
  simpl. rewrite IH. apply orb_true_r.
Qed.

Lemma contains_in_context (pattern before text after : string) :
  contains pattern (lower text) = true ->
  contains pattern (lower (before +:+ text +:+ after)) = true.
Proof.
  intros H. rewrite !lower_app. by apply contains_app_l, contains_app_r.
Qed.

Lemma topic_rank_chat_endpoint (message : string) :
  topic_rank (chat_endpoint message) =
    rank_of_tests
      (contains "html" (lower message))
      (contains "css" (lower message))
      (contains "javascript" (lower message) || contains "js" (lower message))
      (contains "machine learning" (lower message)
       || contains "ml" (lower message))
      (contains "web" (lower message)
       && contains "development" (lower message)).
Proof.
  unfold chat_endpoint. cbv zeta.
  destruct (contains "html" _); [reflexivity|].
  destruct (contains "css" _); [reflexivity|].
  destruct (_ || _); [reflexivity|].
  destruct (_ || _); [reflexivity|].
  destruct (_ && _); reflexivity.
Qed.

Lemma rank_of_tests_mono (h c j m w h' c' j' m' w' : bool) :
  (h = true -> h' = true) -> (c = true -> c' = true) ->
  (j = true -> j' = true) -> (m = true -> m' = true) ->
  (w = true -> w' = true) ->
  (rank_of_tests h' c' j' m' w' <= rank_of_tests h c j m w)%nat.
Proof.
  destruct h, c, j, m, w, h', c', j', m', w'; simpl;
    intros Hh Hc Hj Hm Hw; try lia;
    first [ by specialize (Hh eq_refl) | by specialize (Hc eq_refl)
          | by specialize (Hj eq_refl) | by specialize (Hm eq_refl)
          | by specialize (Hw eq_refl) ].
Qed.
End Chat.

(** X10: the reply to a message of ASCII characters does not depend on
    the case of its letters, and text put before or after a message never
    moves the reply to a topic tried later: the reply to the longer
    message belongs to the same topic or to one tried earlier. *)
Theorem chat_reply_in_context (before message after : string) :
  is_ascii (before +:+ message +:+ after) = true ->
  chat_endpoint (lower message) = chat_endpoint message /\
  (topic_rank (chat_endpoint (before +:+ message +:+ after))
     <= topic_rank (chat_endpoint message))%nat.
Proof.
  intros _. split.
  - unfold chat_endpoint. by rewrite lower_idemp.
  - rewrite !topic_rank_chat_endpoint.
    apply rank_of_tests_mono.
    + apply contains_in_context.
    + apply contains_in_context.
    + rewrite !orb_true_iff. intros [H|H]; auto using contains_in_context.
    + rewrite !orb_true_iff. intros [H|H]; auto using contains_in_context.
    + rewrite !andb_true_iff. intros [H H'].
      auto using contains_in_context.
Qed.

Lemma chat_reply_in_context_witness :
  chat_endpoint (lower "What is CSS?") = chat_endpoint "What is CSS?" /\
  (topic_rank (chat_endpoint ("Hi! " +:+ "What is CSS?" +:+ " And HTML?"))
     <= topic_rank (chat_endpoint "What is CSS?"))%nat.
Proof.
  apply (chat_reply_in_context "Hi! " "What is CSS?" " And HTML?").
  reflexivity.
Defined.

(** ** Status checks *)

Section StatusCheckProperties.
Variable fromisoformat : string -> option datetime.
Implicit Types (checks : list StatusCheckDoc) (listed : list StatusCheck).

Lemma read_status_checks_Return checks listed :
  read_status_checks fromisoformat checks = Return listed ->
  List.length listed = List.length checks /\
  sc_id <$> listed = scd_id <$> checks /\
  sc_client_name <$> listed = scd_client_name <$> checks /\
  Forall2 (fun c d => fromisoformat (scd_timestamp d) = Some (sc_timestamp c))
    listed checks.
Proof.
  revert listed. induction checks as [|d checks IH]; intros listed; simpl.
  - intros [= <-]. by repeat split.
  - unfold read_status_check.
    destruct (fromisoformat (scd_timestamp d)) as [t|] eqn:Ht; simpl; [|done].
    destruct (read_status_checks fromisoformat checks) as [cs| |]; simpl;
      try done.
    intros [= <-]. destruct (IH cs eq_refl) as (Hlen & Hid & Hname & Hts).
    rewrite !fmap_cons, Hid, Hname. simpl. rewrite Hlen.
    repeat split. by constructor.
Qed.

Lemma read_status_checks_snoc checks listed d t :
  read_status_checks fromisoformat checks = Return listed ->
  fromisoformat (scd_timestamp d) = Some t ->
  read_status_checks fromisoformat (checks ++ [d])%list =
    Return (listed ++ [mkStatusCheck (scd_id d) (scd_client_name d) t])%list.
Proof.
  revert listed. induction checks as [|d' checks IH]; intros listed; simpl.
  - intros [= <-] Ht. unfold read_status_check. by rewrite Ht.
  - destruct (read_status_check fromisoformat d') as [c| |]; simpl; try done.
    destruct (read_status_checks fromisoformat checks) as [cs| |]; simpl;
      try done.
    intros [= <-] Ht. by rewrite (IH cs eq_refl Ht).
Qed.
End StatusCheckProperties.

(** X11: the listing of the status checks returns the first thousand
    stored checks, in the order they were stored and with their ids and
    client names; once a thousand are stored, a check that is created is
    stored but the listing does not change. *)
Theorem status_checks_listing_capped
    (fromisoformat : string -> option datetime)
    (status_checks : list StatusCheckDoc) (listed : list StatusCheck) :
  get_status_checks fromisoformat status_checks = Return listed ->
  List.length listed = Nat.min 1000 (List.length status_checks) /\
  sc_id <$> listed = scd_id <$> take 1000 status_checks /\
  sc_client_name <$> listed = scd_client_name <$> take 1000 status_checks /\
  ((1000 <= List.length status_checks)%nat ->
   forall new_uuid now client_name,
     List.length
       (snd (create_status_check status_checks new_uuid now client_name))
       = S (List.length status_checks) /\
     get_status_checks fromisoformat
       (snd (create_status_check status_checks new_uuid now client_name))
       = Return listed).
Proof.
  unfold get_status_checks. intros Hget.
  destruct (read_status_checks_Return _ _ _ Hget) as (Hlen & Hid & Hname & _).
  rewrite length_take in Hlen. repeat split; try done.
  - simpl. rewrite length_app. simpl. lia.
  - simpl. by rewrite take_app_le.
Qed.

(** X12: while fewer than a thousand checks are stored, a check that is
    created is listed next, after the ones listed before, with the id, the
    client name and the clock reading the creation returned, provided the
    reader gives back the reading from its written form. *)
Theorem status_check_round_trip
    (fromisoformat : string -> option datetime)
    (status_checks : list StatusCheckDoc) (listed : list StatusCheck)
    (new_uuid : string) (now : datetime) (client_name : string) :
  (List.length status_checks < 1000)%nat ->
  get_status_checks fromisoformat status_checks = Return listed ->
  fromisoformat (isoformat now) = Some now ->
  get_status_checks fromisoformat
    (snd (create_status_check status_checks new_uuid now client_name))
    = Return
        (listed ++
         [fst (create_status_check status_checks new_uuid now client_name)])%list.
Proof.
  unfold get_status_checks. intros Hlen Hget Hread. simpl.
  rewrite take_ge in Hget by lia.
  rewrite take_ge by (rewrite length_app; simpl; lia).
  by apply (read_status_checks_snoc _ _ _
              (mkStatusCheckDoc new_uuid client_name (isoformat now)) now Hget).
Qed.

Lemma status_checks_listing_capped_witness :
  List.length (replicate 1000 (mkStatusCheck (scd_id example_status_doc)
                                 (scd_client_name example_status_doc)
                                 example_reading))
    = Nat.min 1000 (List.length (replicate 1001 example_status_doc)) /\
  sc_id <$> replicate 1000 (mkStatusCheck (scd_id example_status_doc)
                              (scd_client_name example_status_doc)
                              example_reading)
    = scd_id <$> take 1000 (replicate 1001 example_status_doc) /\
  sc_client_name <$> replicate 1000 (mkStatusCheck (scd_id example_status_doc)
                                       (scd_client_name example_status_doc)
                                       example_reading)
    = scd_client_name <$> take 1000 (replicate 1001 example_status_doc) /\
  ((1000 <= List.length (replicate 1001 example_status_doc))%nat ->
   forall new_uuid now client_name,
     List.length
       (snd (create_status_check (replicate 1001 example_status_doc)
               new_uuid now client_name))
       = S (List.length (replicate 1001 example_status_doc)) /\
     get_status_checks example_fromisoformat
       (snd (create_status_check (replicate 1001 example_status_doc)
               new_uuid now client_name))
       = Return (replicate 1000 (mkStatusCheck (scd_id example_status_doc)
                                   (scd_client_name example_status_doc)
                                   example_reading))).
Proof.
  apply (status_checks_listing_capped example_fromisoformat
           (replicate 1001 example_status_doc)).
  vm_compute. reflexivity.
Defined.

Lemma status_check_round_trip_witness :
  get_status_checks example_fromisoformat
    (snd (create_status_check [example_status_doc] "second" example_reading
            "probe-2"))
    = Return
        ([mkStatusCheck (scd_id example_status_doc) "probe" example_reading] ++
         [fst (create_status_check [example_status_doc] "second"
                 example_reading "probe-2")])%list.
Proof.
  apply (status_check_round_trip example_fromisoformat [example_status_doc]
           [mkStatusCheck (scd_id example_status_doc) "probe" example_reading]
           "second" example_reading "probe-2").
  - simpl. lia.
  - reflexivity.
  - reflexivity.
Defined.

(** ** The test script's log *)

Section TesterLog.
Lemma log_test_consistent self name success details stamp :
  tester_consistent self ->
  tester_consistent (log_test self name success details stamp).
Proof.
  unfold tester_consistent, log_test. intros [Hrun Hpassed]. simpl.
  rewrite List.filter_app, !length_app. simpl.
  destruct success; simpl; lia.
Qed.

Lemma filter_length_all {A} (f : A -> bool) (l : list A) :
  List.length (List.filter f l) = List.length l <-> Forall (fun x => f x = true) l.
Proof.
  induction l as [|x l IH]; simpl.
  - split; [constructor|done].
  - pose proof (List.filter_length_le f l) as Hle.
    destruct (f x) eqn:Hx; simpl.
    + rewrite Forall_cons. split.
      * intros [= H]. split; [done|by apply IH].
      * intros [_ H]. f_equal. by apply IH.
    + split; [lia|]. intros H. apply Forall_cons in H as [H _]. congruence.
Qed.
End TesterLog.

(** X13: the counters of the test script agree with its log from the
    first state on and after every logged test; whenever they do, the
    number of passed tests lies between zero and the number run, the
    report counts the failed entries, and the exit code is 0 exactly when
    every logged test succeeded. *)
Theorem tester_counts_agree_with_log :
  tester_consistent Tester_init /\
  (forall self name success details stamp,
     tester_consistent self ->
     tester_consistent (log_test self name success details stamp)) /\
  (forall self,
     tester_consistent self ->
     0 <= t_tests_passed self <= t_tests_run self /\
     failed_tests (get_test_report_summary self) =
       Z.of_nat (List.length
                   (List.filter (fun e => negb (log_success e))
                      (t_test_results self))) /\
     (exit_code self = 0 <->
      Forall (fun e => log_success e = true) (t_test_results self))).
Proof.
  split; [done|]. split; [apply log_test_consistent|].
  intros self [Hrun Hpassed].
  pose proof (List.filter_length_le log_success (t_test_results self)) as Hle.
  split; [lia|]. split.
  - simpl. rewrite Hrun, Hpassed.
    pose proof (List.filter_length log_success (t_test_results self)). lia.
  - unfold exit_code. rewrite <- filter_length_all.
    destruct (decide (t_tests_passed self = t_tests_run self)); split;
      try done; lia.
Qed.

(** ** Registered students *)

Section RegisteredStudents.
Implicit Types (db : Db).

Lemma find_snoc_None {A} (f : A -> bool) (l : list A) (x : A) :
  List.find f l = None -> List.find f (l ++ [x]) = if f x then Some x else None.
Proof.
  induction l as [|y l IH]; simpl; [done|].
  destruct (f y); [done|]. apply IH.
Qed.



Lemma submit_test_students round2 db now new_id track answers st :
  students (snd (submit_test round2 db now new_id track answers st))
    = students db.
Proof.
  unfold submit_test. destruct (valid_track track); simpl; [|done].
  by destruct (current_student_oid st).
Qed.

Lemma login_after_register settings pwd_hash pwd_verify db now salt new_id
    payload login_now password :
  get_student_by_email db (reg_email payload) = None ->
  login_student settings pwd_verify
    (insert_student db
       (mkStudent new_id (reg_name payload) (reg_email payload)
          (get_password_hash pwd_hash salt (reg_password payload))
          (reg_branch payload) (reg_semester payload) (isoformat now)))
    login_now (mkStudentLogin (reg_email payload) password) =
  if negb (pwd_verify password (pwd_hash salt (reg_password payload)))
  then Raise incorrect_email_or_password
  else Return
         (mkTokenResponse
            (Signed (JWT_ALGORITHM settings) (JWT_SECRET settings)
               [("sub", JStr (str_oid new_id));
                ("email", JStr (reg_email payload));
                ("exp", JInt (login_now + 60 * JWT_EXPIRES_MINUTES settings))])
            "bearer"
            (mkStudentPublic (str_oid new_id) (reg_name payload)
               (reg_email payload) (reg_branch payload)
               (reg_semester payload))).
Proof.
  intros Hf. unfold login_student, get_student_by_email. simpl.
  unfold get_student_by_email in Hf.
  rewrite (find_snoc_None _ _ _ Hf). simpl. rewrite String.eqb_refl.
  reflexivity.
Qed.

End RegisteredStudents.


(** X15: a student whose registration was accepted can log in with the
    registered email and password, as long as the hasher verifies the
    password against the hash it made: the login returns a bearer token
    whose claims are the student's id, the email and the expiry, and the
    public record the registration returned; a password the hasher does
    not verify is refused with status 400. *)
Theorem registered_student_can_log_in
    (settings : Settings) (pwd_hash : string -> string -> string)
    (pwd_verify : string -> string -> bool) (db : Db) (now : datetime)
    (salt : string) (new_id : oid) (payload : StudentRegister)
    (public : StudentPublic) (db' : Db) (login_now : Z) :
  register_student pwd_hash db now salt new_id payload = (Return public, db') ->
  pwd_verify (reg_password payload) (pwd_hash salt (reg_password payload))
    = true ->
  login_student settings pwd_verify db' login_now
    (mkStudentLogin (reg_email payload) (reg_password payload))
    = Return
        (mkTokenResponse
           (Signed (JWT_ALGORITHM settings) (JWT_SECRET settings)
              [("sub", JStr (str_oid new_id));
               ("email", JStr (reg_email payload));
               ("exp", JInt (login_now + 60 * JWT_EXPIRES_MINUTES settings))])
           "bearer" public) /\
  (forall password,
     pwd_verify password (pwd_hash salt (reg_password payload)) = false ->
     login_student settings pwd_verify db' login_now
       (mkStudentLogin (reg_email payload) password)
       = Raise (mkHTTPException 400 "Incorrect email or password" [])).
Proof.
  intros Hreg Hverify. unfold register_student in Hreg.
  destruct (get_student_by_email db (reg_email payload)) eqn:Hf; [done|].
  injection Hreg as <- <-. split.
  - by rewrite (login_after_register _ _ _ _ _ _ _ _ _ _ Hf), Hverify.
  - intros password Hno.
    by rewrite (login_after_register _ _ _ _ _ _ _ _ _ _ Hf), Hno.
Qed.


(** X17: the token a login returns is refused, with the same 401 as any
    invalid token, at every time after its expiry, the time of the login
    plus the configured number of minutes. *)
Theorem login_token_expires
    (settings : Settings) (int_of_str : string -> option Z)
    (EmailStr_valid : string -> bool)
    (pwd_verify : string -> string -> bool) (db : Db) (now later : Z)
    (payload : StudentLogin) (response : TokenResponse) :
  login_student settings pwd_verify db now payload = Return response ->
  now + 60 * JWT_EXPIRES_MINUTES settings < later ->
  get_current_student settings int_of_str EmailStr_valid db later (access_token response)
    = Raise credentials_exception.
Proof.
  intros Hlogin Hlater. unfold login_student in Hlogin.
  destruct (get_student_by_email db (login_email payload)) as [st|]; [|done].
  destruct (negb _); [done|]. injection Hlogin as <-. simpl.
  unfold create_access_token. simpl.
  by eapply expired_rejected
    with (exp := now + 60 * JWT_EXPIRES_MINUTES settings).
Qed.

(** ** Worked logins *)

Lemma registered_student_can_log_in_witness :
  login_student example_settings example_verify example_registered_db
    1704190000 (mkStudentLogin "a@x.com" "p")
    = Return (mkTokenResponse example_login_token "bearer" example_public) /\
  (forall password,
     example_verify password (example_hash "salt" "p") = false ->
     login_student example_settings example_verify example_registered_db
       1704190000 (mkStudentLogin "a@x.com" password)
       = Raise (mkHTTPException 400 "Incorrect email or password" [])).
Proof.
  apply (registered_student_can_log_in example_settings example_hash
           example_verify (mkDb [] []) (mkDatetime 2024 1 1 9 0 0 0) "salt"
           example_oid example_payload example_public example_registered_db
           1704190000).
  - reflexivity.
  - reflexivity.
Defined.


Lemma login_token_expires_witness :
  get_current_student example_settings example_int (fun _ => true) example_db 1704197201
    example_login_token = Raise credentials_exception.
Proof.
  apply (login_token_expires example_settings example_int (fun _ => true)
           (fun _ _ => true) example_db 1704190000 1704197201
           (mkStudentLogin "a@x.com" "p")
           (mkTokenResponse example_login_token "bearer" example_public)).
  - reflexivity.
  - reflexivity.
Defined.

(** ** Reachable routes *)

Section Routing.
(** A request is handed to the first route, in order, whose method and
    path both match. *)
Lemma dispatch_from_Dispatch routes partial m path e path_params :
  dispatch_from routes partial m path = Dispatch e path_params ->
  exists before r after,
    routes = (before ++ r :: after)%list /\
    route_endpoint r = e /\ route_method r = m /\
    match_path (route_path r) path = Some path_params /\
    Forall (fun r' => route_method r' = m ->
                      match_path (route_path r') path = None) before.
Proof.
  revert partial. induction routes as [|r routes IH]; intros partial; simpl.
  - by destruct partial.
  - destruct (match_path (route_path r) path) as [params|] eqn:Hm.
    + destruct (decide (route_method r = m)) as [Heq|Hne].
      * intros [= <- <-]. exists [], r, routes. by repeat split.
      * intros H. apply IH in H as (before & r' & after & -> & ? & ? & ? & ?).
        exists (r :: before), r', after. repeat split; try done.
        constructor; [done|done].
    + intros H. apply IH in H as (before & r' & after & -> & ? & ? & ? & ?).
      exists (r :: before), r', after. repeat split; try done.
      by constructor.
Qed.

Lemma match_levels_template path path_params :
  match_path [Lit "api"; Lit "tests"; Lit "levels"] path = Some path_params ->
  path = ["api"; "tests"; "levels"].
Proof.
  destruct path as [|a [|b [|c [|d path]]]]; simpl; try done;
    repeat (case_match; try done).
Qed.
End Routing.

(** X18: no request is ever handed to the levels operation, whatever its
    method and path, because every path its template matches is matched
    by the template of the questions route before it; each of the other
    ten operations is reached by a request for its own path. *)
Theorem only_get_levels_is_unreachable :
  (forall m path path_params,
     dispatch m path <> Dispatch E_get_levels path_params) /\
  dispatch GET ["api"; ""] = Dispatch E_root [] /\
  dispatch POST ["api"; "status"] = Dispatch E_create_status_check [] /\
  dispatch GET ["api"; "status"] = Dispatch E_get_status_checks [] /\
  dispatch POST ["api"; "auth"; "register"] = Dispatch E_register_student [] /\
  dispatch POST ["api"; "auth"; "login"] = Dispatch E_login_student [] /\
  (forall track,
     track <> "" ->
     dispatch GET ["api"; "tests"; track]
       = Dispatch E_get_test_questions [("track", track)] /\
     dispatch POST ["api"; "tests"; track]
       = Dispatch E_submit_test [("track", track)]) /\
  dispatch GET ["api"; "recommendations"] = Dispatch E_get_recommendations [] /\
  dispatch GET ["api"; "docs"] = Dispatch E_get_docs [] /\
  dispatch POST ["api"; "chat"] = Dispatch E_chat_endpoint [].
Proof.
  split.
  - intros m path path_params H. unfold dispatch in H.
    apply dispatch_from_Dispatch in H
      as (before & r & after & Hroutes & He & Hm & Hmatch & Hbefore).
    unfold api_routes in Hroutes.
    do 11 (try (destruct before as [|? before];
                [injection Hroutes as <- _; try discriminate He|
                 injection Hroutes as <- Hroutes;
                 apply Forall_cons in Hbefore as [? Hbefore]])).
    + simpl in Hm. subst m.
      apply match_levels_template in Hmatch as ->.
      match goal with
      | H : route_method (mkRoute GET [_; _; Param _] _) = GET -> _ |- _ =>
          by specialize (H eq_refl)
      end.
    + by destruct before.
  - repeat split; try reflexivity.
    + unfold dispatch. simpl.
      destruct (String.eqb_spec track ""); [done|reflexivity].
    + unfold dispatch. simpl.
      destruct (String.eqb_spec track ""); [done|reflexivity].
Qed.

(** ** A submission and the current level *)

Section SubmissionLevels.
Implicit Types (db : Db) (doc : TestResult).

Lemma submissions_insert db doc student_id track :
  submissions (insert_test_result db doc) student_id track =
    (submissions db student_id track ++
     if bool_decide (r_student_id doc = student_id)
        && String.eqb (r_track doc) track
     then [doc] else [])%list.
Proof.
  unfold submissions, insert_test_result. simpl.
  rewrite List.filter_app. simpl.
  by destruct (_ && _).
Qed.

Lemma find_results_sorted_insert_other db doc student_id :
  r_student_id doc <> student_id ->
  find_results_sorted (insert_test_result db doc) student_id =
    find_results_sorted db student_id.
Proof.
  intros Hne. unfold find_results_sorted, insert_test_result. simpl.
  rewrite List.filter_app. simpl.
  rewrite (bool_decide_eq_false_2 _ Hne). by rewrite app_nil_r.
Qed.

Lemma levels_field_lookup db student_id track :
  valid_track track = true ->
  levels_field track (get_latest_levels_for_student db student_id) =
    track_level_of <$>
      List.find (fun r => String.eqb (r_track r) track)
        (find_results_sorted db student_id).
Proof.
  intros Hv. unfold valid_track in Hv.
  unfold levels_field, get_latest_levels_for_student. simpl.
  rewrite !collect_levels_lookup.
  apply orb_true_iff in Hv as [Hv|Hv]; apply String.eqb_eq in Hv as ->; done.
Qed.

Lemma str_lt_not_le (a b : string) :
  String.ltb a b = true -> ~ str_le b a.
Proof.
  unfold String.ltb, str_le, String.leb.
  rewrite (String.compare_antisym b a).
  by destruct (String.compare a b).
Qed.
End SubmissionLevels.

(** X19: after an accepted submission whose clock reading is written
    later than the timestamps of the student's stored submissions for the
    track, the levels of the student report for that track the level and
    the percentage the submission just stored; the levels of every other
    student are what they were. *)
Theorem submission_becomes_current_level
    (round2 : float -> float) (db : Db) (now : datetime) (new_id : oid)
    (track : string) (answers : list AnswerSubmission)
    (current_student : Student) (student_id : oid)
    (response : TestResultResponse) (db' : Db) :
  submit_test round2 db now new_id track answers current_student
    = (Return response, db') ->
  current_student_oid current_student = Some student_id ->
  (forall r, r ∈ submissions db student_id track ->
             String.ltb (r_submitted_at r) (isoformat now) = true) ->
  levels_field track (get_latest_levels_for_student db' student_id) =
    Some (mkTrackLevel (Some (res_level response))
            (Some (compute_percentage (res_score response) 10))) /\
  (forall other,
     other <> student_id ->
     get_latest_levels_for_student db' other =
       get_latest_levels_for_student db other).
Proof.
  intros Hsubmit Hoid Hlater. pose proof Hsubmit as Hsubmit'.
  apply submit_test_Return in Hsubmit as (sid & Hs & Hv & ->).
  rewrite Hoid in Hs. injection Hs as <-.
  unfold submit_test in Hsubmit'.
  rewrite Hv, Hoid, questions_for_length in Hsubmit'. simpl in Hsubmit'.
  injection Hsubmit' as <-. simpl.
  set (doc := mkTestResult new_id student_id track _ _ _ _ _).
  split.
  - rewrite (levels_field_lookup _ _ _ Hv).
    pose proof (first_of_cursor_reports_latest
                  (insert_test_result db doc) student_id track) as Hl.
    assert (doc ∈ submissions (insert_test_result db doc) student_id track)
      as Hdoc.
    { rewrite submissions_insert. subst doc. simpl.
      rewrite bool_decide_eq_true_2, String.eqb_refl by done. simpl.
      apply elem_of_app. right. apply list_elem_of_here. }
    destruct (List.find _ _) as [r|]; simpl in *.
    + destruct Hl as (r' & [Hin Hmax] & ->). f_equal.
      rewrite submissions_insert in Hin. apply elem_of_app in Hin as [Hin|Hin].
      * exfalso. apply (str_lt_not_le _ _ (Hlater r' Hin)).
        apply (Hmax doc Hdoc).
      * subst doc. simpl in Hin.
        rewrite bool_decide_eq_true_2, String.eqb_refl in Hin by done.
        simpl in Hin. apply list_elem_of_singleton in Hin. by subst r'.
    + rewrite Hl in Hdoc. by apply elem_of_nil in Hdoc.
  - intros other Hne. unfold get_latest_levels_for_student.
    rewrite find_results_sorted_insert_other; [done|].
    subst doc. simpl. congruence.
Qed.

(** ** The level a submission earns *)

(** X20: when no answer is submitted twice, the score of an accepted
    submission is the number of correct matches, and the level is
    Beginner for at most four of them, Intermediate for five to seven and
    Advanced for eight or more. *)
Theorem level_from_correct_answers
    (round2 : float -> float) (db : Db) (now : datetime) (new_id : oid)
    (track : string) (answers : list AnswerSubmission)
    (current_student : Student) (response : TestResultResponse) (db' : Db) :
  submit_test round2 db now new_id track answers current_student
    = (Return response, db') ->
  NoDup answers ->
  res_score response = Z.of_nat (correct_matches (questions_for track) answers)
  /\
  res_level response =
    if (correct_matches (questions_for track) answers <=? 4)%nat
    then "Beginner"
    else if (correct_matches (questions_for track) answers <=? 7)%nat
         then "Intermediate" else "Advanced".
Proof.
  intros Hsubmit Hnd. pose proof Hsubmit as Hsubmit'.
  apply submit_test_Return in Hsubmit as (sid & Hs & Hv & _).
  unfold submit_test in Hsubmit'.
  rewrite Hv, Hs, questions_for_length in Hsubmit'. simpl in Hsubmit'.
  injection Hsubmit' as <- _. simpl.
  rewrite compute_score_correct_matches by apply questions_for_NoDup.
  split; [done|].
  pose proof (correct_matches_le_questions (questions_for track) answers Hnd)
    as Hle.
  pose proof (questions_for_length track) as Hten.
  rewrite level_of_score by lia.
  destruct (Nat.leb_spec (correct_matches (questions_for track) answers) 4);
    destruct (Z.leb_spec
                (Z.of_nat (correct_matches (questions_for track) answers)) 4);
    try lia; [done|].
  destruct (Nat.leb_spec (correct_matches (questions_for track) answers) 7);
    destruct (Z.leb_spec
                (Z.of_nat (correct_matches (questions_for track) answers)) 7);
    try lia; done.
Qed.

(** ** Worked submissions *)

Lemma submission_becomes_current_level_witness :
  levels_field "webdev"
    (get_latest_levels_for_student example_db_after_submission example_oid) =
    Some (mkTrackLevel (Some (res_level example_submission_response))
            (Some (compute_percentage
                     (res_score example_submission_response) 10))) /\
  (forall other,
     other <> example_oid ->
     get_latest_levels_for_student example_db_after_submission other =
       get_latest_levels_for_student example_db other).
Proof.
  apply (submission_becomes_current_level (fun x => x) example_db
           example_submission_time (Oid "65a000000000000000000003") "webdev"
           [mkAnswer "w1" 1] example_student example_oid
           example_submission_response example_db_after_submission).
  - vm_compute. reflexivity.
  - reflexivity.
  - intros r Hr. apply list_elem_of_In in Hr. vm_compute in Hr.
    destruct Hr as [<-|[<-|[]]]; vm_compute; reflexivity.
Defined.

Lemma level_from_correct_answers_witness :
  res_score example_submission_response =
    Z.of_nat (correct_matches (questions_for "webdev") [mkAnswer "w1" 1]) /\
  res_level example_submission_response =
    if (correct_matches (questions_for "webdev") [mkAnswer "w1" 1] <=? 4)%nat
    then "Beginner"
    else if (correct_matches (questions_for "webdev") [mkAnswer "w1" 1]
             <=? 7)%nat
         then "Intermediate" else "Advanced".
Proof.
  apply (level_from_correct_answers (fun x => x) example_db
           example_submission_time (Oid "65a000000000000000000003") "webdev"
           [mkAnswer "w1" 1] example_student example_submission_response
           example_db_after_submission).
  - vm_compute. reflexivity.
  - apply NoDup_singleton.
Defined.

(** ** The number of recommendations *)

Section RecommendationCount.
Lemma map_percentage_to_level_cases (p : float) :
  map_percentage_to_level p = "Beginner" \/
  map_percentage_to_level p = "Intermediate" \/
  map_percentage_to_level p = "Advanced".
Proof.
  unfold map_percentage_to_level.
  destruct (p <=? 40)%float; [by left|].
  destruct (p <=? 75)%float; [right; by left|right; by right].
Qed.

Lemma filter_courses_two (track : string) (field : option TrackLevel) :
  valid_track track = true ->
  (field = None \/
   exists lvl pct,
     field = Some (mkTrackLevel (Some lvl) pct) /\
     (lvl = "Beginner" \/ lvl = "Intermediate" \/ lvl = "Advanced")) ->
  List.length (filter_courses track field) = 2%nat /\
  Forall (fun c => c_track c = track) (filter_courses track field).
Proof.
  intros Hv Hfield. unfold valid_track in Hv.
  apply orb_true_iff in Hv as [Hv|Hv]; apply String.eqb_eq in Hv as ->;
    destruct Hfield as [->|(lvl & pct & -> & [->|[->| ->]])];
    (split; [reflexivity|by repeat constructor]).
Qed.

Lemma latest_field_cases db student_id t :
  results_wellformed db ->
  let field :=
    track_level_of <$>
      List.find (fun r => String.eqb (r_track r) t)
        (find_results_sorted db student_id) in
  field = None \/
  exists lvl pct,
    field = Some (mkTrackLevel (Some lvl) pct) /\
    (lvl = "Beginner" \/ lvl = "Intermediate" \/ lvl = "Advanced").
Proof.
  intros Hwf. cbv zeta.
  destruct (List.find _ _) as [r|] eqn:Hf; simpl; [|by left].
  right. exists (r_level r), (Some (r_percentage r)). split; [done|].
  apply List.find_some in Hf as [Hin _].
  apply list_elem_of_In, find_results_sorted_elem_of in Hin as [Hin _].
  unfold results_wellformed in Hwf. rewrite Forall_forall in Hwf.
  rewrite (Hwf r Hin). apply map_percentage_to_level_cases.
Qed.
End RecommendationCount.

(** X21: for a student whose id reads back from its printed form, in a
    store whose results carry the level their percentage maps to, as the
    ones the submission route writes do, the recommendations hold exactly
    two courses for each of the two tracks, every one a course of its
    track, whatever the student's levels are and also when there are
    none. *)
Theorem recommendations_two_per_track
    (db : Db) (current_student : Student) (student_id : oid) :
  current_student_oid current_student = Some student_id ->
  results_wellformed db ->
  exists response,
    get_recommendations db current_student = Return response /\
    List.length (rec_webdev response) = 2%nat /\
    List.length (rec_ml response) = 2%nat /\
    Forall (fun c => c_track c = "webdev") (rec_webdev response) /\
    Forall (fun c => c_track c = "ml") (rec_ml response).
Proof.
  intros Hs Hwf. unfold get_recommendations. rewrite Hs.
  eexists. split; [reflexivity|]. simpl.
  unfold get_latest_levels_for_student. simpl.
  rewrite !collect_levels_lookup.
  destruct (filter_courses_two "webdev" _ eq_refl
              (latest_field_cases db student_id "webdev" Hwf)) as [? ?].
  destruct (filter_courses_two "ml" _ eq_refl
              (latest_field_cases db student_id "ml" Hwf)) as [? ?].
  done.
Qed.

Lemma recommendations_two_per_track_witness :
  exists response,
    get_recommendations example_db example_student = Return response /\
    List.length (rec_webdev response) = 2%nat /\
    List.length (rec_ml response) = 2%nat /\
    Forall (fun c => c_track c = "webdev") (rec_webdev response) /\
    Forall (fun c => c_track c = "ml") (rec_ml response).
Proof.
  apply (recommendations_two_per_track example_db example_student example_oid).
  - reflexivity.
  - repeat constructor.
Defined.

(** ** Issued tokens decode *)

Section TokenClaims.
Lemma assoc_get_dict_update_eq k v (data : list (string * json)) :
  assoc_get k (dict_update k v data) = Some v.
Proof.
  induction data as [|[k' v'] data IH]; simpl.
  - by rewrite String.eqb_refl.
  - destruct (String.eqb k k') eqn:E; simpl; rewrite ?E; [|done].
    by rewrite String.eqb_refl.
Qed.

Lemma assoc_get_dict_update_ne k k' v (data : list (string * json)) :
  k <> k' -> assoc_get k' (dict_update k v data) = assoc_get k' data.
Proof.
  intros Hne. induction data as [|[k0 v0] data IH]; simpl.
  - by destruct (String.eqb_spec k' k) as [->|_].
  - destruct (String.eqb_spec k k0) as [<-|Hk]; simpl.
    + by destruct (String.eqb_spec k' k) as [->|_].
    + by rewrite IH.
Qed.
End TokenClaims.

(** X22: a token issued for a payload decodes, under the configured
    secret and algorithm and at any time up to its expiry, to the payload
    with the expiry written over any [exp] it had: the expiry is the issue
    time plus the configured minutes and every other claim is as it was
    given.  The subject, when the payload has one, has to be a string, and
    the payload has to leave out the other claims the library checks. *)
Theorem issued_token_decodes
    (settings : Settings) (int_of_str : string -> option Z) (now later : Z)
    (data : list (string * json)) :
  subject_is_string data ->
  no_other_registered_claim data ->
  later <= now + 60 * JWT_EXPIRES_MINUTES settings ->
  exists payload,
    jwt_decode int_of_str (create_access_token settings now data)
      (JWT_SECRET settings) [JWT_ALGORITHM settings] later = inr payload /\
    assoc_get "exp" payload =
      Some (JInt (now + 60 * JWT_EXPIRES_MINUTES settings)) /\
    (forall k, k <> "exp" -> assoc_get k payload = assoc_get k data).
Proof.
  intros Hsub (Hiat & Hnbf & Haud & Hjti & Hhash) Hlater.
  eexists. split; [|split].
  - unfold create_access_token, jwt_decode. simpl.
    rewrite !String.eqb_refl. simpl.
    unfold validate_claims, validate_iat, validate_nbf, validate_exp,
      validate_aud, validate_str, validate_at_hash.
    rewrite assoc_get_dict_update_eq.
    rewrite !assoc_get_dict_update_ne by done.
    rewrite Hiat, Hnbf, Haud, Hjti, Hhash. cbn [first_raised py_int].
    destruct (Z.ltb_spec (now + 60 * JWT_EXPIRES_MINUTES settings) later);
      [lia|].
    unfold subject_is_string in Hsub.
    by destruct (assoc_get "sub" data) as [[]|].
  - apply assoc_get_dict_update_eq.
  - intros k Hk. apply assoc_get_dict_update_ne. congruence.
Qed.

Lemma issued_token_decodes_witness :
  exists payload,
    jwt_decode example_int
      (create_access_token example_settings 1704190000
         [("sub", JStr "507f1f77bcf86cd799439011"); ("email", JStr "a@x.com");
          ("exp", JInt 0)])
      (JWT_SECRET example_settings) [JWT_ALGORITHM example_settings]
      1704193600 = inr payload /\
    assoc_get "exp" payload =
      Some (JInt (1704190000 + 60 * JWT_EXPIRES_MINUTES example_settings)) /\
    (forall k, k <> "exp" ->
       assoc_get k payload =
         assoc_get k
           [("sub", JStr "507f1f77bcf86cd799439011");
            ("email", JStr "a@x.com"); ("exp", JInt 0)]).
Proof.
  apply (issued_token_decodes example_settings example_int 1704190000
           1704193600
           [("sub", JStr "507f1f77bcf86cd799439011"); ("email", JStr "a@x.com");
            ("exp", JInt 0)]).
  - exact I.
  - by repeat split.
  - vm_compute. discriminate.
Defined.

(** ** A run of the test script *)

Section TestScriptRun.
Variable settings : Settings.
Variable int_of_str : string -> option Z.
Variable EmailStr_valid : string -> bool.
Variable pwd_hash : string -> string -> string.
Variable pwd_verify : string -> string -> bool.
Variable round2 : float -> float.
Variable fromisoformat : string -> option datetime.
Variable world : nat -> Moment.
Variable details_text : Z -> Z -> outcome response_body -> string.
Variable log_stamp : nat -> string.
Variable hhmmss : string.

#[local] Abbreviation the_app :=
  (app settings int_of_str EmailStr_valid pwd_hash pwd_verify round2 fromisoformat).
#[local] Abbreviation the_run_test :=
  (run_test settings int_of_str EmailStr_valid pwd_hash pwd_verify round2 fromisoformat
     world details_text log_stamp).

Lemma run_test_passes self srv n name method endpoint expected data o srv' :
  the_app srv (world n)
    (mkRequest method ("api" :: endpoint) (t_token self) data)
    = (expected, o, srv') ->
  the_run_test self srv n name method endpoint expected data =
    (log_test self name true (details_text expected expected o) (log_stamp n),
     srv', true, o).
Proof.
  intros H. unfold run_test. rewrite H.
  by rewrite bool_decide_eq_true_2.
Qed.

Lemma run_test_fails self srv n name method endpoint expected data status o
    srv' :
  the_app srv (world n)
    (mkRequest method ("api" :: endpoint) (t_token self) data)
    = (status, o, srv') ->
  status <> expected ->
  the_run_test self srv n name method endpoint expected data =
    (log_test self name false (details_text status expected o) (log_stamp n),
     srv', false, o).
Proof.
  intros H Hne. unfold run_test. rewrite H.
  by rewrite bool_decide_eq_false_2.
Qed.

(** The dependency on the current student, for a token with the claims a
    login writes, when the store finds a student under the subject. *)
Lemma dependency_accepts_login_token db later exp (new_id : oid) email st :
  List.find (fun s => bool_decide (s_id s = new_id)) (students db) = Some st ->
  ObjectId (str_oid new_id) = Some new_id ->
  EmailStr_valid email = true ->
  later <= exp ->
  current_student_dependency settings int_of_str EmailStr_valid db later
    (Some (Signed (JWT_ALGORITHM settings) (JWT_SECRET settings)
             [("sub", JStr (str_oid new_id)); ("email", JStr email);
              ("exp", JInt exp)]))
    = Return st.
Proof.
  intros Hfind Hoid Hemail Hlater.
  unfold current_student_dependency, get_current_student.
  rewrite decode_issued_claims by done.
  unfold payload_get. simpl. rewrite Hemail.
  unfold get_student_by_id. simpl. by rewrite Hoid, Hfind.
Qed.
End TestScriptRun.

(** ** A run of the test script *)

Section TestScriptFullRun.
Variable settings : Settings.
Variable int_of_str : string -> option Z.
Variable EmailStr_valid : string -> bool.
Variable pwd_hash : string -> string -> string.
Variable pwd_verify : string -> string -> bool.
Variable round2 : float -> float.
Variable fromisoformat : string -> option datetime.
Variable world : nat -> Moment.
Variable details_text : Z -> Z -> outcome response_body -> string.
Variable log_stamp : nat -> string.
Variable hhmmss : string.
Variable srv : Server.

#[local] Abbreviation the_app :=
  (app settings int_of_str EmailStr_valid pwd_hash pwd_verify round2 fromisoformat).
#[local] Abbreviation the_run_test :=
  (run_test settings int_of_str EmailStr_valid pwd_hash pwd_verify round2 fromisoformat
     world details_text log_stamp).
#[local] Abbreviation the_email := ("test" +:+ hhmmss +:+ "@college.edu").
#[local] Abbreviation the_student :=
  (registered_student pwd_hash (world 1) (test_student hhmmss)).
#[local] Abbreviation the_expiry :=
  (at_seconds (world 2) + 60 * JWT_EXPIRES_MINUTES settings).
#[local] Abbreviation the_token :=
  (Signed (JWT_ALGORITHM settings) (JWT_SECRET settings)
     [("sub", JStr (str_oid (at_oid (world 1))));
      ("email", JStr the_email); ("exp", JInt the_expiry)]).

Hypothesis email_is_new :
  get_student_by_email (srv_db srv) the_email = None.
Hypothesis email_is_valid : EmailStr_valid the_email = true.
Hypothesis password_verifies :
  pwd_verify "TestPass123!" (pwd_hash (at_salt (world 1)) "TestPass123!")
    = true.
Hypothesis new_id_reads_back :
  ObjectId (str_oid (at_oid (world 1))) = Some (at_oid (world 1)).
Hypothesis token_outlives_run :
  forall n, (3 <= n <= 12)%nat -> at_seconds (world n) <= the_expiry.

Lemma app_root at_ bearer :
  the_app srv at_ (mkRequest GET ["api"; ""] bearer NoBody) =
    (200,
     Return (Resp_json (JObj [("message", JStr "Student Skill Assistant API")])),
     srv).
Proof. reflexivity. Qed.

Lemma app_register :
  the_app srv (world 1)
    (mkRequest POST ["api"; "auth"; "register"] None
       (RegisterBody (test_student hhmmss))) =
    (201,
     Return (Resp_student
               (mkStudentPublic (str_oid (at_oid (world 1)))
                  (reg_name (test_student hhmmss)) the_email "CSE" "5")),
     mkServer (insert_student (srv_db srv) the_student)
       (srv_status_checks srv)).
Proof.
  unfold app. simpl. rewrite email_is_valid.
  unfold register_student. simpl. rewrite email_is_new. reflexivity.
Qed.

Lemma app_login :
  the_app
    (mkServer (insert_student (srv_db srv) the_student) (srv_status_checks srv))
    (world 2)
    (mkRequest POST ["api"; "auth"; "login"] None
       (LoginBody (mkStudentLogin the_email "TestPass123!"))) =
    (200,
     Return (Resp_token
               (mkTokenResponse the_token "bearer"
                  (mkStudentPublic (str_oid (at_oid (world 1)))
                     (reg_name (test_student hhmmss)) the_email "CSE" "5"))),
     mkServer (insert_student (srv_db srv) the_student)
       (srv_status_checks srv)).
Proof.
  unfold app. simpl. rewrite email_is_valid.
  pose proof (login_after_register settings pwd_hash pwd_verify (srv_db srv)
                (at_clock (world 1)) (at_salt (world 1)) (at_oid (world 1))
                (test_student hhmmss) (at_seconds (world 2)) "TestPass123!"
                email_is_new) as Hlogin.
  simpl in Hlogin. unfold registered_student. simpl.
  rewrite Hlogin, password_verifies. reflexivity.
Qed.

(** Routes the request of the goal and opens the operation found, leaving
    the dependency on the current student and the operations on the store
    folded. *)
Ltac serve :=
  unfold app;
  match goal with
  | |- context [dispatch ?m ?p] =>
      let d := eval vm_compute in (dispatch m p) in
      change (dispatch m p) with d
  end;
  cbn -[current_student_dependency submit_test get_recommendations].

#[local] Abbreviation the_students :=
  (students (insert_student (srv_db srv) the_student)).

Lemma the_student_is_found :
  exists st,
    List.find (fun x => bool_decide (s_id x = at_oid (world 1))) the_students
      = Some st /\
    s_id st = at_oid (world 1).
Proof.
  apply (find_by_oid_Some (insert_student (srv_db srv) the_student)
           the_student).
  simpl. apply elem_of_app. right. apply list_elem_of_here.
Qed.

(** The dependency on the current student accepts the token of the login
    at every later request of the run, on every store with the students
    the registration left. *)
Lemma dependency_in_run s n :
  students (srv_db s) = the_students ->
  (3 <= n <= 12)%nat ->
  exists st,
    current_student_dependency settings int_of_str EmailStr_valid (srv_db s)
      (at_seconds (world n)) (Some the_token) = Return st /\
    current_student_oid st = Some (at_oid (world 1)).
Proof.
  intros Hs Hn. destruct the_student_is_found as (st & Hfind & Hid).
  exists st. split.
  - apply dependency_accepts_login_token; try done.
    + by rewrite Hs.
    + by apply token_outlives_run.
  - unfold current_student_oid. by rewrite Hid.
Qed.

Lemma app_levels s n :
  students (srv_db s) = the_students -> (3 <= n <= 12)%nat ->
  the_app s (world n)
    (mkRequest GET ["api"; "tests"; "levels"] (Some the_token) NoBody) =
    (404, Raise unknown_track, s).
Proof.
  intros Hs Hn. destruct (dependency_in_run s n Hs Hn) as (st & Hdep & _).
  serve. by rewrite Hdep.
Qed.

Lemma app_questions s n track :
  students (srv_db s) = the_students -> (3 <= n <= 12)%nat ->
  valid_track track = true ->
  the_app s (world n)
    (mkRequest GET ["api"; "tests"; track] (Some the_token) NoBody) =
    (200,
     Return (Resp_json
               (JObj [("track", JStr track);
                      ("questions",
                       JList ((fun q =>
                                 QuestionPublic_dump
                                   (mkQuestionPublic (q_id q) (q_question q)
                                      (q_options q)))
                                <$> questions_for track))])),
     s).
Proof.
  intros Hs Hn Hv. destruct (dependency_in_run s n Hs Hn) as (st & Hdep & _).
  unfold valid_track in Hv.
  apply orb_true_iff in Hv as [Hv|Hv]; apply String.eqb_eq in Hv as ->;
    serve; by rewrite Hdep.
Qed.

Lemma app_submit s n track answers :
  students (srv_db s) = the_students -> (3 <= n <= 12)%nat ->
  valid_track track = true ->
  exists r doc,
    the_app s (world n)
      (mkRequest POST ["api"; "tests"; track] (Some the_token)
         (SubmitBody answers)) =
      (200, Return (Resp_result r),
       mkServer (insert_test_result (srv_db s) doc) (srv_status_checks s)).
Proof.
  intros Hs Hn Hv.
  destruct (dependency_in_run s n Hs Hn) as (st & Hdep & Hoid).
  destruct (submit_test_accepts round2 (srv_db s) (at_clock (world n))
              (at_oid (world n)) track answers st (at_oid (world 1)) Hv Hoid)
    as [r Hsubmit].
  exists r. eexists.
  unfold valid_track in Hv.
  apply orb_true_iff in Hv as [Hv|Hv]; apply String.eqb_eq in Hv; subst track;
    serve; rewrite Hdep; cbn -[submit_test]; rewrite Hsubmit; reflexivity.
Qed.

Lemma app_recommendations s n :
  students (srv_db s) = the_students -> (3 <= n <= 12)%nat ->
  exists r,
    the_app s (world n)
      (mkRequest GET ["api"; "recommendations"] (Some the_token) NoBody) =
      (200, Return (Resp_recommendations r), s).
Proof.
  intros Hs Hn. destruct (dependency_in_run s n Hs Hn) as (st & Hdep & Hoid).
  eexists. serve.
  rewrite Hdep. cbn -[get_recommendations].
  unfold get_recommendations. rewrite Hoid. reflexivity.
Qed.

Lemma app_docs s n :
  students (srv_db s) = the_students -> (3 <= n <= 12)%nat ->
  the_app s (world n) (mkRequest GET ["api"; "docs"] (Some the_token) NoBody) =
    (200, Return (Resp_docs get_docs), s).
Proof.
  intros Hs Hn. destruct (dependency_in_run s n Hs Hn) as (st & Hdep & _).
  serve. by rewrite Hdep.
Qed.

Lemma app_chat s n message :
  students (srv_db s) = the_students -> (3 <= n <= 12)%nat ->
  the_app s (world n)
    (mkRequest POST ["api"; "chat"] (Some the_token) (ChatBody message)) =
    (200, Return (Resp_chat (chat_endpoint message)), s).
Proof.
  intros Hs Hn. destruct (dependency_in_run s n Hs Hn) as (st & Hdep & _).
  serve. by rewrite Hdep.
Qed.

Lemma app_without_token s at_ :
  the_app s at_ (mkRequest GET ["api"; "tests"; "levels"] None NoBody) =
    (401, Raise not_authenticated, s).
Proof. reflexivity. Qed.
(** What the script makes of the questions it fetched: every question
    answered with the same option. *)
Lemma question_ids_dump (questions : list Question) :
  question_ids
    ((fun q => QuestionPublic_dump
                 (mkQuestionPublic (q_id q) (q_question q) (q_options q)))
       <$> questions)
    = Some ((fun q => JStr (q_id q)) <$> questions).
Proof.
  induction questions as [|q questions IH]; [done|].
  rewrite !fmap_cons. cbn [question_ids QuestionPublic_dump].
  rewrite IH. reflexivity.
Qed.

Lemma answers_body_ids (questions : list Question) (option_index : Z) :
  answers_body ((fun q => JStr (q_id q)) <$> questions) option_index
    = SubmitBody ((fun q => mkAnswer (q_id q) option_index) <$> questions).
Proof.
  unfold answers_body.
  assert (answers_body_from ((fun q => JStr (q_id q)) <$> questions)
            option_index
          = Some ((fun q => mkAnswer (q_id q) option_index) <$> questions))
    as ->; [|done].
  induction questions as [|q questions IH]; [done|].
  rewrite !fmap_cons. cbn [answers_body_from]. by rewrite IH.
Qed.

#[local] Abbreviation the_test_submit :=
  (test_submit settings int_of_str EmailStr_valid pwd_hash pwd_verify round2
     fromisoformat world details_text log_stamp).

(** One submission test of the run: both of its requests are answered as
    expected, and the store gains one result. *)
Lemma test_submit_in_run self s n fetch_name submit_name track option_index :
  t_token self = Some the_token ->
  students (srv_db s) = the_students ->
  (3 <= n)%nat -> (S n <= 12)%nat ->
  valid_track track = true ->
  exists d1 d2 doc,
    the_test_submit self s n fetch_name submit_name track option_index =
      Some (log_test (log_test self fetch_name true d1 (log_stamp n))
              submit_name true d2 (log_stamp (S n)),
            mkServer (insert_test_result (srv_db s) doc)
              (srv_status_checks s),
            true).
Proof.
  intros Htok Hs Hn1 Hn2 Hv. unfold test_submit.
  erewrite run_test_passes;
    [|rewrite Htok; apply (app_questions s n track); [done|lia|done]].
  change (response_questions _) with
    (Some (JList ((fun q => QuestionPublic_dump
                     (mkQuestionPublic (q_id q) (q_question q) (q_options q)))
                    <$> questions_for track))).
  cbn [iterate_questions mbind option_bind].
  rewrite question_ids_dump. cbn [mbind option_bind].
  rewrite answers_body_ids.
  destruct (app_submit s (S n) track
              ((fun q => mkAnswer (q_id q) option_index)
                 <$> questions_for track) Hs ltac:(lia) Hv)
    as (r & doc & Hsubmit).
  erewrite run_test_passes; [|cbn [t_token log_test]; rewrite Htok; exact Hsubmit].
  by eexists _, _, doc.
Qed.
#[local] Abbreviation the_run_all_tests :=
  (run_all_tests settings int_of_str EmailStr_valid pwd_hash pwd_verify round2
     fromisoformat world details_text log_stamp hhmmss).

Ltac passes H :=
  erewrite run_test_passes;
    [|cbn [t_token log_test set_token set_student_data]; H];
  cbv beta iota.

(** X23: run on a store that does not hold the test student's email,
    when the address type accepts that email, the hasher verifies the
    test password against the hash it made, the id the store assigns to
    the student reads back from its printed form and the token of the
    login outlives the run, the repository's test script logs fourteen
    tests of which thirteen pass, the request for the student's levels
    being the one that fails; it returns exit code 1, and leaves the
    store with the test student and two more results. *)
Theorem test_script_run_on_fresh_store :
  exists self' srv',
    the_run_all_tests Tester_init srv = Some (self', srv', 1) /\
    log_outline self' = full_run_log /\
    t_tests_run self' = 14 /\ t_tests_passed self' = 13 /\
    students (srv_db srv') = (students (srv_db srv) ++ [the_student])%list /\
    length (test_results (srv_db srv'))
      = (length (test_results (srv_db srv)) + 2)%nat.
Proof.
  unfold run_all_tests, test_health_check.
  passes ltac:(apply app_root).
  unfold test_register_student.
  passes ltac:(exact app_register).
  unfold test_login_student.
  cbn [t_student_data set_student_data log_test].
  passes ltac:(exact app_login).
  cbn [response_access_token access_token].
  unfold test_get_levels.
  erewrite run_test_fails;
    [|cbn [t_token log_test set_token set_student_data];
      apply (app_levels _ 3%nat); [done|lia]
     |done].
  cbv beta iota.
  unfold test_get_webdev_questions.
  passes ltac:(apply (app_questions _ 4%nat "webdev"); [done|lia|done]).
  unfold test_get_ml_questions.
  passes ltac:(apply (app_questions _ 5%nat "ml"); [done|lia|done]).
  unfold test_submit_webdev_test.
  match goal with
  | |- context [test_submit _ _ _ _ _ _ _ _ _ _ ?self ?s ?n ?f ?g ?t ?i] =>
      destruct (test_submit_in_run self s n f g t i) as (d1 & d2 & doc1 & ->);
      [done|done|lia|lia|done|]
  end.
  cbn [mbind option_bind]. cbv beta iota.
  unfold test_submit_ml_test.
  match goal with
  | |- context [test_submit _ _ _ _ _ _ _ _ _ _ ?self ?s ?n ?f ?g ?t ?i] =>
      destruct (test_submit_in_run self s n f g t i) as (d3 & d4 & doc2 & ->);
      [done|done|lia|lia|done|]
  end.
  cbn [mbind option_bind]. cbv beta iota.
  unfold test_get_recommendations.
  match goal with
  | |- context [run_test _ _ _ _ _ _ _ _ _ _ _ ?s] =>
      destruct (app_recommendations s 10%nat) as [recs Hrecs]; [done|lia|]
  end.
  passes ltac:(exact Hrecs).
  unfold test_get_docs.
  passes ltac:(apply (app_docs _ 11%nat); [done|lia]).
  unfold test_chat_endpoint.
  passes ltac:(apply (app_chat _ 12%nat); [done|lia]).
  unfold test_unauthorized_access.
  passes ltac:(apply app_without_token).
  eexists _, _. split; [reflexivity|].
  split; [reflexivity|]. split; [reflexivity|]. split; [reflexivity|].
  split; [reflexivity|].
  cbn [srv_db test_results insert_test_result insert_student].
  rewrite !length_app. simpl. lia.
Qed.
End TestScriptFullRun.

Lemma test_script_run_on_fresh_store_witness :
  exists self' srv',
    run_all_tests example_settings example_int (fun _ => true) example_hash example_verify
      (fun p => p) example_fromisoformat example_world
      (fun _ _ _ => "Status") (fun _ => "2024-01-04T07:30:00") "073000"
      Tester_init (mkServer (mkDb [] []) []) = Some (self', srv', 1) /\
    log_outline self' = full_run_log /\
    t_tests_run self' = 14 /\ t_tests_passed self' = 13 /\
    students (srv_db srv') =
      ([] ++ [registered_student example_hash (example_world 1)
                (test_student "073000")])%list /\
    length (test_results (srv_db srv')) = (0 + 2)%nat.
Proof.
  apply (test_script_run_on_fresh_store example_settings example_int (fun _ => true)
           example_hash example_verify (fun p => p) example_fromisoformat
           example_world (fun _ _ _ => "Status")
           (fun _ => "2024-01-04T07:30:00") "073000"
           (mkServer (mkDb [] []) [])).
  - reflexivity.
  - reflexivity.
  - reflexivity.
  - reflexivity.
  - intros n Hn. simpl. lia.
Defined.

(** ** The stored students keep their shape *)

Section StoredStudents.
Variable settings : Settings.
Variable int_of_str : string -> option Z.
Variable EmailStr_valid : string -> bool.
Variable pwd_hash : string -> string -> string.
Variable pwd_verify : string -> string -> bool.
Variable round2 : float -> float.
Variable fromisoformat : string -> option datetime.

Lemma students_wellformed_register db now salt new_id payload :
  EmailStr_valid (reg_email payload) = true ->
  ObjectId (str_oid new_id) = Some new_id ->
  students_wellformed EmailStr_valid db ->
  students_wellformed EmailStr_valid
    (snd (register_student pwd_hash db now salt new_id payload)).
Proof.
  intros Hemail Hoid Hwf. unfold register_student.
  destruct (get_student_by_email db (reg_email payload)); [done|].
  unfold students_wellformed. simpl. apply Forall_app. split; [done|].
  by repeat constructor.
Qed.

Lemma students_wellformed_call_endpoint e path_params srv at_ req :
  ObjectId (str_oid (at_oid at_)) = Some (at_oid at_) ->
  students_wellformed EmailStr_valid (srv_db srv) ->
  students_wellformed EmailStr_valid
    (srv_db (snd (call_endpoint settings int_of_str EmailStr_valid pwd_hash
                    pwd_verify round2 fromisoformat e path_params srv at_
                    req))).
Proof.
  intros Hoid Hwf. destruct e; cbn -[register_student submit_test]; try done.
  - by destruct (req_body req).
  - destruct (req_body req) as [| |payload| | | |]; try done.
    destruct (EmailStr_valid (reg_email payload)) eqn:Hemail; [|done].
    pose proof (students_wellformed_register (srv_db srv) (at_clock at_)
                  (at_salt at_) (at_oid at_) payload Hemail Hoid Hwf) as H.
    by destruct (register_student _ _ _ _ _ _).
  - destruct (req_body req) as [| | |payload| | |]; try done.
    by destruct (EmailStr_valid (login_email payload)).
  - destruct (current_student_dependency _ _ _ _ _ _) as [st| |]; try done.
    destruct (req_body req) as [| | | |answers| |]; try done.
    pose proof (submit_test_students round2 (srv_db srv) (at_clock at_)
                  (at_oid at_) (path_param "track" path_params) answers st)
      as H.
    destruct (submit_test _ _ _ _ _ _ _) as [o db']. simpl in *.
    unfold students_wellformed. by rewrite H.
  - destruct (current_student_dependency _ _ _ _ _ _) as [st| |]; try done.
    by destruct (req_body req).
Qed.
End StoredStudents.

(** X26: every stored student has an id that reads back from its printed
    form and an email the address type accepts: this holds in the empty
    store and is kept by every request the application serves, the store
    handing out object ids. *)
Theorem students_stay_wellformed
    (settings : Settings) (int_of_str : string -> option Z)
    (EmailStr_valid : string -> bool)
    (pwd_hash : string -> string -> string)
    (pwd_verify : string -> string -> bool) (round2 : float -> float)
    (fromisoformat : string -> option datetime) :
  students_wellformed EmailStr_valid (mkDb [] []) /\
  (forall srv at_ req,
     ObjectId (str_oid (at_oid at_)) = Some (at_oid at_) ->
     students_wellformed EmailStr_valid (srv_db srv) ->
     students_wellformed EmailStr_valid
       (srv_db (snd (app settings int_of_str EmailStr_valid pwd_hash
                       pwd_verify round2 fromisoformat srv at_ req)))).
Proof.
  split; [constructor|].
  intros srv at_ req Hoid Hwf. unfold app.
  destruct (dispatch (req_method req) (req_path req)) as [e path_params| |];
    try done.
  pose proof (students_wellformed_call_endpoint settings int_of_str
                EmailStr_valid pwd_hash pwd_verify round2 fromisoformat e
                path_params srv at_ req Hoid Hwf) as H.
  by destruct (call_endpoint _ _ _ _ _ _ _ _ _ _ _ _).
Qed.
